(** * Gain reconciliation and withdrawal gate of the alert orchestrator

    A shallow embedding of
      - [src/shared/models.py]               (Transaction, WalletBreakdown,
        AdjustedSupplyPosition),
      - [src/shared/correct_calculations.py] (timebase, interpolation,
        transaction vectors, CDFs, corrected gains, adjusted positions),
      - [src/core/alert_logic.py]            (per-wallet caps, residual gate,
        price-mismatch hysteresis),
      - [src/core/reference_state.py]        (last reference per asset),
      - [src/core/io_adapters.py]            (duty cycle),
      - [src/shared/utils.py]                (asset names),
    followed by the properties stated about them.

    Conventions of the embedding.
      - Python [float] values are exact rationals ([Q]); equality of amounts
        is [Qeq] ([==]).  Rounding, NaN and infinities are outside the model.
      - A [datetime] is its wall-clock reading in microseconds together with
        an optional UTC offset (absent for a naive datetime).  Where Python
        reads a naive datetime in the zone of the process ([timestamp()],
        [astimezone]), that zone is UTC.
      - Strings are ASCII: [strip] and [lower] act on the ASCII range and
        [len] counts characters.
      - Python exceptions are the [Raise] results of the [result] type.
      - numpy and scipy routines that are not rational functions or whose
        code is not part of the repository ([np.std], [np.polyfit],
        [np.quantile], scipy's cubic [interp1d]) are fields of the class
        [NumLib]; [np.interp], [np.cumsum], [np.diff], [np.median] are
        written out. *)

From Stdlib Require Import ZArith QArith Qabs Qminmax Lia Lqa Ascii String Sorted.
From stdpp Require Import base option list strings gmap.

Local Open Scope Z_scope.

(** ** Exceptions *)

Inductive exn : Type :=
| ValueError (msg : string)
| IndexError
| TypeError.

Inductive result (A : Type) : Type :=
| Ok (a : A)
| Raise (e : exn).
Arguments Ok {A} a.
Arguments Raise {A} e.

(** Sequencing: the first exception raised propagates ([x ← m; k]). *)
#[export] Instance result_ret : MRet result := fun _ a => Ok a.
#[export] Instance result_bind : MBind result := fun _ _ k m =>
  match m with
  | Ok a => k a
  | Raise e => Raise e
  end.

(** ** Rational helpers *)

Definition Qlt_bool (x y : Q) : bool := negb (Qle_bool y x).

(** Python's [max(a, b)]: [a] unless [b > a]. *)
Definition py_max (a b : Q) : Q := if Qlt_bool a b then b else a.

(** Python's [min(a, b)] on integers is [Z.min]; on floats: [a] unless [b < a]. *)
Definition py_min (a b : Q) : Q := if Qlt_bool b a then b else a.

Definition Qsum (l : list Q) : Q := foldr Qplus 0%Q l.

(** ** Python sequence indexing *)

(** [l[i]] with Python's negative indices. *)
Definition py_getitem {A} (l : list A) (i : Z) : result A :=
  let n := Z.of_nat (length l) in
  let j := if i <? 0 then i + n else i in
  if (0 <=? j) && (j <? n)
  then match l !! Z.to_nat j with Some x => Ok x | None => Raise IndexError end
  else Raise IndexError.

(** [l[i] = x] on a numpy array or list. *)
Definition py_setitem {A} (l : list A) (i : Z) (x : A) : result (list A) :=
  let n := Z.of_nat (length l) in
  let j := if i <? 0 then i + n else i in
  if (0 <=? j) && (j <? n)
  then Ok (<[Z.to_nat j := x]> l)
  else Raise IndexError.

(** [l[start:stop]] with Python's clamping and negative bounds. *)
Definition py_slice_bound (n i : Z) : Z :=
  if i <? 0 then Z.max 0 (i + n) else Z.min i n.

Definition py_slice {A} (l : list A) (start stop : Z) : list A :=
  let n := Z.of_nat (length l) in
  let a := py_slice_bound n start in
  let b := py_slice_bound n stop in
  take (Z.to_nat (b - a)) (drop (Z.to_nat a) l).

(** ** Datetimes *)

Module Datetime.

(** [wall] is the wall-clock reading in microseconds since
    1970-01-01T00:00:00 of the datetime's own zone; [tzoffset] is the
    zone's UTC offset in microseconds, [None] for a naive datetime. *)
Record datetime : Type := mk_datetime {
  wall : Z;
  tzoffset : option Z
}.

Definition utc (us : Z) : datetime := mk_datetime us (Some 0).
Definition naive (us : Z) : datetime := mk_datetime us None.

Definition is_aware (dt : datetime) : bool :=
  match tzoffset dt with Some _ => true | None => false end.

(** The instant of an aware datetime, in microseconds since the epoch. *)
Definition instant (dt : datetime) : Z :=
  wall dt - default 0 (tzoffset dt).

(** [a == b]: instants for two aware datetimes, readings for two naive
    ones, and [False] for a naive against an aware one. *)
Definition eqb (a b : datetime) : bool :=
  match tzoffset a, tzoffset b with
  | Some oa, Some ob => (wall a - oa =? wall b - ob)
  | None, None => (wall a =? wall b)
  | _, _ => false
  end.

(** [a <= b], used by [sorted]; a naive against an aware one raises. *)
Definition leb (a b : datetime) : result bool :=
  match tzoffset a, tzoffset b with
  | Some oa, Some ob => Ok (wall a - oa <=? wall b - ob)
  | None, None => Ok (wall a <=? wall b)
  | _, _ => Raise TypeError
  end.

(** [(a - b).total_seconds()]. *)
Definition sub_seconds (a b : datetime) : result Q :=
  match tzoffset a, tzoffset b with
  | Some oa, Some ob => Ok (inject_Z ((wall a - oa) - (wall b - ob)) / 1000000)%Q
  | None, None => Ok (inject_Z (wall a - wall b) / 1000000)%Q
  | _, _ => Raise TypeError
  end.

(** [dt.timestamp()]: seconds since the epoch.  A naive reading is taken in
    the local zone of the process, which is UTC here. *)
Definition timestamp (dt : datetime) : Q :=
  (inject_Z (instant dt) / 1000000)%Q.

(** [normalize_timestamp] of [create_unified_timebase] (and [_norm] of
    [calculate_correct_gains]):
      dt.replace(tzinfo=utc) if dt.tzinfo is None else dt.astimezone(utc) *)
Definition normalize_timestamp (dt : datetime) : datetime :=
  match tzoffset dt with
  | None => mk_datetime (wall dt) (Some 0)
  | Some off => mk_datetime (wall dt - off) (Some 0)
  end.

(** [x in s] for a set or list of datetimes. *)
Definition mem (x : datetime) (s : list datetime) : bool :=
  existsb (eqb x) s.

(** [set(l)]: one representative per class of equal elements. *)
Fixpoint py_set (l : list datetime) : list datetime :=
  match l with
  | [] => []
  | x :: l' => if mem x l' then py_set l' else x :: py_set l'
  end.

(** [sorted(s)] on UTC datetimes, by insertion. *)
Fixpoint insert_sorted (x : datetime) (l : list datetime) : list datetime :=
  match l with
  | [] => [x]
  | y :: l' => if instant x <=? instant y then x :: l
               else y :: insert_sorted x l'
  end.

Definition sorted (l : list datetime) : list datetime :=
  foldr insert_sorted [] l.

End Datetime.
Export Datetime (datetime).

(** ** Strings *)

(** The characters removed by [str.strip()], on the ASCII range. *)
Definition is_space (c : ascii) : bool :=
  let n := nat_of_ascii c in
  ((9 <=? n) && (n <=? 13) || (28 <=? n) && (n <=? 32))%nat.

(** [not s or not s.strip()] *)
Fixpoint is_blank (s : string) : bool :=
  match s with
  | EmptyString => true
  | String c s' => is_space c && is_blank s'
  end.

(** ** Domain models ([src/shared/models.py]) *)

Module Models.
Import Datetime.

Record Transaction : Type := mk_Transaction {
  timestamp : datetime;
  wallet_address : string;
  market_id : string;
  asset_symbol : string;
  amount : Q;               (* positive for deposits, negative for withdrawals *)
  transaction_type : string; (* 'deposit' or 'withdrawal' *)
  notes : option string;
  created_at : datetime
}.

(** [Transaction.__post_init__] *)
Definition Transaction_post_init (tx : Transaction) : result unit :=
  if is_blank (wallet_address tx) then
    Raise (ValueError "wallet_address cannot be empty")
  else if is_blank (market_id tx) then
    Raise (ValueError "market_id cannot be empty")
  else if is_blank (asset_symbol tx) then
    Raise (ValueError "asset_symbol cannot be empty")
  else if negb (String.eqb (transaction_type tx) "deposit"
                || String.eqb (transaction_type tx) "withdrawal") then
    Raise (ValueError "transaction_type must be 'deposit' or 'withdrawal'")
  else if String.eqb (transaction_type tx) "deposit"
          && Qle_bool (amount tx) 0 then
    Raise (ValueError "deposit amount must be positive")
  else if String.eqb (transaction_type tx) "withdrawal"
          && Qle_bool 0 (amount tx) then
    Raise (ValueError "withdrawal amount must be negative")
  else Ok tt.

(** A transaction object exists only if its constructor returned. *)
Definition valid_transaction (tx : Transaction) : Prop :=
  Transaction_post_init tx = Ok tt.

(** [dataclasses.replace(tx, timestamp=ts)]; the constructor runs again. *)
Definition replace_timestamp (tx : Transaction) (ts : datetime)
  : result Transaction :=
  let tx' := mk_Transaction ts (wallet_address tx) (market_id tx)
               (asset_symbol tx) (amount tx) (transaction_type tx)
               (notes tx) (created_at tx) in
  _ ← Transaction_post_init tx'; Ok tx'.

Record WalletBreakdown : Type := mk_WalletBreakdown {
  wb_wallet_address : string;
  wmax_usd : Q;
  v_t1_usd : Q
}.

(** [WalletBreakdown.__post_init__] *)
Definition WalletBreakdown_post_init (wb : WalletBreakdown) : result unit :=
  if is_blank (wb_wallet_address wb) then
    Raise (ValueError "wallet_address cannot be empty")
  else if Qlt_bool (wmax_usd wb) 0 then
    Raise (ValueError "wmax_usd cannot be negative")
  else if Qlt_bool (v_t1_usd wb) 0 then
    Raise (ValueError "v_t1_usd cannot be negative")
  else Ok tt.

(** The constructor call [WalletBreakdown(wallet_address=.., wmax_usd=..,
    v_t1_usd=..)]. *)
Definition new_WalletBreakdown (addr : string) (wmax v_t1 : Q)
  : result WalletBreakdown :=
  let wb := mk_WalletBreakdown addr wmax v_t1 in
  _ ← WalletBreakdown_post_init wb; Ok wb.

(** [WalletBreakdown.abbreviated_address]: the first 11 characters, three
    dots and the last 6 characters of an address longer than 17. *)
Definition abbreviated_address (wb : WalletBreakdown) : string :=
  let a := wb_wallet_address wb in
  if (String.length a <=? 17)%nat then a
  else (String.substring 0 11 a ++ "..."
        ++ String.substring (String.length a - 6) 6 a)%string.

Record AdjustedSupplyPosition : Type := mk_AdjustedSupplyPosition {
  asp_timestamp : datetime;
  asp_asset_symbol : string;
  raw_position : Q;
  cumulative_deposits : Q;
  cumulative_withdrawals : Q;
  adjusted_position : Q;   (* true gain using the correct formula *)
  net_gain : Q
}.

(** [AdjustedSupplyPosition.__post_init__] *)
Definition AdjustedSupplyPosition_post_init (a : AdjustedSupplyPosition)
  : result unit :=
  if is_blank (asp_asset_symbol a) then
    Raise (ValueError "asset_symbol cannot be empty")
  else if Qlt_bool (raw_position a) 0 then
    Raise (ValueError "raw_position cannot be negative")
  else if Qlt_bool (cumulative_deposits a) 0 then
    Raise (ValueError "cumulative_deposits cannot be negative")
  else if Qlt_bool 0 (cumulative_withdrawals a) then
    Raise (ValueError "cumulative_withdrawals must be negative or zero")
  else Ok tt.

(** The constructor call of [calculate_correct_adjusted_positions]. *)
Definition new_AdjustedSupplyPosition (ts : datetime) (asset : string)
    (raw cum_dep cum_wd adjusted net : Q) : result AdjustedSupplyPosition :=
  let a := mk_AdjustedSupplyPosition ts asset raw cum_dep cum_wd adjusted net in
  _ ← AdjustedSupplyPosition_post_init a; Ok a.

(** [GainStats] with its [__post_init__]: a negative baseline is rejected. *)
Record GainStats : Type := mk_GainStats {
  initial_total : Q;
  average_percentage_gain : option Q;
  average_absolute_gain : option Q
}.

Definition new_GainStats (initial : Q) (avg_pct avg_abs : option Q)
  : result GainStats :=
  if Qlt_bool initial 0 then Raise (ValueError "initial_total cannot be negative")
  else Ok (mk_GainStats initial avg_pct avg_abs).

End Models.
Export Models (Transaction, WalletBreakdown).

(** ** Numerical routines taken from numpy and scipy *)

Class NumLib : Type := {
  (** [np.std(a)] (population standard deviation, [ddof=0]). *)
  np_std : list Q -> Q;
  (** [scipy.interpolate.interp1d(xp, fp, kind='cubic', bounds_error=False,
      fill_value=nan)] applied to one abscissa; [None] stands for NaN.
      The field is [None] when scipy cannot be imported. *)
  scipy_interp1d_cubic : option (list Q -> list Q -> Q -> result (option Q));
  (** [np.poly1d(np.polyfit(x, y, order))(x)]: the fitted values. *)
  np_polyfit_eval : list Q -> list Q -> Z -> result (list Q);
  (** [np.quantile(a, [p_low, p_high])]. *)
  np_quantile2 : list Q -> Q -> Q -> result (Q * Q)
}.

(** ** numpy routines written out *)

Module Numpy.

(** [np.zeros(n)] *)
Definition np_zeros (n : nat) : list Q := replicate n 0%Q.

(** [np.cumsum(a)] *)
Fixpoint cumsum_from (acc : Q) (a : list Q) : list Q :=
  match a with
  | [] => []
  | x :: a' => (acc + x)%Q :: cumsum_from (acc + x)%Q a'
  end.
Definition np_cumsum (a : list Q) : list Q := cumsum_from 0%Q a.

(** [np.diff(a)] *)
Definition np_diff (a : list Q) : list Q :=
  zip_with (fun x y => (y - x)%Q) a (tail a).

(** [np.where(mask)[0]]: the positions where the predicate holds. *)
Fixpoint where_from {A} (p : A -> bool) (i : Z) (l : list A) : list Z :=
  match l with
  | [] => []
  | x :: l' => if p x then i :: where_from p (i + 1) l'
               else where_from p (i + 1) l'
  end.
Definition np_where {A} (p : A -> bool) (l : list A) : list Z :=
  where_from p 0 l.

(** Sorting of rationals, for [np.median]. *)
Fixpoint Qinsert (x : Q) (l : list Q) : list Q :=
  match l with
  | [] => [x]
  | y :: l' => if Qle_bool x y then x :: l else y :: Qinsert x l'
  end.
Definition Qsort (l : list Q) : list Q := foldr Qinsert [] l.

(** [np.median(a)] of a non-empty array (NaN, here 0, on an empty one). *)
Definition np_median (a : list Q) : Q :=
  let s := Qsort a in
  let n := length s in
  if Nat.even n
  then ((default 0 (s !! (n / 2 - 1)%nat) + default 0 (s !! (n / 2)%nat)) / 2)%Q
  else default 0%Q (s !! (n / 2)%nat).

(** [np.min(a)] and [np.max(a)] of a non-empty array. *)
Definition np_min (a : list Q) : option Q :=
  match a with
  | [] => None
  | x :: a' => Some (foldl py_min x a')
  end.
Definition Zmax_list (a : list Z) : option Z :=
  match a with
  | [] => None
  | x :: a' => Some (foldl Z.max x a')
  end.

(** [np.argmin(a)]: the first position of the least element. *)
Fixpoint argmin_from (i best_i : Z) (best : Q) (a : list Q) : Z :=
  match a with
  | [] => best_i
  | x :: a' => if Qlt_bool x best then argmin_from (i + 1) i x a'
               else argmin_from (i + 1) best_i best a'
  end.
Definition np_argmin (a : list Q) : option Z :=
  match a with
  | [] => None
  | x :: a' => Some (argmin_from 1 0 x a')
  end.

(** [np.isclose(a, b)] with the default [rtol=1e-05], [atol=1e-08]. *)
Definition np_isclose (a b : Q) : bool :=
  Qle_bool (Qabs (a - b)) ((1 # 100000000) + (1 # 100000) * Qabs b).

(** [np.interp(x, xp, fp)]: piecewise-linear interpolation over the knots
    [xp] (assumed non-decreasing, as numpy does), holding [fp[0]] to the
    left of the first knot and [fp[-1]] to the right of the last one.
    [interp_segment] finds the segment [xp[j] <= x < xp[j+1]]; on a knot
    the knot's value is returned as it is. *)
Fixpoint interp_segment (x : Q) (xp fp : list Q) : Q :=
  match xp, fp with
  | x0 :: ((x1 :: _) as xp'), y0 :: ((y1 :: _) as fp') =>
      if Qle_bool x1 x then interp_segment x xp' fp'
      else if Qeq_bool x0 x then y0
      else ((y1 - y0) / (x1 - x0) * (x - x0) + y0)%Q
  | _ :: _, y0 :: _ => y0
  | _, _ => 0%Q
  end.

Definition interp_point (xp fp : list Q) (x : Q) : Q :=
  match xp, fp with
  | x0 :: _, y0 :: _ =>
      if Qlt_bool x x0 then y0
      else if Qlt_bool (default 0%Q (last xp)) x then default 0%Q (last fp)
      else interp_segment x xp fp
  | _, _ => 0%Q
  end.

Definition np_interp (x xp fp : list Q) : result (list Q) :=
  if (length xp =? 0)%nat then
    Raise (ValueError "array of sample points is empty")
  else if negb (length fp =? length xp)%nat then
    Raise (ValueError "fp and xp are not of the same length.")
  else Ok (map (interp_point xp fp) x).

End Numpy.

(** ** Corrected gains ([src/shared/correct_calculations.py]) *)

Module CorrectCalculations.
Import Datetime Models Numpy.

(** The alignment policies accepted by the configuration
    ([ClientConfig.__post_init__]).  [AlignNone] is the exact policy
    ("none"); a string that names no policy behaves like it. *)
Inductive alignment_method : Type :=
| AlignNone
| RightOpen
| SnapToNextPos
| SnapToPrevPos
| SnapToNearestPos
| DetectSpike.

#[export] Instance alignment_method_eq_dec : EqDecision alignment_method.
Proof. solve_decision. Defined.

(** [create_unified_timebase] *)
Definition create_unified_timebase
    (position_timestamps transaction_timestamps : list datetime)
  : list datetime :=
  let normalized_position := map normalize_timestamp position_timestamps in
  let normalized_transaction := map normalize_timestamp transaction_timestamps in
  let all_timestamps := py_set (normalized_position ++ normalized_transaction) in
  sorted all_timestamps.

Section WithNumLib.
Context `{NumLib}.

(** [interpolate_positions_on_timebase] *)
Definition interpolate_positions_on_timebase
    (position_timestamps : list datetime) (position_values : list Q)
    (unified_timebase : list datetime) (interpolation_method : string)
  : result (list Q) :=
  if negb (length position_timestamps =? length position_values)%nat then
    Raise (ValueError "Position timestamps and values must have same length")
  else
    let normalized_position_timestamps :=
      map normalize_timestamp position_timestamps in
    let position_numeric := map Datetime.timestamp normalized_position_timestamps in
    let unified_numeric := map Datetime.timestamp unified_timebase in
    if String.eqb interpolation_method "linear" then
      np_interp unified_numeric position_numeric position_values
    else if String.eqb interpolation_method "cubic" then
      match scipy_interp1d_cubic with
      | None =>
          (* ImportError: fall back to linear *)
          np_interp unified_numeric position_numeric position_values
      | Some f =>
          if (length position_values <? 4)%nat then
            np_interp unified_numeric position_numeric position_values
          else
            (* NaN entries (outside the sampled range) are filled by
               np.interp at the same abscissa *)
            mapM (fun x =>
                    y ← f position_numeric position_values x;
                    Ok (match y with
                        | Some v => v
                        | None => interp_point position_numeric position_values x
                        end))
                 unified_numeric
      end
    else
      Raise (ValueError "Unsupported interpolation method").

(** *** Index selection: the closure [choose_index_for_tx] *)

(** [while i < n and not pos_mask[i]: i += 1] *)
Fixpoint while_next (pos_mask : list bool) (n i : Z) (fuel : nat) : Z :=
  match fuel with
  | O => i
  | S fuel' =>
      if (i <? n) && negb (default false (pos_mask !! Z.to_nat i))
      then while_next pos_mask n (i + 1) fuel'
      else i
  end.

(** [while i >= 0 and not pos_mask[i]: i -= 1] *)
Fixpoint while_prev (pos_mask : list bool) (i : Z) (fuel : nat) : Z :=
  match fuel with
  | O => i
  | S fuel' =>
      if (0 <=? i) && negb (default false (pos_mask !! Z.to_nat i))
      then while_prev pos_mask (i - 1) fuel'
      else i
  end.

Definition snap_to_next_pos (pos_mask : list bool) (n idx : Z) : Z :=
  let i := while_next pos_mask n idx (Z.to_nat (n - idx)) in
  if n <=? i then
    (* fallback: the last available position sample *)
    default idx (last (np_where id pos_mask))
  else i.

Definition snap_to_prev_pos (pos_mask : list bool) (idx : Z) : Z :=
  let i := while_prev pos_mask idx (Z.to_nat (idx + 1)) in
  if i <? 0 then
    (* fallback: the first available position sample, or the base index *)
    default idx (head (np_where id pos_mask))
  else i.

(** The body of the [snap_to_nearest_pos] branch when [pos_mask.any()];
    [None] when the branch falls through. *)
Definition snap_to_nearest_pos
    (unified_timebase : list datetime) (pos_mask : list bool)
    (idx : Z) (tx : Transaction) : option Z :=
  let pos_indices := np_where id pos_mask in
  let attempt : result (option Z) :=
    deltas ← mapM (fun k =>
                     tb ← py_getitem unified_timebase k;
                     d ← sub_seconds tb (timestamp tx);
                     Ok (Qabs d)) pos_indices;
    match np_min deltas with
    | Some min_d =>
        let candidates :=
          map fst (filter (fun kd => Is_true (np_isclose (snd kd) min_d))
                          (zip pos_indices deltas)) in
        match Zmax_list candidates with
        | Some m => Ok (Some m)
        | None => Raise (ValueError "zero-size array to reduction operation")
        end
    | None => Ok None
    end in
  match attempt with
  | Ok r => r
  | Raise _ =>
      (* except Exception: fall back to index distance *)
      let dist := map (fun k => Qabs (inject_Z (k - idx))) pos_indices in
      match np_argmin dist with
      | Some j => Some (default idx (pos_indices !! Z.to_nat j))
      | None => None
      end
  end.

(** Lexicographic [score < best_score] on [(dist, -abs(zval))]. *)
Definition score_lt (a b : Z * Q) : bool :=
  (a.1 <? b.1) || ((a.1 =? b.1) && Qlt_bool a.2 b.2).

(** The loop of [_scan], from position [j] on. *)
Fixpoint scan_loop (start idx : Z) (sign mag alpha beta z_threshold : Q)
    (ignore_magnitude : bool) (j : Z) (local_z : list (Q * Q))
    (best : option (Z * (Z * Q))) : option (Z * (Z * Q)) :=
  match local_z with
  | [] => best
  | (val, zval) :: rest =>
      let continue_ := scan_loop start idx sign mag alpha beta z_threshold
                         ignore_magnitude (j + 1) rest in
      if Qle_bool (sign * val) 0 || Qlt_bool (Qabs zval) z_threshold then
        continue_ best
      else if negb ignore_magnitude && Qlt_bool 0 mag
              && negb (Qle_bool alpha (Qabs val / mag)
                       && Qle_bool (Qabs val / mag) beta) then
        continue_ best
      else
        let dist := Z.abs ((start + j) - idx) in
        let score := (dist, (- Qabs zval)%Q) in
        match best with
        | None => continue_ (Some (start + j, score))
        | Some (_, best_score) =>
            if score_lt score best_score
            then continue_ (Some (start + j, score))
            else continue_ best
        end
  end.

Definition scan (start idx : Z) (sign mag alpha beta z_threshold : Q)
    (local z : list Q) (ignore_magnitude : bool) : option Z :=
  fst <$> scan_loop start idx sign mag alpha beta z_threshold
            ignore_magnitude 0 (zip local z) None.

(** The forward loop of the final fallback: the first same-signed step
    that is not flat. *)
Fixpoint forward_loop (sign : Q) (j : Z) (forward_local : list Q) : option Z :=
  match forward_local with
  | [] => None
  | val :: rest =>
      if Qlt_bool (1 # 1000000000) (Qabs val) && Qlt_bool 0 (sign * val)
      then Some j
      else forward_loop sign (j + 1) rest
  end.

(** The [detect_spike] branch, entered when [0 < idx < n]; [None] when it
    falls through to the default. *)
Definition detect_spike
    (n : Z) (interpolated_positions : list Q)
    (window_bins : Z) (z_threshold : Q) (magnitude_band : Q * Q)
    (idx : Z) (tx : Transaction) : option Z :=
  let start := Z.max 1 (idx - window_bins) in
  let end_ := Z.min (n - 1) (idx + window_bins) in
  let dP := np_diff interpolated_positions in
  let local := py_slice dP start (end_ + 1) in
  if (0 <? length local)%nat then
    let med := np_median local in
    let mad := np_median (map (fun v => Qabs (v - med)) local) in
    let scale :=
      if Qlt_bool 0 mad then ((14826 # 10000) * mad)%Q
      else if Qlt_bool 0 (np_std local) then np_std local else 1%Q in
    let z := map (fun v => ((v - med) / scale)%Q) local in
    let sign := if String.eqb (transaction_type tx) "withdrawal"
                then (- 1)%Q else 1%Q in
    let mag := Qabs (amount tx) in
    let '(alpha, beta) := magnitude_band in
    let best_i :=
      match scan start idx sign mag alpha beta z_threshold local z false with
      | Some b => Some b
      | None => scan start idx sign mag alpha beta z_threshold local z true
      end in
    match best_i with
    | Some b => Some (Z.min (b + 1) (n - 1))
    | None =>
        let max_forward := Z.max 8 (window_bins * 3) in
        let f_start := idx in
        let f_end := Z.min (n - 2) (idx + max_forward) in
        if f_start <? f_end then
          let forward_local := py_slice dP f_start (f_end + 1) in
          match forward_loop sign 0 forward_local with
          | Some j => Some (Z.min (f_start + j + 1) (n - 1))
          | None => None
          end
        else None
    end
  else None.

(** [choose_index_for_tx(idx, tx)], closed over the arguments of
    [create_transaction_vectors_on_timebase]. *)
Definition choose_index_for_tx
    (method : alignment_method) (unified_timebase : list datetime)
    (pos_mask : option (list bool)) (allow_detect : bool)
    (interpolated_positions : option (list Q))
    (window_bins : Z) (z_threshold : Q) (magnitude_band : Q * Q)
    (idx : Z) (tx : Transaction) : Z :=
  let n := Z.of_nat (length unified_timebase) in
  match method, pos_mask with
  | RightOpen, _ => Z.min (idx + 1) (n - 1)
  | SnapToNextPos, Some mask => snap_to_next_pos mask n idx
  | SnapToPrevPos, Some mask => snap_to_prev_pos mask idx
  | _, _ =>
      let nearest :=
        match method, pos_mask with
        | SnapToNearestPos, Some mask =>
            if existsb id mask
            then snap_to_nearest_pos unified_timebase mask idx tx
            else None
        | _, _ => None
        end in
      match nearest with
      | Some r => r
      | None =>
          let detected :=
            match interpolated_positions with
            | Some ip =>
                if allow_detect && (0 <? idx) && (idx <? n)
                then detect_spike n ip window_bins z_threshold
                       magnitude_band idx tx
                else None
            | None => None
            end in
          (* default: no shift *)
          default idx detected
      end
  end.

(** *** [create_transaction_vectors_on_timebase] *)

(** One iteration of the loop over the transactions: look the timestamp
    up in the timebase, choose the index, store the amount. *)
Definition map_transaction
    (method : alignment_method) (unified_timebase : list datetime)
    (pos_mask : option (list bool)) (allow_detect : bool)
    (interpolated_positions : option (list Q))
    (window_bins : Z) (z_threshold : Q) (magnitude_band : Q * Q)
    (vectors : list Q * list Q) (transaction : Transaction)
  : result (list Q * list Q) :=
  let '(deposit_vector, withdrawal_vector) := vectors in
  let matches :=
    np_where (fun tb => Datetime.eqb tb (timestamp transaction))
             unified_timebase in
  match matches with
  | base_idx :: _ =>
      let idx := choose_index_for_tx method unified_timebase pos_mask
                   allow_detect interpolated_positions window_bins
                   z_threshold magnitude_band base_idx transaction in
      if String.eqb (transaction_type transaction) "deposit" then
        d ← py_setitem deposit_vector idx (amount transaction);
        Ok (d, withdrawal_vector)
      else if String.eqb (transaction_type transaction) "withdrawal" then
        w ← py_setitem withdrawal_vector idx (Qabs (amount transaction));
        Ok (deposit_vector, w)
      else Ok (deposit_vector, withdrawal_vector)
  | [] =>
      (* "Transaction timestamp not found in unified timebase": logged,
         the event is dropped *)
      Ok (deposit_vector, withdrawal_vector)
  end.

Fixpoint map_transactions
    (method : alignment_method) (unified_timebase : list datetime)
    (pos_mask : option (list bool)) (allow_detect : bool)
    (interpolated_positions : option (list Q))
    (window_bins : Z) (z_threshold : Q) (magnitude_band : Q * Q)
    (vectors : list Q * list Q) (transactions : list Transaction)
  : result (list Q * list Q) :=
  match transactions with
  | [] => Ok vectors
  | transaction :: rest =>
      v ← map_transaction method unified_timebase pos_mask allow_detect
            interpolated_positions window_bins z_threshold magnitude_band
            vectors transaction;
      map_transactions method unified_timebase pos_mask allow_detect
        interpolated_positions window_bins z_threshold magnitude_band
        v rest
  end.

(** The mask of the timebase indices that are original position samples;
    absent when the set is absent or empty. *)
Definition make_pos_mask (position_timestamps_set : option (list datetime))
    (unified_timebase : list datetime) : option (list bool) :=
  match position_timestamps_set with
  | Some ((_ :: _) as s) => Some (map (fun tb => mem tb s) unified_timebase)
  | _ => None
  end.

Definition create_transaction_vectors_on_timebase
    (transactions : list Transaction) (unified_timebase : list datetime)
    (interpolated_positions : option (list Q))
    (position_timestamps_set : option (list datetime))
    (method : alignment_method)
    (window_bins : Z) (z_threshold : Q) (magnitude_band : Q * Q)
  : result (list Q * list Q) :=
  let deposit_vector := np_zeros (length unified_timebase) in
  let withdrawal_vector := np_zeros (length unified_timebase) in
  let allow_detect :=
    bool_decide (method = DetectSpike)
    && bool_decide (is_Some interpolated_positions) in
  let pos_mask := make_pos_mask position_timestamps_set unified_timebase in
  map_transactions method unified_timebase pos_mask allow_detect
    interpolated_positions window_bins z_threshold magnitude_band
    (deposit_vector, withdrawal_vector) transactions.

(** Defaults of the keyword arguments. *)
Definition default_window_bins : Z := 8.
Definition default_z_threshold : Q := 3.
Definition default_magnitude_band : Q * Q := (3 # 10, 15 # 10)%Q.

(** *** [calculate_correct_gains] *)

Record GainsResult : Type := mk_GainsResult {
  unified_timebase_of : list datetime;
  interpolated_positions_of : list Q;
  deposit_cdf_of : list Q;
  withdrawal_cdf_of : list Q;
  gains_of : list Q
}.

Definition calculate_correct_gains
    (position_timestamps : list datetime) (position_values : list Q)
    (transactions : list Transaction)
    (reference_time_index : Z)
    (interpolation_method : string)
    (method : alignment_method)
    (use_created : bool)          (* tx_timestamp_source == "created_at" *)
  : result GainsResult :=
  (* Step 1: unified timebase *)
  let transaction_timestamps :=
    map (fun tx => if use_created then created_at tx else timestamp tx)
        transactions in
  let unified_timebase :=
    create_unified_timebase position_timestamps transaction_timestamps in
  (* Step 2: interpolate positions *)
  interpolated_positions ←
    interpolate_positions_on_timebase position_timestamps position_values
      unified_timebase interpolation_method;
  (* Step 3: transaction vectors *)
  let pos_ts_set := py_set (map normalize_timestamp position_timestamps) in
  let txs_for_map :=
    if use_created
    then map (fun tx => match replace_timestamp tx (created_at tx) with
                        | Ok tx' => tx'
                        | Raise _ => tx
                        end) transactions
    else transactions in
  vectors ←
    create_transaction_vectors_on_timebase txs_for_map unified_timebase
      (Some interpolated_positions) (Some pos_ts_set) method
      default_window_bins default_z_threshold default_magnitude_band;
  let '(deposit_vector, withdrawal_vector) := vectors in
  (* Step 4: cumulative deposit and withdrawal functions *)
  let deposit_cdf := np_cumsum deposit_vector in
  let withdrawal_cdf := np_cumsum withdrawal_vector in
  (* Step 5: gains *)
  if Z.of_nat (length unified_timebase) <=? reference_time_index then
    Raise (ValueError "Reference time index out of bounds")
  else
    P_t0 ← py_getitem interpolated_positions reference_time_index;
    CDF_D_t0 ← py_getitem deposit_cdf reference_time_index;
    CDF_W_t0 ← py_getitem withdrawal_cdf reference_time_index;
    let gains :=
      zip_with (fun p dw => (p - P_t0 - (dw.1 - CDF_D_t0) + (dw.2 - CDF_W_t0))%Q)
               interpolated_positions (zip deposit_cdf withdrawal_cdf) in
    Ok (mk_GainsResult unified_timebase interpolated_positions
          deposit_cdf withdrawal_cdf gains).

(** *** [calculate_correct_adjusted_positions] *)

(** The loop over [enumerate(timebase)]: one row per timebase point that is
    an original position timestamp; a constructor that raises ends it. *)
Fixpoint adjusted_rows (asset_symbol : string)
    (original_timestamps : list datetime)
    (timebase : list datetime) (positions deposits_cdf withdrawals_cdf
                                gains : list Q)
  : result (list AdjustedSupplyPosition) :=
  match timebase, positions, deposits_cdf, withdrawals_cdf, gains with
  | ts :: timebase', p :: positions', d :: deposits', w :: withdrawals',
    g :: gains' =>
      if mem ts original_timestamps then
        let cumulative_investment := (d - w)%Q in
        row ← new_AdjustedSupplyPosition ts asset_symbol p d (- w)%Q g
                cumulative_investment;
        rest ← adjusted_rows asset_symbol original_timestamps timebase'
                 positions' deposits' withdrawals' gains';
        Ok (row :: rest)
      else
        adjusted_rows asset_symbol original_timestamps timebase'
          positions' deposits' withdrawals' gains'
  | _, _, _, _, _ => Ok []
  end.

Definition calculate_correct_adjusted_positions
    (asset_symbol : string) (supply_data : list (datetime * Q))
    (transactions : list Transaction) (reference_time_index : Z)
    (interpolation_method : string)
  : result (list AdjustedSupplyPosition) :=
  match supply_data with
  | [] => Ok []
  | _ :: _ =>
      let position_timestamps := map fst supply_data in
      let position_values := map snd supply_data in
      r ← calculate_correct_gains position_timestamps position_values
            transactions reference_time_index interpolation_method
            AlignNone false;
      let original_timestamps := position_timestamps in
      adjusted_rows asset_symbol original_timestamps
        (unified_timebase_of r) (interpolated_positions_of r)
        (deposit_cdf_of r) (withdrawal_cdf_of r) (gains_of r)
  end.

End WithNumLib.
End CorrectCalculations.

(** ** Alert logic ([src/core/alert_logic.py]) *)

Module AlertLogic.
Import Datetime Models Numpy CorrectCalculations.

Definition WITHDRAW_OK : Z := 1.
Definition HOLD : Z := 0.
Definition ERROR : Z := -1.

(** The fields of [AssetDecision] written by the parts modelled here. *)
Record AssetDecision : Type := mk_AssetDecision {
  decision : Z;                         (* 1=WITHDRAW_OK, 0=HOLD, -1=ERROR *)
  wmax_usd_list : list WalletBreakdown; (* the field [wmax_usd] *)
  g_usd : option Q;
  residual_usd : option Q;
  sigma_usd : option Q;
  residual_trigger : option Z;
  gate_applied : option bool;
  prices_by_source : list (string * Q);
  price_delta_abs : option Q;
  price_delta_rel : option Q;
  price_mismatch : option Z;
  price_compare_unavailable : option Z
}.

Definition set_decision (d : Z) (dec : AssetDecision) : AssetDecision :=
  mk_AssetDecision d (wmax_usd_list dec) (g_usd dec) (residual_usd dec)
    (sigma_usd dec) (residual_trigger dec) (gate_applied dec)
    (prices_by_source dec) (price_delta_abs dec) (price_delta_rel dec)
    (price_mismatch dec) (price_compare_unavailable dec).

Definition set_gate (d : Z) (applied : bool) (r s : option Q)
    (trig : option Z) (dec : AssetDecision) : AssetDecision :=
  mk_AssetDecision d (wmax_usd_list dec) (g_usd dec) r s trig (Some applied)
    (prices_by_source dec) (price_delta_abs dec) (price_delta_rel dec)
    (price_mismatch dec) (price_compare_unavailable dec).

(** *** Per-wallet caps: [_calculate_per_wallet_wmax] *)

(** A wallet's position series: the items of the dict
    [wallet_series.series], keyed by UTC datetimes. *)
Definition series := list (datetime * Q).

(** [wallet_series.series[ts]] for a key of the dict. *)
Fixpoint series_get (s : series) (ts : datetime) : Q :=
  match s with
  | [] => 0%Q
  | (k, v) :: s' => if Datetime.eqb k ts then v else series_get s' ts
  end.

Section WithNumLib.
Context `{NumLib}.

(** The last corrected gain of one wallet: [float(gains[-1])], from the
    wallet's own series and its own transactions, with [t0] at index 0. *)
Definition wallet_gain (method : alignment_method) (use_created : bool)
    (all_txs : list Transaction) (wallet_addr : string)
    (wallet_series : series) : result Q :=
  let wallet_txs :=
    filter (fun tx => wallet_address tx = wallet_addr) all_txs in
  let pos_ts := sorted (map fst wallet_series) in
  let pos_vals := map (series_get wallet_series) pos_ts in
  r ← calculate_correct_gains pos_ts pos_vals wallet_txs 0 "linear"
        method use_created;
  Ok (default 0%Q (last (gains_of r))).

(** The body of the loop for one wallet; [None] when the wallet is skipped
    ([continue]), either for an empty series or after an exception. *)
Definition wallet_entry (safety_factor_c : Q) (method : alignment_method)
    (use_created : bool) (all_txs : list Transaction)
    (wallet : string * series) : option WalletBreakdown :=
  let '(wallet_addr, wallet_series) := wallet in
  match wallet_series with
  | [] => None
  | _ :: _ =>
      let pos_ts := sorted (map fst wallet_series) in
      let pos_vals := map (series_get wallet_series) pos_ts in
      let attempt :=
        g_wallet ← wallet_gain method use_created all_txs wallet_addr
                     wallet_series;
        let wmax_wallet := py_max 0 (safety_factor_c * g_wallet) in
        let v_t1_usd := default 0%Q (last pos_vals) in
        new_WalletBreakdown wallet_addr wmax_wallet v_t1_usd in
      match attempt with
      | Ok wb => Some wb
      | Raise _ => None
      end
  end.

Definition _calculate_per_wallet_wmax
    (wallet_series_dict : list (string * series))
    (all_txs : list Transaction)
    (method : alignment_method) (use_created : bool)
    (safety_factor_c : Q) : list WalletBreakdown :=
  omap (wallet_entry safety_factor_c method use_created all_txs)
       wallet_series_dict.

(** *** Residual gate *)

Inductive threshold_mode : Type := Stddev | Percentile.
Inductive gate_method : Type := PolynomialFit | Median.

#[export] Instance threshold_mode_eq_dec : EqDecision threshold_mode.
Proof. solve_decision. Defined.

Record DecisionGate : Type := mk_DecisionGate {
  dg_enabled : bool;
  apply_in_fallback : bool;
  dg_method : gate_method;
  polynomial_order : Z;
  min_points : Z;
  k_sigma : Q;
  dg_threshold_mode : threshold_mode;
  central_confidence : Q;
  sigma_epsilon : Q;
  exclude_last_for_sigma : bool
}.

(** [sum(wb.wmax_usd for wb in dec.wmax_usd)] and the baseline decision
    [1 if total_wmax > 0 else 0]. *)
Definition total_wmax (l : list WalletBreakdown) : Q :=
  foldl (fun acc wb => (acc + wmax_usd wb)%Q) 0%Q l.

Definition baseline_decision (l : list WalletBreakdown) : Z :=
  if Qlt_bool 0 (total_wmax l) then 1 else 0.

(** Elapsed hours since the first sample. *)
Definition hours_since_first (x_time : list datetime) : result (list Q) :=
  match x_time with
  | [] => Raise IndexError
  | t0_base :: _ =>
      mapM (fun ts => s ← sub_seconds ts t0_base; Ok (s / 3600)%Q) x_time
  end.

(** [residuals[:-1]] when the last point is excluded from the spread. *)
Definition residuals_for_sigma (dg : DecisionGate) (residuals : list Q)
  : list Q :=
  if exclude_last_for_sigma dg && (1 <? length residuals)%nat
  then take (length residuals - 1) residuals
  else residuals.

(** The stddev rule [sigma > 0 and r_now > k * sigma]. *)
Definition stddev_trigger (sigma r_now k : Q) : Z :=
  if Qlt_bool 0 sigma && Qlt_bool (k * sigma) r_now then 1 else 0.

(** The thresholding step shared by both paths. *)
Definition threshold_trigger (dg : DecisionGate) (res_est : list Q)
    (sigma r_now : Q) : Z :=
  match dg_threshold_mode dg with
  | Percentile =>
      let c := central_confidence dg in
      let p_low := py_max 0 ((1 - c) / 2) in
      let p_high := py_min 1 (1 - p_low) in
      let q := if (1 <? length res_est)%nat
               then np_quantile2 res_est p_low p_high
               else Ok (0%Q, 0%Q) in
      match q with
      | Ok (_, thr_high) => if Qlt_bool thr_high r_now then 1 else 0
      | Raise _ => stddev_trigger sigma r_now (k_sigma dg)
      end
  | Stddev => stddev_trigger sigma r_now (k_sigma dg)
  end.

(** The gate of the keyword-reference path, from "Ensure we still have
    enough samples after filtering" on.  [x_time] and [cp_vals] are the
    basis series after the position mask and the lookback window. *)
Definition residual_gate_keyword (dg : DecisionGate)
    (x_time : list datetime) (cp_vals : list Q) (dec : AssetDecision)
  : AssetDecision :=
  let attempt : result AssetDecision :=
    if Z.of_nat (length cp_vals)
         <? Z.max (min_points dg) (polynomial_order dg + 1) then
      (* "Residual gate skipped ... reason=insufficient_points" *)
      Ok (set_gate 0 false (residual_usd dec) (sigma_usd dec)
            (residual_trigger dec) dec)
    else
      fitted ←
        match dg_method dg with
        | Median => Ok (map (fun _ => np_median cp_vals) cp_vals)
        | PolynomialFit =>
            x_hours ← hours_since_first x_time;
            np_polyfit_eval x_hours cp_vals (polynomial_order dg)
        end;
      let residuals := zip_with Qminus cp_vals fitted in
      let res_est := residuals_for_sigma dg residuals in
      let sigma := np_std res_est in
      if Qlt_bool sigma (sigma_epsilon dg)
         && bool_decide (dg_threshold_mode dg = Stddev) then
        (* "Residual gate skipped ... reason=degenerate_sigma" *)
        Ok (set_gate 0 false (residual_usd dec) (sigma_usd dec)
              (residual_trigger dec) dec)
      else
        r_now ← py_getitem residuals (-1);
        let triggered := threshold_trigger dg res_est sigma r_now in
        Ok (set_gate triggered true (Some r_now) (Some sigma)
              (Some triggered) dec) in
  match attempt with
  | Ok dec' => dec'
  | Raise _ =>
      (* "Residual gate error ... Treating as not triggered." *)
      set_gate 0 false (residual_usd dec) (sigma_usd dec)
        (residual_trigger dec) dec
  end.

(** The gate of the data_range fallback path, from "Validate minimum
    points" on; [dec] already carries the wallet breakdown. *)
Definition residual_gate_fallback (dg : DecisionGate)
    (x_time_use : list datetime) (cp_vals_use : list Q)
    (dec : AssetDecision) : AssetDecision :=
  let baseline := set_decision (baseline_decision (wmax_usd_list dec)) dec in
  if dg_enabled dg && apply_in_fallback dg then
    let attempt : result AssetDecision :=
      if Z.of_nat (length cp_vals_use)
           <? Z.max (min_points dg) (polynomial_order dg + 1) then
        (* "Residual gate (fallback) skipped ... insufficient_points":
           keep the baseline decision from the total wmax *)
        Ok baseline
      else
        x_hours_fb ← hours_since_first x_time_use;
        fitted_fb ← np_polyfit_eval x_hours_fb cp_vals_use
                      (polynomial_order dg);
        let residuals_fb := zip_with Qminus cp_vals_use fitted_fb in
        let res_est_fb := residuals_for_sigma dg residuals_fb in
        let sigma_fb := np_std res_est_fb in
        if Qlt_bool sigma_fb (sigma_epsilon dg)
           && bool_decide (dg_threshold_mode dg = Stddev) then
          Ok baseline
        else
          r_now_fb ← py_getitem residuals_fb (-1);
          let trig_fb := threshold_trigger dg res_est_fb sigma_fb r_now_fb in
          Ok (set_gate trig_fb true (Some r_now_fb) (Some sigma_fb)
                (Some trig_fb) dec) in
    match attempt with
    | Ok dec' => dec'
    | Raise _ => baseline
    end
  else baseline.

(** The decision of the keyword-reference path once the gains are known:
    the gate when it is enabled, the baseline decision otherwise. *)
Definition decide_keyword (dg : DecisionGate)
    (x_time : list datetime) (cp_vals : list Q) (dec : AssetDecision)
  : AssetDecision :=
  let base_decision := baseline_decision (wmax_usd_list dec) in
  if dg_enabled dg then residual_gate_keyword dg x_time cp_vals dec
  else set_decision base_decision dec.

End WithNumLib.

(** *** Phase C: price-source comparison *)

Definition ascii_lower (c : ascii) : ascii :=
  let n := nat_of_ascii c in
  if ((65 <=? n) && (n <=? 90))%nat then ascii_of_nat (n + 32) else c.

(** [s.lower()], on the ASCII range. *)
Fixpoint str_lower (s : string) : string :=
  match s with
  | EmptyString => EmptyString
  | String c s' => String (ascii_lower c) (str_lower s')
  end.

Record EpsOverride : Type := mk_EpsOverride {
  ov_epsilon_mode : option string;
  ov_tolerance_epsilon : option Q
}.

Record PriceCompare : Type := mk_PriceCompare {
  persistence_threshold : Z;
  action_on_mismatch : string;      (* stripped and lower-cased *)
  per_asset_overrides : gmap string EpsOverride;
  eps_mode_default : string;        (* stripped and lower-cased *)
  eps_default : Q
}.

(** [_get_eps]: the per-asset override when present and truthy, else the
    default. *)
Definition _get_eps (pc : PriceCompare) (asset_name : string) : string * Q :=
  let ov :=
    match per_asset_overrides pc !! asset_name with
    | Some o => Some o
    | None => per_asset_overrides pc !! str_lower asset_name
    end in
  let mode :=
    match ov ≫= ov_epsilon_mode with
    | Some m => if String.eqb m "" then eps_mode_default pc else m
    | None => eps_mode_default pc
    end in
  let eps :=
    match ov ≫= ov_tolerance_epsilon with
    | Some e => if Qeq_bool e 0 then eps_default pc else e
    | None => eps_default pc
    end in
  (mode, eps).

(** [logical_sources] with duplicates removed, first occurrences kept. *)
Fixpoint dedup_from (seen : list string) (l : list string) : list string :=
  match l with
  | [] => []
  | s :: l' => if bool_decide (s ∈ seen) then dedup_from seen l'
               else s :: dedup_from (s :: seen) l'
  end.
Definition dedup_sources (l : list string) : list string := dedup_from [] l.

(** The dict [prices]: one entry per logical source that returned a
    price.  [resolve] stands for [_resolve_logical_price]. *)
Definition collect_prices (resolve : string -> string -> option Q)
    (logical_sources : list string) (asset : string) : list (string * Q) :=
  omap (fun logical => (fun p => (logical, p)) <$> resolve logical asset)
       logical_sources.

Definition max_price (prices : list (string * Q)) : Q :=
  match map snd prices with
  | [] => 0%Q
  | p :: ps => foldl py_max p ps
  end.
Definition min_price (prices : list (string * Q)) : Q :=
  match map snd prices with
  | [] => 0%Q
  | p :: ps => foldl py_min p ps
  end.

(** The flag [mismatch] computed from the prices of one asset. *)
Definition mismatch_of (pc : PriceCompare) (asset : string)
    (prices : list (string * Q)) : bool :=
  let max_p := max_price prices in
  let min_p := min_price prices in
  let d_abs := (max_p - min_p)%Q in
  let d_rel := if Qlt_bool 0 max_p then (d_abs / max_p)%Q else 0%Q in
  let '(mode, eps) := _get_eps pc asset in
  if String.eqb (str_lower mode) "absolute"
  then Qlt_bool eps d_abs
  else Qlt_bool eps d_rel.

(** One iteration of [for asset, dec in decisions.items()], threading the
    process-wide dict [_PRICE_MISMATCH_COUNTS]. *)
Definition price_compare_asset (pc : PriceCompare)
    (resolve : string -> string -> option Q) (logical_sources : list string)
    (counts : gmap string Z) (asset : string) (dec : AssetDecision)
  : gmap string Z * AssetDecision :=
  if decision dec =? -1 then (counts, dec)   (* keep error state *)
  else
    let prices := collect_prices resolve logical_sources asset in
    if (length prices <? 2)%nat then
      (counts,
       mk_AssetDecision (decision dec) (wmax_usd_list dec) (g_usd dec)
         (residual_usd dec) (sigma_usd dec) (residual_trigger dec)
         (gate_applied dec) prices None None (Some 0) (Some 1))
    else
      let max_p := max_price prices in
      let min_p := min_price prices in
      let d_abs := (max_p - min_p)%Q in
      let d_rel := if Qlt_bool 0 max_p then (d_abs / max_p)%Q else 0%Q in
      let mismatch := mismatch_of pc asset prices in
      let prev := default 0 (counts !! asset) in
      let curr := if mismatch then prev + 1 else 0 in
      let counts' := <[asset := curr]> counts in
      let decision' :=
        if mismatch && (persistence_threshold pc <=? curr)
           && String.eqb (action_on_mismatch pc) "hold"
        then 0 else decision dec in
      (counts',
       mk_AssetDecision decision' (wmax_usd_list dec) (g_usd dec)
         (residual_usd dec) (sigma_usd dec) (residual_trigger dec)
         (gate_applied dec) prices (Some d_abs) (Some d_rel)
         (Some (if mismatch then 1 else 0)) (Some 0)).

(** The whole post-processing loop of one evaluation cycle. *)
Fixpoint price_compare_cycle (pc : PriceCompare)
    (resolve : string -> string -> option Q) (logical_sources : list string)
    (counts : gmap string Z) (decisions : list (string * AssetDecision))
  : gmap string Z * list (string * AssetDecision) :=
  match decisions with
  | [] => (counts, [])
  | (asset, dec) :: rest =>
      let '(counts1, dec') :=
        price_compare_asset pc resolve logical_sources counts asset dec in
      let '(counts2, rest') :=
        price_compare_cycle pc resolve logical_sources counts1 rest in
      (counts2, (asset, dec') :: rest')
  end.

End AlertLogic.

(** ** Reference state ([src/core/reference_state.py]) *)

Module ReferenceState.
Import Datetime Models Numpy AlertLogic.

(** [keyword in notes] *)
Fixpoint str_contains (keyword s : string) : bool :=
  String.prefix keyword s
  || match s with
     | EmptyString => false
     | String _ s' => str_contains keyword s'
     end.

(** [min(keys, key=...)]: the first key with the least distance. *)
Fixpoint min_by_from (best : datetime) (best_d : Q)
    (rest : list (datetime * Q)) : datetime :=
  match rest with
  | [] => best
  | (k, d) :: rest' =>
      if Qlt_bool d best_d then min_by_from k d rest'
      else min_by_from best best_d rest'
  end.

(** [_nearest_value(series, target_ts)]: the value at the sampled instant
    closest to the target; [None] on an empty series. *)
Definition _nearest_value (s : series) (target_ts : datetime)
  : result (option Q) :=
  match s with
  | [] => Ok None
  | _ :: _ =>
      keyed ← mapM (fun kv : datetime * Q =>
                      d ← sub_seconds kv.1 target_ts; Ok (kv.1, Qabs d)) s;
      match keyed with
      | [] => Ok None
      | (k, d) :: rest =>
          let nearest_ts := min_by_from k d rest in
          Ok (Some (series_get s nearest_ts))
      end
  end.

(** The test of the list comprehension [tagged]. *)
Definition is_tagged (keyword : string) (t : Transaction) : bool :=
  String.eqb (transaction_type t) "withdrawal"
  && match notes t with
     | Some n => negb (String.eqb n "") && str_contains keyword n
     | None => false
     end.

(** The body of the loop of [get_last_reference] for one asset, from the
    two reads of the reader ([Raise] when a read raised); [None] stands for
    [continue]. *)
Definition last_reference_of
    (fetched_txs : result (list Transaction))
    (fetched_series : result (option series))
    (keyword : string) : result (option (datetime * Q)) :=
  match fetched_txs with
  | Raise _ => Ok None
  | Ok txs =>
      let tagged := filter (fun t => Is_true (is_tagged keyword t)) txs in
      match last tagged with
      | None => Ok None
      | Some last_tx =>
          let t0 := normalize_timestamp (timestamp last_tx) in
          match fetched_series with
          | Raise _ => Ok None
          | Ok None => Ok None
          | Ok (Some []) => Ok None
          | Ok (Some ((_ :: _) as s)) =>
              v ← _nearest_value s t0;
              match v with
              | None => Ok None
              | Some v0 => Ok (Some (t0, v0))
              end
          end
      end
  end.

(** [get_last_reference]: the dict of the references found, asset by
    asset. *)
Fixpoint get_last_reference
    (fetch_transactions : string -> result (list Transaction))
    (fetch_asset_series : string -> result (option series))
    (assets : list string) (keyword : string)
    (results : gmap string (datetime * Q))
  : result (gmap string (datetime * Q)) :=
  match assets with
  | [] => Ok results
  | asset :: rest =>
      r ← last_reference_of (fetch_transactions asset)
            (fetch_asset_series asset) keyword;
      get_last_reference fetch_transactions fetch_asset_series rest keyword
        (match r with
         | Some ref => <[asset := ref]> results
         | None => results
         end)
  end.

End ReferenceState.

(** ** Data adapters ([src/core/io_adapters.py]) *)

Module IoAdapters.
Import Datetime Models Numpy AlertLogic.

(** [DateRange]: optional start and end. *)
Record DateRange : Type := mk_DateRange {
  dr_start : option datetime;
  dr_end : option datetime
}.

(** [sorted(series.series.keys())]: ordering a naive datetime against an
    aware one raises. *)
Definition sorted_keys (keys : list datetime) : result (list datetime) :=
  if forallb is_aware keys || forallb (fun k => negb (is_aware k)) keys
  then Ok (sorted keys)
  else Raise TypeError.

(** [compute_duty_cycle]: observed samples over the samples expected from
    the median sampling step, clamped to [0, 1]. *)
Definition compute_duty_cycle (series_obj : option series)
    (date_range : option DateRange) : result Q :=
  match series_obj with
  | None => Ok 0%Q
  | Some [] => Ok 0%Q
  | Some ((_ :: _) as s) =>
      match date_range with
      | Some (mk_DateRange (Some range_start) (Some range_end)) =>
          ts ← sorted_keys (map fst s);
          if (length ts <? 2)%nat then Ok 0%Q
          else
            let deltas := np_diff (map Datetime.timestamp ts) in
            let median_dt := if (0 <? length deltas)%nat
                             then np_median deltas else 0%Q in
            if Qle_bool median_dt 0 then Ok 0%Q
            else
              total_sec ← sub_seconds range_end range_start;
              let expected := py_max 1 (total_sec / median_dt) in
              let observed := inject_Z (Z.of_nat (length ts)) in
              Ok (py_max 0 (py_min 1 (observed / expected)))
      | _ => Ok 1%Q
      end
  end.

End IoAdapters.

(** ** Utilities ([src/shared/utils.py]) *)

Module Utils.
Import AlertLogic.

(** [s.lstrip()] and [s.rstrip()], on the ASCII range. *)
Fixpoint str_lstrip (s : string) : string :=
  match s with
  | EmptyString => EmptyString
  | String c s' => if is_space c then str_lstrip s' else s
  end.

Fixpoint str_rstrip (s : string) : string :=
  match s with
  | EmptyString => EmptyString
  | String c s' => if is_blank s then EmptyString else String c (str_rstrip s')
  end.

(** [s.strip()] *)
Definition str_strip (s : string) : string := str_rstrip (str_lstrip s).

(** [normalize_asset_symbol] *)
Definition normalize_asset_symbol (symbol : string) : string :=
  if String.eqb symbol "" then ""%string
  else str_lower (str_strip symbol).

(** [canonicalize_minswap_asset] *)
Definition canonicalize_minswap_asset (name : string) : string :=
  let sym := normalize_asset_symbol name in
  if String.eqb sym "usdc" then "wanusdc"%string
  else if String.eqb sym "usdt" then "wanusdt"%string
  else sym.

(** [calculate_percentage_change] *)
Definition calculate_percentage_change (old_value new_value : Q) : option Q :=
  if Qeq_bool old_value 0 then None
  else Some ((new_value - old_value) / old_value * 100)%Q.

End Utils.

(** * Vocabulary of the properties *)

Section Vocabulary.
Import Datetime Models Numpy CorrectCalculations AlertLogic.

(** A sequence is non-decreasing over its index order. *)
Definition nondecreasing (l : list Q) : Prop :=
  forall (i j : nat) (x y : Q),
    (i <= j)%nat -> l !! i = Some x -> l !! j = Some y -> (x <= y)%Q.

Definition nonnegative (l : list Q) : Prop := Forall (fun x => (0 <= x)%Q) l.

(** Knots in strictly increasing order. *)
Fixpoint increasing (l : list Q) : Prop :=
  match l with
  | x :: ((y :: _) as l') => (x < y)%Q /\ increasing l'
  | _ => True
  end.

(** A datetime that is aware and in UTC. *)
Definition is_utc (dt : datetime) : Prop := tzoffset dt = Some 0.

(** The abscissae handed to numpy: seconds of the UTC normalisation. *)
Definition position_numeric (position_timestamps : list datetime) : list Q :=
  map Datetime.timestamp (map normalize_timestamp position_timestamps).

(** The element-wise gain formula of step 5. *)
Definition gain_at (P0 D0 W0 : Q) (p : Q) (dw : Q * Q) : Q :=
  (p - P0 - (dw.1 - D0) + (dw.2 - W0))%Q.

(** What one iteration does to the decision and the counter of its own
    asset. *)
Definition hysteresis_outcome (pc : PriceCompare)
    (resolve : string -> string -> option Q) (logical_sources : list string)
    (counts counts' : gmap string Z) (asset : string)
    (dec dec' : AssetDecision) : Prop :=
  let prices := collect_prices resolve logical_sources asset in
  if (2 <=? length prices)%nat then
    let mismatch := mismatch_of pc asset prices in
    let prev := default 0 (counts !! asset) in
    let curr := if mismatch then prev + 1 else 0 in
    counts' !! asset = Some curr
    /\ price_compare_unavailable dec' = Some 0
    /\ price_mismatch dec' = Some (if mismatch then 1 else 0)
    /\ decision dec' =
        (if mismatch && (persistence_threshold pc <=? curr)
         then HOLD else decision dec)
  else
    counts' !! asset = counts !! asset
    /\ price_compare_unavailable dec' = Some 1
    /\ price_mismatch dec' = Some 0
    /\ decision dec' = decision dec.

(** The gains of the wallets that are listed, in the order of the list. *)
Definition listed_wallet_gains `{NumLib}
    (wallet_series_dict : list (string * series))
    (all_txs : list Transaction) (method : alignment_method)
    (use_created : bool) (safety_factor_c : Q) : list Q :=
  omap (fun wallet : string * series =>
          match wallet_entry safety_factor_c method use_created all_txs wallet with
          | Some _ =>
              match wallet_gain method use_created all_txs wallet.1 wallet.2 with
              | Ok g => Some g
              | Raise _ => None
              end
          | None => None
          end) wallet_series_dict.

(** The exact lookup of a transaction's timestamp finds a timebase point. *)
Definition in_timebase (unified_timebase : list datetime) (tx : Transaction)
  : bool :=
  existsb (fun tb => Datetime.eqb tb (timestamp tx)) unified_timebase.

(** An entry of the deposit vector: zero, or the amount of a deposit of the
    list.  An entry of the withdrawal vector: zero, or the magnitude of a
    withdrawal of the list. *)
Definition deposit_entry (txs : list Transaction) (x : Q) : Prop :=
  x = 0%Q \/ exists tx, tx ∈ txs /\ transaction_type tx = "deposit"
                        /\ x = amount tx.

Definition withdrawal_entry (txs : list Transaction) (x : Q) : Prop :=
  x = 0%Q \/ exists tx, tx ∈ txs /\ transaction_type tx = "withdrawal"
                        /\ x = Qabs (amount tx).

End Vocabulary.

(** ** Example data *)

Module Examples.
Import Datetime Models Numpy CorrectCalculations AlertLogic.

(** The arithmetic mean (0 on an empty list). *)
Definition Qmean (a : list Q) : Q :=
  if (length a =? 0)%nat then 0%Q
  else (Qsum a / inject_Z (Z.of_nat (length a)))%Q.

(** A [NumLib] on which the definitions run on examples: scipy is not
    installed, the spread is the mean absolute deviation, the fit is the
    flat mean and the quantiles are the extremes.  The theorems below
    hold for every instance. *)
Definition plain_numlib : NumLib := {|
  np_std := fun a => Qmean (map (fun v => Qabs (v - Qmean a)) a);
  scipy_interp1d_cubic := None;
  np_polyfit_eval := fun _ y _ => Ok (map (fun _ => Qmean y) y);
  np_quantile2 := fun a _ _ =>
    Ok (default 0%Q (np_min a),
        match a with [] => 0%Q | x :: a' => foldl py_max x a' end)
|}.

(** The same with an interpolating routine in the place of scipy's cubic
    [interp1d]: the piecewise-linear interpolant inside the sampled range,
    NaN outside. *)
Definition spline_numlib : NumLib := {|
  np_std := @np_std plain_numlib;
  scipy_interp1d_cubic := Some (fun xp fp x =>
    if Qlt_bool x (default 0%Q (head xp))
       || Qlt_bool (default 0%Q (last xp)) x
    then Ok None
    else Ok (Some (interp_point xp fp x)));
  np_polyfit_eval := @np_polyfit_eval plain_numlib;
  np_quantile2 := @np_quantile2 plain_numlib
|}.

(** The instant [k] hours after the epoch, in UTC. *)
Definition hour (k : Z) : datetime := utc (k * 3600000000).

Definition deposit_at (ts : datetime) (wallet : string) (a : Q) : Transaction :=
  mk_Transaction ts wallet "market" "usdc" a "deposit" None ts.

Definition withdrawal_at (ts : datetime) (wallet : string) (a : Q) : Transaction :=
  mk_Transaction ts wallet "market" "usdc" a "withdrawal" None ts.

(** Scenario D: two sources at 1.00 and 1.05, relative tolerance 0.01,
    persistence threshold 2, and a gate that triggered WITHDRAW_OK. *)
Definition scenario_d_pc : PriceCompare :=
  mk_PriceCompare 2 "hold" ∅ "relative" (1 # 100).
Definition scenario_d_resolve (logical asset : string) : option Q :=
  if String.eqb logical "liqwid" then Some 1%Q
  else if String.eqb logical "minswap" then Some (105 # 100)%Q
  else None.
Definition scenario_d_dec : AssetDecision :=
  mk_AssetDecision 1 [] (Some 50%Q) None None (Some 1) (Some true)
    [] None None None None.

End Examples.

(** * Properties *)

(** ** Lists, indices and numpy helpers *)

Section ListFacts.
Import Numpy.

Lemma Qlt_bool_iff x y : Qlt_bool x y = true <-> (x < y)%Q.
Proof.
  unfold Qlt_bool. rewrite negb_true_iff.
  destruct (Qle_bool y x) eqn:E.
  - apply Qle_bool_iff in E. split; [discriminate | intros H; exfalso; lra].
  - split; [intros _ | reflexivity].
    destruct (Qlt_le_dec x y) as [H|H]; [exact H|].
    apply Qle_bool_iff in H. congruence.
Qed.

Lemma Qlt_bool_false x y : Qlt_bool x y = false <-> (y <= x)%Q.
Proof.
  unfold Qlt_bool. rewrite negb_false_iff. apply Qle_bool_iff.
Qed.

Lemma py_max_spec a b : (py_max a b == Qmax a b)%Q.
Proof.
  unfold py_max. destruct (Qlt_bool a b) eqn:E.
  - apply Qlt_bool_iff in E. symmetry. apply Q.max_r. lra.
  - apply Qlt_bool_false in E. symmetry. apply Q.max_l. exact E.
Qed.

Lemma where_from_bounds {A} (p : A -> bool) (l : list A) (i : Z) :
  Forall (fun k => i <= k < i + Z.of_nat (length l)) (where_from p i l).
Proof.
  revert i. induction l as [|x l IH]; intros i; simpl; [constructor|].
  assert (Forall (fun k => i <= k < i + Z.of_nat (S (length l)))
                 (where_from p (i + 1) l)) as Hrest.
  { eapply Forall_impl; [apply IH|]. simpl. intros k Hk. lia. }
  destruct (p x); [constructor; [lia|]|]; exact Hrest.
Qed.

Lemma np_where_bounds {A} (p : A -> bool) (l : list A) :
  Forall (fun k => 0 <= k < Z.of_nat (length l)) (np_where p l).
Proof. apply (where_from_bounds p l 0). Qed.

(** An element that satisfies the predicate is found. *)
Lemma where_from_nonempty {A} (p : A -> bool) (l : list A) (i : Z) x :
  x ∈ l -> p x = true -> where_from p i l <> [].
Proof.
  revert i. induction l as [|y l IH]; intros i Hin Hp; [inversion Hin|].
  simpl. destruct (p y) eqn:E; [discriminate|].
  apply IH; [|exact Hp].
  apply elem_of_cons in Hin as [->|Hin]; [congruence|exact Hin].
Qed.

Lemma where_from_none {A} (p : A -> bool) (l : list A) (i : Z) :
  Forall (fun x => p x = false) l -> where_from p i l = [].
Proof.
  revert i. induction l as [|y l IH]; intros i Hall; [reflexivity|].
  inversion Hall as [|? ? Hy Hl]; subst. simpl. rewrite Hy. apply IH, Hl.
Qed.

Lemma py_setitem_ok {A} (l : list A) (i : Z) (x : A) :
  0 <= i < Z.of_nat (length l) ->
  py_setitem l i x = Ok (<[Z.to_nat i := x]> l).
Proof.
  intros Hi. unfold py_setitem.
  destruct (i <? 0) eqn:E; [lia|].
  replace (0 <=? i) with true by lia. replace (i <? Z.of_nat (length l)) with true by lia.
  reflexivity.
Qed.

Lemma py_getitem_ok {A} (l : list A) (i : Z) :
  0 <= i < Z.of_nat (length l) ->
  exists x, py_getitem l i = Ok x /\ l !! Z.to_nat i = Some x.
Proof.
  intros Hi. unfold py_getitem.
  destruct (i <? 0) eqn:E; [lia|].
  replace (0 <=? i) with true by lia. replace (i <? Z.of_nat (length l)) with true by lia.
  simpl. destruct (l !! Z.to_nat i) as [x|] eqn:Hx; [eauto|].
  apply lookup_ge_None in Hx. lia.
Qed.

End ListFacts.

(** ** Index selection stays inside the timebase *)

Section IndexSelection.
Import Datetime Models Numpy CorrectCalculations.
Context `{NumLib}.

Lemma while_next_ge mask n i fuel : i <= while_next mask n i fuel.
Proof.
  revert i. induction fuel as [|fuel IH]; intros i; simpl; [lia|].
  destruct ((i <? n) && negb (default false (mask !! Z.to_nat i))); [|lia].
  specialize (IH (i + 1)). lia.
Qed.

Lemma while_prev_le mask i fuel : while_prev mask i fuel <= i.
Proof.
  revert i. induction fuel as [|fuel IH]; intros i; simpl; [lia|].
  destruct ((0 <=? i) && negb (default false (mask !! Z.to_nat i))); [|lia].
  specialize (IH (i - 1)). lia.
Qed.

Lemma default_in_range (P : Z -> Prop) (d : Z) (o : option Z) :
  P d -> (forall k, o = Some k -> P k) -> P (default d o).
Proof. intros Hd Ho. destruct o; simpl; auto. Qed.

Lemma last_np_where_range (mask : list bool) k :
  last (np_where id mask) = Some k -> 0 <= k < Z.of_nat (length mask).
Proof.
  intros Hk. pose proof (np_where_bounds id mask) as Hb.
  rewrite Forall_forall in Hb. apply Hb.
  rewrite last_lookup in Hk. eapply list_elem_of_lookup_2, Hk.
Qed.

Lemma head_np_where_range (mask : list bool) k :
  head (np_where id mask) = Some k -> 0 <= k < Z.of_nat (length mask).
Proof.
  intros Hk. pose proof (np_where_bounds id mask) as Hb.
  rewrite Forall_forall in Hb. apply Hb.
  rewrite head_lookup in Hk. eapply list_elem_of_lookup_2, Hk.
Qed.

Lemma snap_to_next_pos_range mask n idx :
  Z.of_nat (length mask) = n -> 0 <= idx < n ->
  0 <= snap_to_next_pos mask n idx < n.
Proof.
  intros Hlen Hidx. unfold snap_to_next_pos.
  pose proof (while_next_ge mask n idx (Z.to_nat (n - idx))) as Hge.
  destruct (n <=? _) eqn:E.
  - apply (default_in_range (fun k => 0 <= k < n)); [exact Hidx|].
    intros k Hk. apply last_np_where_range in Hk. lia.
  - lia.
Qed.

Lemma snap_to_prev_pos_range mask n idx :
  Z.of_nat (length mask) = n -> 0 <= idx < n ->
  0 <= snap_to_prev_pos mask idx < n.
Proof.
  intros Hlen Hidx. unfold snap_to_prev_pos.
  pose proof (while_prev_le mask idx (Z.to_nat (idx + 1))) as Hle.
  destruct (_ <? 0) eqn:E.
  - apply (default_in_range (fun k => 0 <= k < n)); [exact Hidx|].
    intros k Hk. apply head_np_where_range in Hk. lia.
  - lia.
Qed.

Lemma foldl_Zmax_elem (l : list Z) (x : Z) : foldl Z.max x l ∈ x :: l.
Proof.
  revert x. induction l as [|y l IH]; intros x; simpl; [apply list_elem_of_here|].
  specialize (IH (Z.max x y)).
  apply elem_of_cons in IH as [IH|IH].
  - rewrite IH. destruct (Z.max_spec x y) as [[_ ->]|[_ ->]].
    + apply list_elem_of_further, list_elem_of_here.
    + apply list_elem_of_here.
  - do 2 apply list_elem_of_further. exact IH.
Qed.

Lemma Zmax_list_elem (l : list Z) m : Zmax_list l = Some m -> m ∈ l.
Proof.
  destruct l as [|x l]; simpl; [discriminate|].
  intros [= <-]. apply foldl_Zmax_elem.
Qed.

Lemma snap_to_nearest_pos_range tb mask n idx tx r :
  Z.of_nat (length mask) = n -> 0 <= idx < n ->
  snap_to_nearest_pos tb mask idx tx = Some r -> 0 <= r < n.
Proof.
  intros Hlen Hidx. unfold snap_to_nearest_pos.
  pose proof (np_where_bounds id mask) as Hb. rewrite Forall_forall in Hb.
  set (pos_indices := np_where id mask) in *.
  destruct (mapM _ pos_indices) as [deltas|e] eqn:Hd; simpl.
  - destruct (np_min deltas) as [min_d|]; [|discriminate].
    destruct (Zmax_list _) as [m|] eqn:Hm; simpl.
    + intros [= <-]. apply Zmax_list_elem in Hm.
      apply list_elem_of_fmap in Hm as ([k d] & -> & Hkd).
      apply list_elem_of_filter in Hkd as [_ Hkd].
      apply elem_of_zip_l in Hkd. simpl. specialize (Hb k Hkd). lia.
    + destruct (np_argmin _) as [j|]; [|discriminate].
      intros [= <-].
      apply (default_in_range (fun k => 0 <= k < n)); [exact Hidx|].
      intros k Hk. apply list_elem_of_lookup_2 in Hk.
      specialize (Hb k Hk). lia.
  - destruct (np_argmin _) as [j|]; [|discriminate].
    intros [= <-].
    apply (default_in_range (fun k => 0 <= k < n)); [exact Hidx|].
    intros k Hk. apply list_elem_of_lookup_2 in Hk.
    specialize (Hb k Hk). lia.
Qed.

Lemma scan_loop_ge start idx sign mag alpha beta zt ig j lz best b s :
  0 <= j ->
  (forall b0 s0, best = Some (b0, s0) -> start <= b0) ->
  scan_loop start idx sign mag alpha beta zt ig j lz best = Some (b, s) ->
  start <= b.
Proof.
  revert j best. induction lz as [|[val zval] lz IH]; intros j best Hj Hbest; simpl.
  - intros Hb. eapply Hbest, Hb.
  - assert (forall b0 s0, Some (start + j, (Z.abs (start + j - idx), (- Qabs zval)%Q))
                          = Some (b0, s0) -> start <= b0) as Hnew.
    { intros b0 s0 [= <- _]. lia. }
    repeat case_match; subst;
      (apply IH; [lia | assumption || (intros ? ? [=]) ]).
Qed.

Lemma scan_ge start idx sign mag alpha beta zt local z ig b :
  scan start idx sign mag alpha beta zt local z ig = Some b -> start <= b.
Proof.
  unfold scan. destruct (scan_loop _ _ _ _ _ _ _ _ _ _ _) as [[b0 s0]|] eqn:E;
    [|discriminate].
  intros [= <-]. eapply scan_loop_ge in E; [exact E|lia|intros ? ? [=]].
Qed.

Lemma forward_loop_ge sign j fl r :
  forward_loop sign j fl = Some r -> j <= r.
Proof.
  revert j. induction fl as [|v fl IH]; intros j; simpl; [discriminate|].
  destruct (_ && _).
  - intros [= <-]. lia.
  - intros Hr. apply IH in Hr. lia.
Qed.

Lemma detect_spike_range n ip wb zt mb idx tx r :
  0 < idx < n ->
  detect_spike n ip wb zt mb idx tx = Some r -> 0 <= r < n.
Proof.
  intros Hidx. unfold detect_spike.
  destruct (0 <? length _)%nat; [|discriminate].
  destruct mb as [alpha beta].
  destruct (scan _ _ _ _ _ _ _ _ _ false) as [b|] eqn:E1.
  - apply scan_ge in E1. intros [= <-]. lia.
  - destruct (scan _ _ _ _ _ _ _ _ _ true) as [b|] eqn:E2.
    + apply scan_ge in E2. intros [= <-]. lia.
    + destruct (idx <? _); [|discriminate].
      destruct (forward_loop _ _ _) as [j|] eqn:E3; [|discriminate].
      apply forward_loop_ge in E3. intros [= <-]. lia.
Qed.

(** The index chosen for a base index inside the timebase is inside the
    timebase, whatever the policy. *)
Lemma choose_index_for_tx_range method tb pset allow ip wb zt mb idx tx :
  0 <= idx < Z.of_nat (length tb) ->
  0 <= choose_index_for_tx method tb (make_pos_mask pset tb) allow ip
         wb zt mb idx tx < Z.of_nat (length tb).
Proof.
  intros Hidx. unfold choose_index_for_tx.
  set (n := Z.of_nat (length tb)) in *.
  assert (forall mask, make_pos_mask pset tb = Some mask ->
                       Z.of_nat (length mask) = n) as Hmask.
  { unfold make_pos_mask. intros mask. destruct pset as [[|x s]|]; try discriminate.
    intros [= <-]. rewrite length_map. reflexivity. }
  assert (0 <= default idx
                 match ip with
                 | Some ip0 =>
                     if allow && (0 <? idx) && (idx <? n)
                     then detect_spike n ip0 wb zt mb idx tx else None
                 | None => None
                 end < n) as Hdetect.
  { apply (default_in_range (fun k => 0 <= k < n)); [exact Hidx|].
    intros k. destruct ip as [ip0|]; [|discriminate].
    destruct (allow && (0 <? idx) && (idx <? n)) eqn:E; [|discriminate].
    apply detect_spike_range. lia. }
  destruct (make_pos_mask pset tb) as [mask|] eqn:Hpm.
  - specialize (Hmask mask eq_refl).
    destruct method; try exact Hdetect.
    + lia.
    + apply snap_to_next_pos_range; assumption.
    + apply snap_to_prev_pos_range; assumption.
    + destruct (existsb id mask); [|exact Hdetect].
      destruct (snap_to_nearest_pos tb mask idx tx) as [r|] eqn:E;
        [|exact Hdetect].
      exact (snap_to_nearest_pos_range tb mask n idx tx r Hmask Hidx E).
  - destruct method; try exact Hdetect. lia.
Qed.

End IndexSelection.

(** ** Transaction vectors and their running sums *)

Section Cumsum.
Import Numpy.

Lemma length_cumsum_from acc a : length (cumsum_from acc a) = length a.
Proof. revert acc. induction a as [|x a IH]; intros acc; simpl; [|rewrite IH]; reflexivity. Qed.

Lemma length_np_cumsum a : length (np_cumsum a) = length a.
Proof. apply length_cumsum_from. Qed.

(** The entry at index [i] of a running sum is the sum of the first
    [i + 1] entries. *)
Lemma cumsum_from_lookup acc a i d :
  cumsum_from acc a !! i = Some d ->
  (d == acc + Qsum (take (S i) a))%Q.
Proof.
  revert acc i. induction a as [|x a IH]; intros acc i; simpl.
  - rewrite lookup_nil. discriminate.
  - destruct i as [|i]; simpl.
    + intros [= <-]. unfold Qsum. simpl. ring.
    + intros Hd. apply IH in Hd. rewrite Hd.
      unfold Qsum. simpl. ring.
Qed.

Lemma np_cumsum_lookup a i d :
  np_cumsum a !! i = Some d -> (d == Qsum (take (S i) a))%Q.
Proof.
  intros Hd. apply cumsum_from_lookup in Hd. rewrite Hd. ring.
Qed.

Lemma cumsum_from_ge acc a :
  nonnegative a -> Forall (fun y => (acc <= y)%Q) (cumsum_from acc a).
Proof.
  revert acc. induction a as [|x a IH]; intros acc Hnn; simpl; [constructor|].
  inversion Hnn as [|? ? Hx Ha]; subst.
  constructor; [lra|].
  eapply Forall_impl; [apply IH, Ha|]. simpl. intros y Hy. lra.
Qed.

Lemma cumsum_from_nondecreasing acc a :
  nonnegative a -> nondecreasing (cumsum_from acc a).
Proof.
  revert acc. induction a as [|x a IH]; intros acc Hnn; simpl.
  - intros i j u v _ Hi. rewrite lookup_nil in Hi. discriminate.
  - inversion Hnn as [|? ? Hx Ha]; subst.
    intros [|i] [|j] u v Hij Hi Hj; simpl in *.
    + injection Hi as <-. injection Hj as <-. lra.
    + injection Hi as <-.
      pose proof (cumsum_from_ge (acc + x) a Ha) as Hge.
      rewrite Forall_forall in Hge.
      apply Hge. eapply list_elem_of_lookup_2, Hj.
    + lia.
    + eapply (IH (acc + x)%Q Ha i j); [lia|eassumption..].
Qed.

Lemma np_cumsum_nondecreasing a : nonnegative a -> nondecreasing (np_cumsum a).
Proof. apply cumsum_from_nondecreasing. Qed.

Lemma nonnegative_zeros n : nonnegative (np_zeros n).
Proof. apply Forall_replicate. lra. Qed.

Lemma nonnegative_insert l i x :
  nonnegative l -> (0 <= x)%Q -> nonnegative (<[i := x]> l).
Proof. intros Hl Hx. apply Forall_insert; assumption. Qed.

End Cumsum.

Section TransactionVectors.
Import Datetime Models Numpy CorrectCalculations.
Context `{NumLib}.

(** A deposit that passed its constructor has a positive amount. *)
Lemma valid_deposit_positive tx :
  valid_transaction tx -> transaction_type tx = "deposit" ->
  (0 < amount tx)%Q.
Proof.
  unfold valid_transaction, Transaction_post_init. intros Hv Hty.
  rewrite Hty in Hv. simpl in Hv.
  repeat (match type of Hv with
          | (if ?c then _ else _) = _ => destruct c eqn:?; [discriminate|]
          end).
  match goal with
  | E : Qle_bool (amount tx) 0 = false |- _ =>
      apply Qlt_bool_iff; unfold Qlt_bool; rewrite E; reflexivity
  end.
Qed.

(** One mapped transaction: no exception, lengths kept, and each vector
    is either unchanged or overwritten at one index inside the timebase. *)
Lemma map_transaction_step method tb pset allow ip wb zt mb d w tx :
  length d = length tb -> length w = length tb ->
  exists d' w',
    map_transaction method tb (make_pos_mask pset tb) allow ip wb zt mb
      (d, w) tx = Ok (d', w')
    /\ (d' = d \/ exists i, (i < length tb)%nat
                            /\ transaction_type tx = "deposit"
                            /\ d' = <[i := amount tx]> d)
    /\ (w' = w \/ exists i, (i < length tb)%nat
                            /\ w' = <[i := Qabs (amount tx)]> w).
Proof.
  intros Hd Hw. unfold map_transaction.
  pose proof (np_where_bounds (fun tb0 => Datetime.eqb tb0 (timestamp tx)) tb) as Hb.
  destruct (np_where _ tb) as [|base_idx rest] eqn:Hm.
  { exists d, w. auto. }
  inversion Hb as [|? ? Hbase _]; subst.
  pose proof (choose_index_for_tx_range method tb pset allow ip wb zt mb
                base_idx tx Hbase) as Hidx.
  set (idx := choose_index_for_tx _ _ _ _ _ _ _ _ _ _) in *.
  destruct (String.eqb (transaction_type tx) "deposit") eqn:Edep.
  - rewrite py_setitem_ok by lia. simpl.
    exists (<[Z.to_nat idx := amount tx]> d), w.
    split; [reflexivity|]. split; [right|left; reflexivity].
    exists (Z.to_nat idx). apply String.eqb_eq in Edep. split; [lia|auto].
  - destruct (String.eqb (transaction_type tx) "withdrawal") eqn:Ewd.
    + rewrite py_setitem_ok by lia. simpl.
      exists d, (<[Z.to_nat idx := Qabs (amount tx)]> w).
      split; [reflexivity|]. split; [left; reflexivity|right].
      exists (Z.to_nat idx). split; [lia|reflexivity].
    + exists d, w. auto.
Qed.

(** The loop over all transactions returns, keeps the lengths, and keeps
    the entries non-negative when every transaction is valid. *)
Lemma map_transactions_ok method tb pset allow ip wb zt mb txs :
  forall d w,
    length d = length tb -> length w = length tb ->
    exists d' w',
      map_transactions method tb (make_pos_mask pset tb) allow ip wb zt mb
        (d, w) txs = Ok (d', w')
      /\ length d' = length tb /\ length w' = length tb
      /\ (Forall valid_transaction txs ->
          nonnegative d -> nonnegative w ->
          nonnegative d' /\ nonnegative w').
Proof.
  induction txs as [|tx txs IH]; intros d w Hd Hw; cbn [map_transactions].
  - exists d, w. auto.
  - destruct (map_transaction_step method tb pset allow ip wb zt mb d w tx Hd Hw)
      as (d1 & w1 & Hstep & Hd1 & Hw1).
    rewrite Hstep. unfold mbind, result_bind.
    assert (length d1 = length tb) as Hld1.
    { destruct Hd1 as [->|(i & _ & _ & ->)]; [|rewrite length_insert]; exact Hd. }
    assert (length w1 = length tb) as Hlw1.
    { destruct Hw1 as [->|(i & _ & ->)]; [|rewrite length_insert]; exact Hw. }
    destruct (IH d1 w1 Hld1 Hlw1) as (d' & w' & Hrun & Hld & Hlw & Hnn).
    exists d', w'. split; [exact Hrun|]. split; [exact Hld|]. split; [exact Hlw|].
    intros Hv Hnd Hnw. inversion Hv as [|? ? Hvtx Hvrest]; subst.
    apply Hnn; [exact Hvrest| |].
    + destruct Hd1 as [->|(i & _ & Hty & ->)]; [assumption|].
      apply nonnegative_insert; [assumption|].
      apply Qlt_le_weak, valid_deposit_positive; [exact Hvtx|exact Hty].
    + destruct Hw1 as [->|(i & _ & ->)]; [assumption|].
      apply nonnegative_insert; [assumption|apply Qabs_nonneg].
Qed.

Lemma create_transaction_vectors_ok txs tb ip pset method wb zt mb :
  exists d w,
    create_transaction_vectors_on_timebase txs tb ip pset method wb zt mb
      = Ok (d, w)
    /\ length d = length tb /\ length w = length tb
    /\ (Forall valid_transaction txs -> nonnegative d /\ nonnegative w).
Proof.
  unfold create_transaction_vectors_on_timebase.
  destruct (map_transactions_ok method tb pset
              (bool_decide (method = DetectSpike) && bool_decide (is_Some ip))
              ip wb zt mb txs
              (np_zeros (length tb)) (np_zeros (length tb)))
    as (d & w & Hrun & Hd & Hw & Hnn);
    [apply length_replicate..|].
  exists d, w. split; [exact Hrun|]. split; [exact Hd|]. split; [exact Hw|].
  intros Hv. apply Hnn; auto using nonnegative_zeros.
Qed.

End TransactionVectors.

(** ** The unified timebase *)

Section Timebase.
Import Datetime Numpy CorrectCalculations.

Lemma normalize_is_utc dt : is_utc (normalize_timestamp dt).
Proof. unfold is_utc, normalize_timestamp. destruct (tzoffset dt); reflexivity. Qed.

Lemma eqb_utc_eq a b : is_utc a -> is_utc b -> Datetime.eqb a b = true -> a = b.
Proof.
  destruct a as [wa oa], b as [wb ob]. unfold is_utc, Datetime.eqb. simpl.
  intros -> ->. intros E. f_equal. lia.
Qed.

(** An aware datetime equals its UTC normalisation. *)
Lemma eqb_normalize dt :
  is_aware dt = true -> Datetime.eqb (normalize_timestamp dt) dt = true.
Proof.
  unfold is_aware, Datetime.eqb, normalize_timestamp.
  destruct (tzoffset dt); [simpl; lia|discriminate].
Qed.

(** A naive datetime equals no aware one. *)
Lemma eqb_utc_naive a us : is_utc a -> Datetime.eqb a (naive us) = false.
Proof. unfold is_utc, Datetime.eqb. intros ->. reflexivity. Qed.

Lemma elem_of_insert_sorted x y l :
  x ∈ insert_sorted y l <-> x = y \/ x ∈ l.
Proof.
  induction l as [|z l IH]; simpl.
  - rewrite list_elem_of_singleton. split; [auto|].
    intros [->|Hx]; [reflexivity|inversion Hx].
  - destruct (instant y <=? instant z).
    + rewrite elem_of_cons. reflexivity.
    + rewrite !elem_of_cons, IH. tauto.
Qed.

Lemma elem_of_sorted x l : x ∈ sorted l <-> x ∈ l.
Proof.
  unfold sorted. induction l as [|y l IH]; simpl; [reflexivity|].
  rewrite elem_of_insert_sorted, IH, elem_of_cons. reflexivity.
Qed.

Lemma mem_true_iff x s :
  mem x s = true <-> exists y, y ∈ s /\ Datetime.eqb x y = true.
Proof.
  unfold mem. rewrite existsb_exists. split.
  - intros (y & Hy & E). exists y. rewrite list_elem_of_In. auto.
  - intros (y & Hy & E). exists y. rewrite <- list_elem_of_In. auto.
Qed.

Lemma py_set_subset x l : x ∈ py_set l -> x ∈ l.
Proof.
  induction l as [|y l IH]; simpl; [auto|].
  destruct (mem y l).
  - intros Hx. apply list_elem_of_further, IH, Hx.
  - rewrite !elem_of_cons. intros [->|Hx]; auto.
Qed.

Lemma py_set_complete x l :
  Forall is_utc l -> x ∈ l -> x ∈ py_set l.
Proof.
  induction l as [|y l IH]; simpl; [auto|].
  intros Hall Hx. inversion Hall as [|? ? Hy Hl]; subst.
  destruct (mem y l) eqn:E.
  - apply elem_of_cons in Hx as [->|Hx].
    + apply mem_true_iff in E as (z & Hz & Ez).
      pose proof Hl as Hl'. rewrite Forall_forall in Hl'.
      apply eqb_utc_eq in Ez; [subst z; auto|assumption|auto].
    + auto.
  - apply elem_of_cons in Hx as [->|Hx].
    + apply list_elem_of_here.
    + apply list_elem_of_further. auto.
Qed.

(** The timebase holds exactly the UTC normalisations of its inputs. *)
Lemma elem_of_unified_timebase x pos_ts tx_ts :
  x ∈ create_unified_timebase pos_ts tx_ts <->
  x ∈ map normalize_timestamp pos_ts ++ map normalize_timestamp tx_ts.
Proof.
  unfold create_unified_timebase. rewrite elem_of_sorted. split.
  - apply py_set_subset.
  - apply py_set_complete. apply Forall_app. split;
      apply Forall_forall; intros y Hy;
      apply list_elem_of_fmap in Hy as (z & -> & _); apply normalize_is_utc.
Qed.

Lemma unified_timebase_is_utc pos_ts tx_ts :
  Forall is_utc (create_unified_timebase pos_ts tx_ts).
Proof.
  apply Forall_forall. intros x Hx.
  apply elem_of_unified_timebase, elem_of_app in Hx as [Hx|Hx];
    apply list_elem_of_fmap in Hx as (z & -> & _); apply normalize_is_utc.
Qed.

(** The exact lookup of an aware timestamp that was given to the builder
    finds an index. *)
Lemma aware_timestamp_matches ts pos_ts tx_ts :
  is_aware ts = true -> ts ∈ tx_ts ->
  np_where (fun tb => Datetime.eqb tb ts)
           (create_unified_timebase pos_ts tx_ts) <> [].
Proof.
  intros Haw Hin.
  apply (where_from_nonempty _ _ 0 (normalize_timestamp ts)).
  - apply elem_of_unified_timebase, elem_of_app. right.
    apply list_elem_of_fmap. eauto.
  - apply eqb_normalize, Haw.
Qed.

End Timebase.

(** ** The gain pipeline *)

Section GainPipeline.
Import Datetime Models Numpy CorrectCalculations.
Context `{NumLib}.

Lemma mapM_result_length {A B} (f : A -> result B) (l : list A) (r : list B) :
  mapM f l = Ok r -> length r = length l.
Proof.
  revert r. induction l as [|x l IH]; intros r; simpl.
  - intros [= <-]. reflexivity.
  - unfold mbind, result_bind, mret, result_ret.
    destruct (f x) as [y|e]; [|discriminate].
    destruct (mapM f l) as [k|e]; [|discriminate].
    intros [= <-]. simpl. f_equal. apply IH. reflexivity.
Qed.

Lemma np_interp_length x xp fp r :
  np_interp x xp fp = Ok r -> length r = length x.
Proof.
  unfold np_interp. destruct (length xp =? 0)%nat; [discriminate|].
  destruct (negb _); [discriminate|].
  intros [= <-]. apply length_map.
Qed.

Lemma np_interp_ok x xp fp :
  xp <> [] -> length fp = length xp ->
  np_interp x xp fp = Ok (map (interp_point xp fp) x).
Proof.
  intros Hne Hlen. unfold np_interp.
  destruct xp as [|x0 xp]; [congruence|]. simpl length in *.
  rewrite Hlen. simpl. rewrite Nat.eqb_refl. reflexivity.
Qed.

(** The interpolator returns one value per timebase point. *)
Lemma interpolate_positions_length pos_ts pos_vals tb im P :
  interpolate_positions_on_timebase pos_ts pos_vals tb im = Ok P ->
  length P = length tb.
Proof.
  unfold interpolate_positions_on_timebase.
  destruct (negb _); [discriminate|].
  assert (forall r, np_interp (map Datetime.timestamp tb)
                      (map Datetime.timestamp (map normalize_timestamp pos_ts))
                      pos_vals = Ok r -> length r = length tb) as Hlin.
  { intros r Hr. apply np_interp_length in Hr. rewrite length_map in Hr. exact Hr. }
  destruct (String.eqb im "linear"); [apply Hlin|].
  destruct (String.eqb im "cubic"); [|discriminate].
  destruct scipy_interp1d_cubic as [f|]; [|apply Hlin].
  destruct (length pos_vals <? 4)%nat; [apply Hlin|].
  intros Hm. apply mapM_result_length in Hm. rewrite length_map in Hm. exact Hm.
Qed.

(** With at least one sample and as many values as timestamps, linear
    interpolation returns. *)
Lemma interpolate_positions_linear_ok pos_ts pos_vals tb :
  pos_ts <> [] -> length pos_ts = length pos_vals ->
  exists P, interpolate_positions_on_timebase pos_ts pos_vals tb "linear" = Ok P.
Proof.
  intros Hne Hlen. unfold interpolate_positions_on_timebase.
  rewrite Hlen, Nat.eqb_refl. simpl.
  rewrite np_interp_ok.
  - eauto.
  - destruct pos_ts; [congruence|discriminate].
  - rewrite !length_map. congruence.
Qed.

(** Once the positions are interpolated and the reference index is
    inside the timebase, the remaining steps return and the result is
    built from the vectors as written. *)
Lemma calculate_correct_gains_unfold pos_ts pos_vals (txs : list Transaction)
    t0 im method (uc : bool) P :
  let tb := create_unified_timebase pos_ts
              (map (fun tx => if uc then created_at tx else timestamp tx) txs) in
  0 <= t0 < Z.of_nat (length tb) ->
  interpolate_positions_on_timebase pos_ts pos_vals tb im = Ok P ->
  exists d w P0 D0 W0,
    length d = length tb /\ length w = length tb
    /\ P !! Z.to_nat t0 = Some P0
    /\ np_cumsum d !! Z.to_nat t0 = Some D0
    /\ np_cumsum w !! Z.to_nat t0 = Some W0
    /\ calculate_correct_gains pos_ts pos_vals txs t0 im method uc
       = Ok (mk_GainsResult tb P (np_cumsum d) (np_cumsum w)
               (zip_with (gain_at P0 D0 W0) P
                  (zip (np_cumsum d) (np_cumsum w)))).
Proof.
  intros tb Ht0 HP. unfold calculate_correct_gains. fold tb. rewrite HP.
  unfold mbind at 1, result_bind at 1.
  pose proof (interpolate_positions_length _ _ _ _ _ HP) as HlP.
  match goal with
  | |- context [create_transaction_vectors_on_timebase ?a ?b ?c ?d ?e ?f ?g ?h] =>
      destruct (create_transaction_vectors_ok a b c d e f g h)
        as (d0 & w0 & Hrun & Hd & Hw & _); rewrite Hrun
  end.
  unfold mbind at 1, result_bind at 1.
  replace (Z.of_nat (length tb) <=? t0) with false by lia.
  destruct (py_getitem_ok P t0) as (P0 & HgP & HlkP); [lia|].
  destruct (py_getitem_ok (np_cumsum d0) t0) as (D0 & HgD & HlkD);
    [rewrite length_np_cumsum; lia|].
  destruct (py_getitem_ok (np_cumsum w0) t0) as (W0 & HgW & HlkW);
    [rewrite length_np_cumsum; lia|].
  rewrite HgP, HgD, HgW. unfold mbind, result_bind.
  exists d0, w0, P0, D0, W0. repeat split; assumption || reflexivity.
Qed.

(** What a successful run of [calculate_correct_gains] went through. *)
Lemma calculate_correct_gains_inv pos_ts pos_vals (txs : list Transaction)
    t0 im method (uc : bool) r :
  calculate_correct_gains pos_ts pos_vals txs t0 im method uc = Ok r ->
  let tb := create_unified_timebase pos_ts
              (map (fun tx => if uc then created_at tx else timestamp tx) txs) in
  let txs_for_map :=
    if uc
    then map (fun tx => match replace_timestamp tx (created_at tx) with
                        | Ok tx' => tx'
                        | Raise _ => tx
                        end) txs
    else txs in
  exists P d w P0 D0 W0,
    interpolate_positions_on_timebase pos_ts pos_vals tb im = Ok P
    /\ create_transaction_vectors_on_timebase txs_for_map tb (Some P)
         (Some (py_set (map normalize_timestamp pos_ts))) method
         default_window_bins default_z_threshold default_magnitude_band
       = Ok (d, w)
    /\ length P = length tb /\ length d = length tb /\ length w = length tb
    /\ t0 < Z.of_nat (length tb)
    /\ py_getitem P t0 = Ok P0
    /\ py_getitem (np_cumsum d) t0 = Ok D0
    /\ py_getitem (np_cumsum w) t0 = Ok W0
    /\ r = mk_GainsResult tb P (np_cumsum d) (np_cumsum w)
             (zip_with (gain_at P0 D0 W0) P
                (zip (np_cumsum d) (np_cumsum w))).
Proof.
  intros Hrun tb txs_for_map. revert Hrun.
  unfold calculate_correct_gains. fold tb. fold txs_for_map.
  destruct (interpolate_positions_on_timebase pos_ts pos_vals tb im)
    as [P|e] eqn:HP; [|discriminate].
  unfold mbind at 1, result_bind at 1.
  pose proof (interpolate_positions_length _ _ _ _ _ HP) as HlP.
  destruct (create_transaction_vectors_ok txs_for_map tb (Some P)
              (Some (py_set (map normalize_timestamp pos_ts))) method
              default_window_bins default_z_threshold default_magnitude_band)
    as (d & w & Hv & Hd & Hw & _).
  rewrite Hv. unfold mbind at 1, result_bind at 1.
  destruct (Z.leb_spec (Z.of_nat (length tb)) t0) as [|Hlt]; [discriminate|].
  destruct (py_getitem P t0) as [P0|] eqn:HgP; [|discriminate].
  unfold mbind at 1, result_bind at 1.
  destruct (py_getitem (np_cumsum d) t0) as [D0|] eqn:HgD; [|discriminate].
  unfold mbind at 1, result_bind at 1.
  destruct (py_getitem (np_cumsum w) t0) as [W0|] eqn:HgW; [|discriminate].
  unfold mbind at 1, result_bind at 1.
  intros [= <-]. exists P, d, w, P0, D0, W0.
  repeat split; assumption || reflexivity.
Qed.

(** A timestamp swap keeps a transaction valid: the constructor runs
    again, and on its failure the original transaction is kept. *)
Lemma replaced_timestamp_valid tx ts :
  valid_transaction tx ->
  valid_transaction (match replace_timestamp tx ts with
                     | Ok tx' => tx'
                     | Raise _ => tx
                     end).
Proof.
  intros Hv. unfold replace_timestamp, mbind, result_bind.
  destruct (Transaction_post_init (mk_Transaction ts _ _ _ _ _ _ _))
    as [[]|e] eqn:E; [exact E|exact Hv].
Qed.

(** The CDFs returned by [calculate_correct_gains] are non-decreasing when
    every transaction is valid. *)
Lemma calculate_correct_gains_cdf_monotone pos_ts pos_vals
    (txs : list Transaction) t0 im method (uc : bool) r :
  Forall valid_transaction txs ->
  calculate_correct_gains pos_ts pos_vals txs t0 im method uc = Ok r ->
  nondecreasing (deposit_cdf_of r) /\ nondecreasing (withdrawal_cdf_of r).
Proof.
  intros Hv Hr. unfold calculate_correct_gains in Hr.
  destruct (interpolate_positions_on_timebase _ _ _ _) as [P|e];
    [|discriminate].
  unfold mbind at 1, result_bind at 1 in Hr.
  match type of Hr with
  | context [create_transaction_vectors_on_timebase ?a ?b ?c ?d ?e ?f ?g ?h] =>
      destruct (create_transaction_vectors_ok a b c d e f g h)
        as (d0 & w0 & Hrun & _ & _ & Hnn); rewrite Hrun in Hr;
      assert (Forall valid_transaction a) as Hva
  end.
  { destruct uc; [|exact Hv].
    apply Forall_fmap. eapply Forall_impl; [exact Hv|].
    intros tx Htx. apply replaced_timestamp_valid, Htx. }
  destruct (Hnn Hva) as [Hd Hw].
  unfold mbind at 1, result_bind at 1 in Hr.
  destruct (_ <=? t0); [discriminate|].
  unfold mbind, result_bind in Hr.
  repeat (match type of Hr with
          | match ?m with Ok _ => _ | Raise _ => _ end = _ =>
              destruct m; [|discriminate]
          end).
  injection Hr as <-. simpl.
  auto using np_cumsum_nondecreasing.
Qed.

End GainPipeline.

(** ** The sample-count check of the residual gate *)

Section GateSampleCount.
Import Datetime Models Numpy CorrectCalculations AlertLogic.
Context `{NumLib}.

(** Too few samples on the data_range fallback path: the decision is the
    baseline decision from the total wmax. *)
Lemma fallback_gate_insufficient_points dg x_time cp_vals dec :
  Z.of_nat (length cp_vals) < Z.max (min_points dg) (polynomial_order dg + 1) ->
  decision (residual_gate_fallback dg x_time cp_vals dec)
  = baseline_decision (wmax_usd_list dec).
Proof.
  intros Hfew. unfold residual_gate_fallback.
  destruct (dg_enabled dg && apply_in_fallback dg); [|reflexivity].
  replace (Z.of_nat (length cp_vals) <? _) with true by lia. reflexivity.
Qed.

(** Too few samples on the keyword-reference path with the gate enabled:
    the decision is HOLD and the gate is marked as not applied, whatever
    the wallet caps. *)
Lemma keyword_gate_insufficient_points dg x_time cp_vals dec :
  dg_enabled dg = true ->
  Z.of_nat (length cp_vals) < Z.max (min_points dg) (polynomial_order dg + 1) ->
  decision (decide_keyword dg x_time cp_vals dec) = HOLD
  /\ gate_applied (decide_keyword dg x_time cp_vals dec) = Some false.
Proof.
  intros Hen Hfew. unfold decide_keyword, residual_gate_keyword. rewrite Hen.
  replace (Z.of_nat (length cp_vals) <? _) with true by lia.
  split; reflexivity.
Qed.

(** The baseline decision is WITHDRAW_OK exactly when the total wmax is
    positive. *)
Lemma baseline_decision_spec l :
  (baseline_decision l = WITHDRAW_OK <-> (0 < total_wmax l)%Q)
  /\ (baseline_decision l = HOLD <-> (total_wmax l <= 0)%Q).
Proof.
  unfold baseline_decision, WITHDRAW_OK, HOLD.
  destruct (Qlt_bool 0 (total_wmax l)) eqn:E.
  - apply Qlt_bool_iff in E. split; split; auto; try discriminate.
    intros Hle. exfalso. lra.
  - apply Qlt_bool_false in E. split; split; auto; try discriminate.
    intros Hlt. exfalso. lra.
Qed.

End GateSampleCount.

(** ** Price-mismatch hysteresis *)

Section PriceCompare.
Import AlertLogic.

Lemma price_compare_asset_outcome pc resolve srcs counts asset dec :
  String.eqb (action_on_mismatch pc) "hold" = true ->
  decision dec <> ERROR ->
  hysteresis_outcome pc resolve srcs counts
    (price_compare_asset pc resolve srcs counts asset dec).1 asset dec
    (price_compare_asset pc resolve srcs counts asset dec).2.
Proof.
  intros Hact Hne. unfold hysteresis_outcome, price_compare_asset, ERROR in *.
  replace (decision dec =? -1) with false by lia.
  destruct (Nat.ltb_spec (length (collect_prices resolve srcs asset)) 2);
    destruct (Nat.leb_spec 2 (length (collect_prices resolve srcs asset)));
    try lia.
  - simpl. auto.
  - rewrite Hact, andb_true_r. cbn [fst snd].
    rewrite lookup_insert_eq. simpl. auto.
Qed.

(** An iteration leaves the counters of the other assets alone. *)
Lemma price_compare_asset_other pc resolve srcs counts a dec asset :
  a <> asset ->
  (price_compare_asset pc resolve srcs counts a dec).1 !! asset
  = counts !! asset.
Proof.
  intros Hne. unfold price_compare_asset.
  destruct (decision dec =? -1); [reflexivity|].
  destruct (length _ <? 2)%nat; [reflexivity|].
  cbn [fst]. apply lookup_insert_ne, Hne.
Qed.

Lemma price_compare_cycle_cons pc resolve srcs counts a d rest :
  price_compare_cycle pc resolve srcs counts ((a, d) :: rest)
  = let step := price_compare_asset pc resolve srcs counts a d in
    let tail := price_compare_cycle pc resolve srcs step.1 rest in
    (tail.1, (a, step.2) :: tail.2).
Proof.
  simpl. destruct (price_compare_asset _ _ _ _ _ _) as [c1 d1].
  cbn [fst snd].
  destruct (price_compare_cycle _ _ _ c1 rest) as [c2 r2]. reflexivity.
Qed.

Lemma price_compare_cycle_other pc resolve srcs decisions :
  forall counts asset,
    asset ∉ map fst decisions ->
    (price_compare_cycle pc resolve srcs counts decisions).1 !! asset
    = counts !! asset.
Proof.
  induction decisions as [|[a d] rest IH]; intros counts asset Hnot;
    [reflexivity|].
  rewrite price_compare_cycle_cons. cbn [fst snd].
  simpl in Hnot. apply not_elem_of_cons in Hnot as [Hne Hrest].
  rewrite IH by exact Hrest.
  apply price_compare_asset_other. congruence.
Qed.

End PriceCompare.

(** ** Per-wallet caps *)

Section WalletCaps.
Import Datetime Models Numpy CorrectCalculations AlertLogic.
Context `{NumLib}.

Lemma wallet_entry_Some c method uc txs addr (s : series) wb :
  wallet_entry c method uc txs (addr, s) = Some wb ->
  s <> []
  /\ exists g, wallet_gain method uc txs addr s = Ok g
             /\ wb_wallet_address wb = addr
             /\ wmax_usd wb = py_max 0 (c * g).
Proof.
  unfold wallet_entry. destruct s as [|kv s]; [discriminate|].
  destruct (wallet_gain method uc txs addr (kv :: s)) as [g|e]; [|discriminate].
  unfold mbind, result_bind, new_WalletBreakdown.
  destruct (WalletBreakdown_post_init _); [|discriminate].
  intros [= <-]. split; [discriminate|]. exists g. auto.
Qed.

Lemma py_max_0_of_nonneg x : (0 <= x)%Q -> (py_max 0 x == x)%Q.
Proof.
  intros Hx. unfold py_max. destruct (Qlt_bool 0 x) eqn:E; [reflexivity|].
  apply Qlt_bool_false in E. lra.
Qed.

Lemma foldl_wmax_acc (l : list WalletBreakdown) (acc : Q) :
  (foldl (fun a wb => a + wmax_usd wb) acc l == acc + Qsum (map wmax_usd l))%Q.
Proof.
  revert acc. induction l as [|wb l IH]; intros acc; simpl.
  - unfold Qsum. simpl. ring.
  - rewrite IH. unfold Qsum. simpl. ring.
Qed.

Lemma total_wmax_sum (l : list WalletBreakdown) :
  (total_wmax l == Qsum (map wmax_usd l))%Q.
Proof. unfold total_wmax. rewrite foldl_wmax_acc. ring. Qed.

Lemma caps_of_nonnegative_gains (c : Q) (gains : list Q) :
  (0 <= c)%Q -> Forall (fun g => (0 <= g)%Q) gains ->
  (Qsum (map (fun g => py_max 0 (c * g)) gains) == c * Qsum gains)%Q
  /\ (0 <= Qsum gains)%Q.
Proof.
  intros Hc. induction 1 as [|g gains Hg _ [IH1 IH2]]; unfold Qsum; simpl.
  - split; [ring|lra].
  - fold (Qsum gains). fold (Qsum (map (fun g0 => py_max 0 (c * g0)) gains)).
    split; [|lra].
    rewrite IH1, py_max_0_of_nonneg; [ring|].
    apply Qmult_le_0_compat; assumption.
Qed.

Lemma breakdown_caps wallets all_txs method uc c :
  map wmax_usd (_calculate_per_wallet_wmax wallets all_txs method uc c)
  = map (fun g => py_max 0 (c * g))
        (listed_wallet_gains wallets all_txs method uc c).
Proof.
  unfold _calculate_per_wallet_wmax, listed_wallet_gains.
  induction wallets as [|[addr s] wallets IH]; [reflexivity|].
  cbn [omap list_omap].
  destruct (wallet_entry c method uc all_txs (addr, s)) as [wb|] eqn:E;
    [|exact IH].
  apply wallet_entry_Some in E as (_ & g & Hg & _ & Hw).
  cbn [fst snd]. rewrite Hg. cbn [map]. rewrite <- Hw.
  f_equal. exact IH.
Qed.

End WalletCaps.

(** ** Interpolation at the sample points *)

Section Interpolation.
Import Datetime Models Numpy CorrectCalculations.
Context `{NumLib}.

Lemma increasing_tail x l : increasing (x :: l) -> increasing l.
Proof. destruct l; simpl; tauto. Qed.

Lemma increasing_head_le x l k y :
  increasing (x :: l) -> (x :: l) !! k = Some y -> (x <= y)%Q.
Proof.
  revert x k. induction l as [|z l IH]; intros x k Hinc Hk.
  - destruct k; simpl in Hk; [injection Hk as <-; lra|].
    rewrite lookup_nil in Hk. discriminate.
  - destruct k as [|k]; simpl in Hk; [injection Hk as <-; lra|].
    destruct Hinc as [Hxz Hinc]. specialize (IH z k Hinc Hk). lra.
Qed.

Lemma increasing_le_last x l k y :
  increasing (x :: l) -> (x :: l) !! k = Some y ->
  (y <= default 0 (last (x :: l)))%Q.
Proof.
  revert x k y. induction l as [|z l IH]; intros x k y Hinc Hk.
  - destruct k; simpl in Hk; [injection Hk as <-; simpl; lra|].
    rewrite lookup_nil in Hk. discriminate.
  - change (last (x :: z :: l)) with (last (z :: l)).
    destruct k as [|k]; simpl in Hk.
    + injection Hk as <-. destruct Hinc as [Hxz Hinc].
      specialize (IH z 0%nat z Hinc eq_refl). lra.
    + apply (IH z k y); [apply Hinc|exact Hk].
Qed.

(** On a knot the segment search returns the knot's value as it is. *)
Lemma interp_segment_knot xp fp k xk yk :
  increasing xp -> length fp = length xp ->
  xp !! k = Some xk -> fp !! k = Some yk ->
  interp_segment xk xp fp = yk.
Proof.
  revert fp k. induction xp as [|x0 xp IH]; intros fp k Hinc Hlen Hx Hy.
  - rewrite lookup_nil in Hx. discriminate.
  - destruct fp as [|y0 fp]; [discriminate|].
    destruct xp as [|x1 xp].
    + destruct fp; [|discriminate]. destruct k; simpl in *; [congruence|].
      rewrite lookup_nil in Hx. discriminate.
    + destruct fp as [|y1 fp]; [discriminate|].
      cbn [interp_segment].
      destruct k as [|k].
      * simpl in Hx, Hy. injection Hx as <-. injection Hy as <-.
        destruct Hinc as [Hlt _].
        destruct (Qle_bool x1 x0) eqn:E.
        { apply Qle_bool_iff in E. exfalso. lra. }
        replace (Qeq_bool x0 x0) with true; [reflexivity|].
        symmetry. apply Qeq_bool_iff. reflexivity.
      * simpl in Hx, Hy.
        pose proof (increasing_head_le x1 xp k xk (increasing_tail _ _ Hinc) Hx) as Hle.
        apply Qle_bool_iff in Hle. rewrite Hle.
        apply (IH (y1 :: fp) k); [exact (increasing_tail _ _ Hinc)| |exact Hx|exact Hy].
        simpl in *. lia.
Qed.

Lemma interp_point_knot xp fp k xk yk :
  increasing xp -> length fp = length xp ->
  xp !! k = Some xk -> fp !! k = Some yk ->
  interp_point xp fp xk = yk.
Proof.
  intros Hinc Hlen Hx Hy. unfold interp_point.
  destruct xp as [|x0 xp]; [rewrite lookup_nil in Hx; discriminate|].
  destruct fp as [|y0 fp]; [discriminate|].
  pose proof (increasing_head_le x0 xp k xk Hinc Hx) as Hlo.
  pose proof (increasing_le_last x0 xp k xk Hinc Hx) as Hhi.
  apply Qlt_bool_false in Hlo. rewrite Hlo.
  apply Qlt_bool_false in Hhi. rewrite Hhi.
  apply interp_segment_knot with (k := k); assumption.
Qed.

Lemma mapM_result_lookup {A B} (f : A -> result B) (l : list A) (r : list B) i x :
  mapM f l = Ok r -> l !! i = Some x ->
  exists y, f x = Ok y /\ r !! i = Some y.
Proof.
  revert r i. induction l as [|a l IH]; intros r i; simpl.
  - intros _ Hi. rewrite lookup_nil in Hi. discriminate.
  - unfold mbind, result_bind, mret, result_ret.
    destruct (f a) as [y|e] eqn:Ea; [|discriminate].
    destruct (mapM f l) as [k|e] eqn:El; [|discriminate].
    intros [= <-] Hi. destruct i as [|i]; simpl in Hi.
    + injection Hi as <-. exists y. auto.
    + destruct (IH k i eq_refl Hi) as (y' & Hy' & Hk). exists y'. auto.
Qed.

End Interpolation.

(** * The stated properties *)

Section Claims.
Import Datetime Models Numpy CorrectCalculations AlertLogic Examples.

(** C1.  For an evaluation with a non-empty unified timebase and a valid
    reference index t0, the corrected gain series satisfies
    gain[i] = P[i] - P[t0] - (D[i] - D[t0]) + (W[i] - W[t0]) at every
    index i, and gain[t0] == 0, for every alignment policy and every
    transaction set.  Here P is the interpolation of the position samples
    on the unified timebase of the inputs, and D and W are the running
    sums of the deposit and withdrawal vectors that the mapper builds
    from the transactions on that timebase: D[i] and W[i] are the sums of
    the first i + 1 entries of those vectors.  The series exists: with at
    least one position sample (as many values as timestamps) the linear
    evaluation returns. *)
Theorem corrected_gain_formula `{NumLib}
    (position_timestamps : list datetime) (position_values : list Q)
    (transactions : list Transaction) (t0 : Z)
    (interpolation_method : string) (method : alignment_method)
    (use_created : bool) :
  let tb := create_unified_timebase position_timestamps
              (map (fun tx => if use_created then created_at tx
                              else timestamp tx) transactions) in
  let txs_for_map :=
    if use_created
    then map (fun tx => match replace_timestamp tx (created_at tx) with
                        | Ok tx' => tx'
                        | Raise _ => tx
                        end) transactions
    else transactions in
  tb <> [] -> 0 <= t0 < Z.of_nat (length tb) ->
  (position_timestamps <> [] ->
   length position_timestamps = length position_values ->
   exists r, calculate_correct_gains position_timestamps position_values
               transactions t0 "linear" method use_created = Ok r)
  /\ forall r,
      calculate_correct_gains position_timestamps position_values
        transactions t0 interpolation_method method use_created = Ok r ->
      let P := interpolated_positions_of r in
      let D := deposit_cdf_of r in
      let W := withdrawal_cdf_of r in
      let gain := gains_of r in
      unified_timebase_of r = tb
      /\ length P = length tb /\ length D = length tb
      /\ length W = length tb /\ length gain = length tb
      /\ (exists P0 D0 W0,
            P !! Z.to_nat t0 = Some P0
            /\ D !! Z.to_nat t0 = Some D0
            /\ W !! Z.to_nat t0 = Some W0
            /\ (forall i, (i < length tb)%nat ->
                  exists p d w g,
                    P !! i = Some p /\ D !! i = Some d /\ W !! i = Some w
                    /\ gain !! i = Some g
                    /\ (g == p - P0 - (d - D0) + (w - W0))%Q)
            /\ exists g0, gain !! Z.to_nat t0 = Some g0 /\ (g0 == 0)%Q)
      /\ interpolate_positions_on_timebase position_timestamps
           position_values tb interpolation_method = Ok P
      /\ exists deposit_vector withdrawal_vector,
           create_transaction_vectors_on_timebase txs_for_map tb (Some P)
             (Some (py_set (map normalize_timestamp position_timestamps)))
             method default_window_bins default_z_threshold
             default_magnitude_band
           = Ok (deposit_vector, withdrawal_vector)
           /\ D = np_cumsum deposit_vector
           /\ W = np_cumsum withdrawal_vector
           /\ (forall i d, D !! i = Some d ->
                 (d == Qsum (take (S i) deposit_vector))%Q)
           /\ (forall i w, W !! i = Some w ->
                 (w == Qsum (take (S i) withdrawal_vector))%Q).
Proof.
  intros tb txs_for_map _ Ht0. split.
  - intros Hne Hlen.
    destruct (interpolate_positions_linear_ok position_timestamps
                position_values tb Hne Hlen) as [P HP].
    destruct (calculate_correct_gains_unfold position_timestamps
                position_values transactions t0 "linear" method use_created
                P Ht0 HP) as (d & w & P0 & D0 & W0 & _ & _ & _ & _ & _ & Hrun).
    eauto.
  - intros r Hr.
    destruct (calculate_correct_gains_inv _ _ _ _ _ _ _ _ Hr)
      as (P & d & w & P0 & D0 & W0 & HP & Hv & HlP & Hd & Hw & _ & HgP & HgD
          & HgW & ->).
    fold tb in HP, Hv, HlP, Hd, Hw. fold txs_for_map in Hv.
    destruct (py_getitem_ok P t0) as (P0' & HgP' & HP0); [lia|].
    rewrite HgP in HgP'. injection HgP' as <-.
    destruct (py_getitem_ok (np_cumsum d) t0) as (D0' & HgD' & HD0);
      [rewrite length_np_cumsum; lia|].
    rewrite HgD in HgD'. injection HgD' as <-.
    destruct (py_getitem_ok (np_cumsum w) t0) as (W0' & HgW' & HW0);
      [rewrite length_np_cumsum; lia|].
    rewrite HgW in HgW'. injection HgW' as <-.
    cbv zeta.
    cbn [interpolated_positions_of deposit_cdf_of withdrawal_cdf_of
         gains_of unified_timebase_of].
    assert (forall i, (i < length tb)%nat ->
              exists p d1 w1 g,
                P !! i = Some p /\ np_cumsum d !! i = Some d1
                /\ np_cumsum w !! i = Some w1
                /\ zip_with (gain_at P0 D0 W0) P
                     (zip (np_cumsum d) (np_cumsum w)) !! i = Some g
                /\ (g == p - P0 - (d1 - D0) + (w1 - W0))%Q) as Hall.
    { intros i Hi.
      destruct (lookup_lt_is_Some_2 P i) as [p Hp]; [lia|].
      destruct (lookup_lt_is_Some_2 (np_cumsum d) i) as [d1 Hd1];
        [rewrite length_np_cumsum; lia|].
      destruct (lookup_lt_is_Some_2 (np_cumsum w) i) as [w1 Hw1];
        [rewrite length_np_cumsum; lia|].
      exists p, d1, w1, (gain_at P0 D0 W0 p (d1, w1)).
      split; [exact Hp|]. split; [exact Hd1|]. split; [exact Hw1|].
      split; [|unfold gain_at; simpl; reflexivity].
      apply lookup_zip_with_Some. exists p, (d1, w1).
      split; [reflexivity|]. split; [exact Hp|].
      apply lookup_zip_with_Some. eauto. }
    split; [reflexivity|]. split; [exact HlP|].
    split; [rewrite length_np_cumsum; exact Hd|].
    split; [rewrite length_np_cumsum; exact Hw|].
    split;
      [rewrite length_zip_with, (length_zip_with pair), !length_np_cumsum; lia|].
    split.
    + exists P0, D0, W0.
      split; [exact HP0|]. split; [exact HD0|]. split; [exact HW0|].
      split; [exact Hall|].
      destruct (Hall (Z.to_nat t0)) as (p & d1 & w1 & g & Hp & Hd1 & Hw1 & Hg & Heq);
        [lia|].
      exists g. split; [exact Hg|].
      rewrite HP0 in Hp. rewrite HD0 in Hd1. rewrite HW0 in Hw1.
      injection Hp as <-. injection Hd1 as <-. injection Hw1 as <-.
      rewrite Heq. ring.
    + split; [exact HP|]. exists d, w.
      split; [exact Hv|]. split; [reflexivity|]. split; [reflexivity|].
      split; intros i x Hx; apply np_cumsum_lookup, Hx.
Qed.

Lemma corrected_gain_formula_witness :
  let position_timestamps := [hour 0; hour 1; hour 2] in
  let position_values := [100; 100; 200]%Q in
  let transactions := [deposit_at (hour 2) "addr1" 100] in
  let tb := create_unified_timebase position_timestamps [hour 2] in
  (exists r, @calculate_correct_gains plain_numlib position_timestamps
               position_values transactions 0 "linear" RightOpen false = Ok r)
  /\ forall r,
      @calculate_correct_gains plain_numlib position_timestamps
        position_values transactions 0 "linear" RightOpen false = Ok r ->
      exists g0, gains_of r !! 0%nat = Some g0 /\ (g0 == 0)%Q.
Proof.
  intros position_timestamps position_values transactions tb.
  destruct (@corrected_gain_formula plain_numlib position_timestamps
              position_values transactions 0 "linear" RightOpen false)
    as [Hret Hspec].
  - discriminate.
  - vm_compute. split; [discriminate|reflexivity].
  - split.
    + apply Hret; [discriminate|reflexivity].
    + intros r Hr.
      destruct (Hspec r Hr)
        as (_ & _ & _ & _ & _ & (P0 & D0 & W0 & _ & _ & _ & _ & Hg0) & _).
      exact Hg0.
Defined.

(** C10.  For a non-empty timebase, a transaction whose timestamp matches
    a timebase index, and any of the alignment policies (exact,
    right_open, snap_to_next_pos, snap_to_prev_pos, snap_to_nearest_pos,
    detect_spike), the index returned by [choose_index_for_tx] lies in
    [0, len(timebase) - 1], so the write into the deposit or withdrawal
    vector that follows is in bounds. *)
Theorem resolved_index_in_bounds `{NumLib}
    (method : alignment_method) (unified_timebase : list datetime)
    (position_timestamps_set : option (list datetime))
    (interpolated_positions : option (list Q))
    (window_bins : Z) (z_threshold : Q) (magnitude_band : Q * Q)
    (tx : Transaction) (base_idx : Z) (more : list Z) :
  unified_timebase <> [] ->
  np_where (fun tb => Datetime.eqb tb (timestamp tx)) unified_timebase
    = base_idx :: more ->
  let allow_detect := bool_decide (method = DetectSpike)
                      && bool_decide (is_Some interpolated_positions) in
  let idx := choose_index_for_tx method unified_timebase
               (make_pos_mask position_timestamps_set unified_timebase)
               allow_detect interpolated_positions window_bins z_threshold
               magnitude_band base_idx tx in
  0 <= idx <= Z.of_nat (length unified_timebase) - 1
  /\ forall (vector : list Q) (x : Q),
       length vector = length unified_timebase ->
       py_setitem vector idx x = Ok (<[Z.to_nat idx := x]> vector).
Proof.
  intros _ Hm allow_detect idx.
  pose proof (np_where_bounds (fun tb => Datetime.eqb tb (timestamp tx))
                unified_timebase) as Hb.
  rewrite Hm in Hb. inversion Hb as [|? ? Hbase _]; subst.
  pose proof (choose_index_for_tx_range method unified_timebase
                position_timestamps_set allow_detect interpolated_positions
                window_bins z_threshold magnitude_band base_idx tx Hbase)
    as Hidx.
  fold idx in Hidx. split; [lia|].
  intros vector x Hlen. apply py_setitem_ok. lia.
Qed.

Lemma resolved_index_in_bounds_witness :
  let tb := [hour 0; hour 1; hour 2] in
  let tx := deposit_at (hour 1) "addr1" 100 in
  let idx := @choose_index_for_tx plain_numlib DetectSpike tb
               (make_pos_mask (Some [hour 0; hour 2]) tb) true
               (Some [100; 100; 200]%Q) 8 3 default_magnitude_band 1 tx in
  0 <= idx <= 2
  /\ forall (vector : list Q) (x : Q),
       length vector = 3%nat ->
       py_setitem vector idx x = Ok (<[Z.to_nat idx := x]> vector).
Proof.
  apply (@resolved_index_in_bounds plain_numlib DetectSpike
           [hour 0; hour 1; hour 2] (Some [hour 0; hour 2])
           (Some [100; 100; 200]%Q) 8 3 default_magnitude_band
           (deposit_at (hour 1) "addr1" 100) 1 []).
  - discriminate.
  - reflexivity.
Defined.

(** C6.  For transactions that satisfy the construction invariant
    (deposit amount > 0, withdrawal amount < 0), under every alignment
    policy, the transaction vectors are produced and the deposit CDF and
    the withdrawal CDF are non-decreasing over timebase order. *)
Theorem cdf_monotone `{NumLib}
    (transactions : list Transaction) (unified_timebase : list datetime)
    (interpolated_positions : option (list Q))
    (position_timestamps_set : option (list datetime))
    (method : alignment_method)
    (window_bins : Z) (z_threshold : Q) (magnitude_band : Q * Q) :
  Forall valid_transaction transactions ->
  exists deposit_vector withdrawal_vector,
    create_transaction_vectors_on_timebase transactions unified_timebase
      interpolated_positions position_timestamps_set method
      window_bins z_threshold magnitude_band
      = Ok (deposit_vector, withdrawal_vector)
    /\ nondecreasing (np_cumsum deposit_vector)
    /\ nondecreasing (np_cumsum withdrawal_vector).
Proof.
  intros Hvalid.
  destruct (create_transaction_vectors_ok transactions unified_timebase
              interpolated_positions position_timestamps_set method
              window_bins z_threshold magnitude_band)
    as (d & w & Hrun & _ & _ & Hnn).
  destruct (Hnn Hvalid) as [Hd Hw].
  exists d, w. auto using np_cumsum_nondecreasing.
Qed.

Lemma cdf_monotone_witness :
  exists deposit_vector withdrawal_vector,
    @create_transaction_vectors_on_timebase plain_numlib
      [deposit_at (hour 1) "addr1" 100; withdrawal_at (hour 2) "addr1" (-30)]
      [hour 0; hour 1; hour 2] (Some [100; 200; 170]%Q)
      (Some [hour 0; hour 1; hour 2]) RightOpen
      default_window_bins default_z_threshold default_magnitude_band
      = Ok (deposit_vector, withdrawal_vector)
    /\ nondecreasing (np_cumsum deposit_vector)
    /\ nondecreasing (np_cumsum withdrawal_vector).
Proof.
  apply (@cdf_monotone plain_numlib).
  repeat constructor.
Defined.

(** C2.  Two events that resolve to the same timebase index: the deposit
    vector at that index holds the amount of the last event only.  Two
    deposits of 100 and 50 at the same instant leave 50 at the index, not
    their sum 150; likewise two withdrawals of 40 and 10 leave 10. *)
Theorem same_index_events_keep_last :
  let tb := create_unified_timebase [hour 0; hour 1; hour 2]
              [hour 1; hour 1; hour 2; hour 2] in
  let txs := [deposit_at (hour 1) "addr1" 100;
              deposit_at (hour 1) "addr1" 50;
              withdrawal_at (hour 2) "addr1" (-40);
              withdrawal_at (hour 2) "addr1" (-10)] in
  tb = [hour 0; hour 1; hour 2]
  /\ Forall valid_transaction txs
  /\ @create_transaction_vectors_on_timebase plain_numlib txs tb
       (Some [100; 250; 200]%Q) (Some [hour 0; hour 1; hour 2]) AlignNone
       default_window_bins default_z_threshold default_magnitude_band
     = Ok ([0; 50; 0]%Q, [0; 0; Qabs (-10)]%Q)
  /\ ~ (50 == 100 + 50)%Q
  /\ ~ (Qabs (-10) == Qabs (-40) + Qabs (-10))%Q.
Proof.
  split; [reflexivity|]. split; [repeat constructor|].
  split; [reflexivity|]. split; intros E; vm_compute in E; discriminate.
Qed.

(** C3.  A timezone-naive transaction timestamp that was given to the
    Timebase Builder is never matched by the exact lookup: the builder
    stored its UTC-aware normalisation, and the lookup compares the
    timebase against the naive timestamp itself.  The event is dropped
    and both vectors stay zero. *)
Theorem naive_timestamp_never_matches
    (us : Z) (position_timestamps transaction_timestamps : list datetime) :
  np_where (fun tb => Datetime.eqb tb (naive us))
           (create_unified_timebase position_timestamps
              (naive us :: transaction_timestamps)) = []
  /\ @create_transaction_vectors_on_timebase plain_numlib
       [deposit_at (naive 3600000000) "addr1" 100]
       (create_unified_timebase [hour 0; hour 2] [naive 3600000000])
       None None AlignNone
       default_window_bins default_z_threshold default_magnitude_band
     = Ok ([0; 0; 0]%Q, [0; 0; 0]%Q).
Proof.
  split; [|reflexivity].
  apply where_from_none.
  eapply Forall_impl; [apply unified_timebase_is_utc|].
  intros tb Htb. apply eqb_utc_naive, Htb.
Qed.

(** C5 as stated fails: on empty inputs [calculate_correct_gains] raises
    instead of returning empty outputs. *)
Lemma empty_inputs_raise :
  ~ exists r, @calculate_correct_gains plain_numlib [] [] [] 0 "linear"
                AlignNone false = Ok r.
Proof. intros [r Hr]. vm_compute in Hr. discriminate. Qed.

(** C5, amended.  For empty inputs the Timebase Builder returns an empty
    timebase; the transaction mapper and the CDF accumulator return empty
    vectors on it; the interpolator and [calculate_correct_gains] raise
    [ValueError] (no sample points; reference index out of bounds), for
    every reference index, method and policy. *)
Theorem empty_inputs_behaviour `{NumLib}
    (reference_time_index : Z) (interpolation_method : string)
    (method : alignment_method) (use_created : bool)
    (interpolated_positions : option (list Q))
    (position_timestamps_set : option (list datetime))
    (window_bins : Z) (z_threshold : Q) (magnitude_band : Q * Q) :
  create_unified_timebase [] [] = []
  /\ create_transaction_vectors_on_timebase [] [] interpolated_positions
       position_timestamps_set method window_bins z_threshold magnitude_band
     = Ok ([], [])
  /\ np_cumsum [] = []
  /\ (exists msg, interpolate_positions_on_timebase [] [] []
                    interpolation_method = Raise (ValueError msg))
  /\ (exists msg, calculate_correct_gains [] [] [] reference_time_index
                    interpolation_method method use_created
                  = Raise (ValueError msg)).
Proof.
  split; [reflexivity|]. split; [reflexivity|]. split; [reflexivity|].
  assert (exists msg, interpolate_positions_on_timebase [] [] []
                        interpolation_method = Raise (ValueError msg)) as Hi.
  { unfold interpolate_positions_on_timebase. simpl.
    destruct (String.eqb interpolation_method "linear"); [eauto|].
    destruct (String.eqb interpolation_method "cubic"); [|eauto].
    destruct scipy_interp1d_cubic; eauto. }
  split; [exact Hi|].
  destruct Hi as [msg Hi]. exists msg.
  unfold calculate_correct_gains. simpl map.
  change (create_unified_timebase [] []) with (@nil datetime).
  rewrite Hi. reflexivity.
Qed.

(** C4.  With fewer than max(min_points, polynomial_order + 1) samples
    the gate is skipped.  On the data_range fallback path the baseline
    decision is substituted; on the keyword-reference path the decision
    is HOLD even though the wallets' total wmax is positive: three
    samples against min_points = 10, one wallet with wmax 50. *)
Theorem keyword_path_skips_baseline_decision :
  let dg := mk_DecisionGate true true PolynomialFit 1 10 2 Stddev
              (68 # 100) (1 # 1000000000) true in
  let dec := mk_AssetDecision 0 [Models.mk_WalletBreakdown "addr1" 50 1050]
               (Some 50%Q) None None None None [] None None None None in
  let x_time := [hour 0; hour 1; hour 2] in
  let cp_vals := [1000; 1020; 1050]%Q in
  Z.of_nat (length cp_vals) < Z.max (min_points dg) (polynomial_order dg + 1)
  /\ (0 < total_wmax (wmax_usd_list dec))%Q
  /\ baseline_decision (wmax_usd_list dec) = WITHDRAW_OK
  /\ decision (@residual_gate_fallback plain_numlib dg x_time cp_vals dec)
     = WITHDRAW_OK
  /\ decision (@decide_keyword plain_numlib dg x_time cp_vals dec) = HOLD
  /\ gate_applied (@decide_keyword plain_numlib dg x_time cp_vals dec)
     = Some false.
Proof. repeat split; reflexivity. Qed.

(** C7.  In an evaluation cycle with price-compare enabled and action
    "hold", for each non-ERROR asset: with at least 2 source prices the
    asset's mismatch counter becomes previous + 1 on a mismatch and 0 on a
    match, and the decision is forced to HOLD exactly when the mismatch
    holds and the updated counter is at least persistence_threshold
    (otherwise it is left as it was); with fewer than 2 source prices the
    comparison is marked unavailable, the counter is kept and no override
    occurs. *)
Theorem price_mismatch_hysteresis
    (pc : PriceCompare) (resolve : string -> string -> option Q)
    (logical_sources : list string) (counts : gmap string Z)
    (decisions : list (string * AssetDecision))
    (asset : string) (dec : AssetDecision) :
  String.eqb (action_on_mismatch pc) "hold" = true ->
  NoDup (map fst decisions) ->
  (asset, dec) ∈ decisions ->
  decision dec <> ERROR ->
  let cycle := price_compare_cycle pc resolve logical_sources counts
                 decisions in
  exists dec',
    (asset, dec') ∈ cycle.2
    /\ hysteresis_outcome pc resolve logical_sources counts cycle.1
         asset dec dec'.
Proof.
  intros Hact. revert counts.
  induction decisions as [|[a d] rest IH]; intros counts Hnd Hin Hne cycle;
    [inversion Hin|].
  subst cycle. rewrite price_compare_cycle_cons. cbn [fst snd].
  simpl in Hnd. apply NoDup_cons in Hnd as [Hfresh Hnd].
  apply elem_of_cons in Hin as [Heq|Hin].
  - injection Heq as <- <-.
    exists (price_compare_asset pc resolve logical_sources counts asset dec).2.
    split; [apply list_elem_of_here|].
    pose proof (price_compare_asset_outcome pc resolve logical_sources
                  counts asset dec Hact Hne) as Hout.
    unfold hysteresis_outcome in *.
    rewrite price_compare_cycle_other by exact Hfresh.
    exact Hout.
  - assert (a <> asset) as Hdiff.
    { intros ->. apply Hfresh. apply list_elem_of_fmap.
      exists (asset, dec). auto. }
    destruct (IH (price_compare_asset pc resolve logical_sources counts a d).1
                Hnd Hin Hne) as (dec' & Hin' & Hout).
    exists dec'. split; [apply list_elem_of_further, Hin'|].
    unfold hysteresis_outcome in *.
    rewrite price_compare_asset_other in Hout by exact Hdiff.
    exact Hout.
Qed.

Lemma price_mismatch_hysteresis_witness :
  let cycle := price_compare_cycle scenario_d_pc scenario_d_resolve
                 ["liqwid"; "minswap"] ∅ [("usdc", scenario_d_dec)] in
  exists dec',
    (("usdc", dec') : string * AssetDecision) ∈ cycle.2
    /\ hysteresis_outcome scenario_d_pc scenario_d_resolve
         ["liqwid"; "minswap"] ∅ cycle.1 "usdc" scenario_d_dec dec'.
Proof.
  apply (price_mismatch_hysteresis scenario_d_pc scenario_d_resolve
           ["liqwid"; "minswap"] ∅ [("usdc", scenario_d_dec)]
           "usdc" scenario_d_dec).
  - reflexivity.
  - apply NoDup_singleton.
  - apply list_elem_of_here.
  - discriminate.
Defined.

(** With threshold 2 the first mismatching cycle only counts (decision
    kept at WITHDRAW_OK, counter 1); the second consecutive one reaches 2
    and forces HOLD. *)
Example scenario_d_two_cycles :
  let cycle1 := price_compare_cycle scenario_d_pc scenario_d_resolve
                  ["liqwid"; "minswap"] ∅ [("usdc", scenario_d_dec)] in
  let cycle2 := price_compare_cycle scenario_d_pc scenario_d_resolve
                  ["liqwid"; "minswap"] cycle1.1 [("usdc", scenario_d_dec)] in
  cycle1.1 !! "usdc" = Some 1
  /\ map (fun ad => decision ad.2) cycle1.2 = [WITHDRAW_OK]
  /\ cycle2.1 !! "usdc" = Some 2
  /\ map (fun ad => decision ad.2) cycle2.2 = [HOLD].
Proof. vm_compute. auto. Qed.

(** C8 as stated fails: two samples at the same instant cannot both be
    reproduced.  The timebase built from them holds that instant once, and
    the interpolated value there is the second sample's.  Samples that are
    not in time order are not reproduced either: with the sample at 1h
    (value 1) listed before the sample at 0h (value 2), the values on the
    timebase [0h; 1h] come out as 1 and 2. *)
Lemma duplicate_samples_not_reproduced :
  let position_timestamps := [hour 0; hour 0] in
  let tb := create_unified_timebase position_timestamps [] in
  (forall ts, ts ∈ position_timestamps -> ts ∈ tb)
  /\ @interpolate_positions_on_timebase plain_numlib position_timestamps
       [1; 2]%Q tb "linear" = Ok [2%Q]
  /\ @interpolate_positions_on_timebase plain_numlib position_timestamps
       [1; 2]%Q tb "cubic" = Ok [2%Q]
  /\ ~ (2 == 1)%Q
  /\ create_unified_timebase [hour 1; hour 0] [] = [hour 0; hour 1]
  /\ @interpolate_positions_on_timebase plain_numlib [hour 1; hour 0]
       [1; 2]%Q [hour 0; hour 1] "linear" = Ok [1; 2]%Q.
Proof.
  split; [|split; [reflexivity|split; [reflexivity|split]]].
  - intros ts Hts. apply elem_of_unified_timebase. rewrite app_nil_r.
    apply elem_of_cons in Hts as [->|Hts]; [apply list_elem_of_here|].
    apply list_elem_of_singleton in Hts as ->. apply list_elem_of_here.
  - intros E. vm_compute in E. discriminate.
  - split; reflexivity.
Qed.

(** C8, amended.  For a non-empty list of position samples with strictly
    increasing timestamps (as many values as timestamps) and any target
    timebase, the interpolated value at every timebase point that is at a
    sample's instant is that sample's value, for the linear method and for
    the cubic method: with fewer than 4 samples or without scipy the cubic
    method is the linear one and returns; with 4 samples or more it relies
    on scipy's spline returning the sample value at each knot. *)
Theorem interpolation_exact_at_samples `{NumLib}
    (position_timestamps : list datetime) (position_values : list Q)
    (unified_timebase : list datetime) (interpolation_method : string) :
  position_timestamps <> [] ->
  length position_timestamps = length position_values ->
  increasing (position_numeric position_timestamps) ->
  interpolation_method = "linear" \/ interpolation_method = "cubic" ->
  (forall f, scipy_interp1d_cubic = Some f ->
     interpolation_method = "cubic" -> (4 <= length position_values)%nat ->
     forall k xk yk,
       position_numeric position_timestamps !! k = Some xk ->
       position_values !! k = Some yk ->
       exists y, f (position_numeric position_timestamps) position_values xk
                 = Ok (Some y) /\ (y == yk)%Q) ->
  (interpolation_method = "linear" \/ scipy_interp1d_cubic = None
   \/ (length position_values < 4)%nat ->
   exists P, interpolate_positions_on_timebase position_timestamps
               position_values unified_timebase interpolation_method = Ok P)
  /\ forall P,
      interpolate_positions_on_timebase position_timestamps position_values
        unified_timebase interpolation_method = Ok P ->
      forall k ts v i tb_i,
        position_timestamps !! k = Some ts ->
        position_values !! k = Some v ->
        unified_timebase !! i = Some tb_i ->
        instant tb_i = instant (normalize_timestamp ts) ->
        exists v', P !! i = Some v' /\ (v' == v)%Q.
Proof.
  intros Hne Hlen Hinc Hmeth Hscipy.
  set (xp := position_numeric position_timestamps) in *.
  set (xs := map Datetime.timestamp unified_timebase).
  assert (np_interp xs xp position_values
          = Ok (map (interp_point xp position_values) xs)) as Hlin.
  { apply np_interp_ok; unfold xp, position_numeric.
    - destruct position_timestamps; [congruence|discriminate].
    - rewrite !length_map. congruence. }
  assert (forall k ts i tb_i,
            position_timestamps !! k = Some ts ->
            unified_timebase !! i = Some tb_i ->
            instant tb_i = instant (normalize_timestamp ts) ->
            xp !! k = Some (Datetime.timestamp tb_i)
            /\ xs !! i = Some (Datetime.timestamp tb_i)) as Hknot.
  { intros k ts i tb_i Hk Hi Hinst. unfold xp, xs, position_numeric. split.
    - rewrite !list_lookup_fmap, Hk. simpl. unfold Datetime.timestamp.
      rewrite Hinst. reflexivity.
    - rewrite list_lookup_fmap, Hi. reflexivity. }
  assert (forall k ts v i tb_i,
            position_timestamps !! k = Some ts ->
            position_values !! k = Some v ->
            unified_timebase !! i = Some tb_i ->
            instant tb_i = instant (normalize_timestamp ts) ->
            exists v', map (interp_point xp position_values) xs !! i = Some v'
                       /\ (v' == v)%Q) as Hexact.
  { intros k ts v i tb_i Hk Hv Hi Hinst.
    destruct (Hknot k ts i tb_i Hk Hi Hinst) as [Hxk Hxi].
    exists v. split; [|reflexivity].
    rewrite list_lookup_fmap, Hxi. simpl. f_equal.
    apply interp_point_knot with (k := k); try assumption.
    unfold xp, position_numeric. rewrite !length_map. congruence. }
  unfold interpolate_positions_on_timebase.
  change (map Datetime.timestamp (map normalize_timestamp position_timestamps))
    with xp.
  fold xs. rewrite Hlen, Nat.eqb_refl. cbn [negb].
  destruct Hmeth as [-> | ->].
  - change (String.eqb "linear" "linear") with true. cbv iota.
    rewrite Hlin. split; [eauto|]. intros P [= <-]. exact Hexact.
  - change (String.eqb "cubic" "linear") with false.
    change (String.eqb "cubic" "cubic") with true. cbv iota.
    destruct scipy_interp1d_cubic as [f|] eqn:Ef.
    + destruct (Nat.ltb_spec (length position_values) 4) as [Hfew|Hmany].
      * rewrite Hlin. split; [eauto|]. intros P [= <-]. exact Hexact.
      * split.
        { intros [Habs|[Habs|Habs]]; [discriminate..|lia]. }
        intros P HP k ts v i tb_i Hk Hv Hi Hinst.
        destruct (Hknot k ts i tb_i Hk Hi Hinst) as [Hxk Hxi].
        destruct (mapM_result_lookup _ _ _ i _ HP Hxi) as (y & Hy & HPi).
        destruct (Hscipy f eq_refl eq_refl Hmany k _ v Hxk Hv)
          as (y0 & Hf & Hy0).
        rewrite Hf in Hy. unfold mbind, result_bind in Hy.
        injection Hy as <-. exists y0. auto.
    + rewrite Hlin. split; [eauto|]. intros P [= <-]. exact Hexact.
Qed.

Lemma interpolation_exact_at_samples_witness :
  exists P,
    @interpolate_positions_on_timebase spline_numlib
      [hour 0; hour 1; hour 2; hour 4] [100; 110; 130; 120]%Q
      (create_unified_timebase [hour 0; hour 1; hour 2; hour 4]
         [hour 3; hour 5]) "cubic" = Ok P
    /\ exists v', P !! 1%nat = Some v' /\ (v' == 110)%Q.
Proof.
  destruct (@interpolation_exact_at_samples spline_numlib
              [hour 0; hour 1; hour 2; hour 4] [100; 110; 130; 120]%Q
              (create_unified_timebase [hour 0; hour 1; hour 2; hour 4]
                 [hour 3; hour 5]) "cubic") as [_ Hspec].
  - discriminate.
  - reflexivity.
  - vm_compute. repeat split.
  - right. reflexivity.
  - intros f [= <-] _ _ k xk yk Hx Hy.
    destruct k as [|[|[|[|k]]]]; simpl in Hx, Hy;
      try discriminate; injection Hx as <-; injection Hy as <-;
      eexists; (split; [reflexivity|reflexivity]).
  - destruct (@interpolate_positions_on_timebase spline_numlib
                [hour 0; hour 1; hour 2; hour 4] [100; 110; 130; 120]%Q
                (create_unified_timebase [hour 0; hour 1; hour 2; hour 4]
                   [hour 3; hour 5]) "cubic") as [P|e] eqn:HP;
      [|vm_compute in HP; discriminate].
    exists P. split; [reflexivity|].
    apply (Hspec P eq_refl 1%nat (hour 1) 110%Q 1%nat (hour 1)); reflexivity.
Defined.

(** C9 as stated fails: with one wallet that gained 10 and one that lost
    5, the caps are 10 and 0 and sum to 10, while
    safety_factor * max(0, total_gain) is 5. *)
Lemma wallet_caps_exceed_total_cap :
  let wallets : list (string * series) :=
    [("addr1", [(hour 0, 100%Q); (hour 1, 110%Q)]);
     ("addr2", [(hour 0, 100%Q); (hour 1, 95%Q)])] in
  let breakdown :=
    @_calculate_per_wallet_wmax plain_numlib wallets [] AlignNone false 1 in
  let gains := @listed_wallet_gains plain_numlib wallets [] AlignNone false 1 in
  map wb_wallet_address breakdown = ["addr1"; "addr2"]
  /\ map Qred gains = [10; -5]%Q
  /\ map Qred (map wmax_usd breakdown) = [10; 0]%Q
  /\ ~ (total_wmax breakdown == 1 * py_max 0 (Qsum gains))%Q.
Proof.
  split; [reflexivity|]. split; [reflexivity|]. split; [reflexivity|].
  intros E. vm_compute in E. discriminate.
Qed.

(** C9, amended.  Every listed wallet has data and its cap is
    wmax_usd = max(0, safety_factor * that wallet's gain); a wallet with
    no data is omitted; the sum of wmax_usd over the listed wallets equals
    the sum of max(0, safety_factor * gain) over them, which is
    safety_factor * max(0, total_gain) when the safety factor is
    non-negative and no listed wallet has a negative gain. *)
Theorem wallet_caps_breakdown `{NumLib}
    (wallet_series_dict : list (string * series))
    (all_txs : list Transaction) (method : alignment_method)
    (use_created : bool) (safety_factor_c : Q) :
  let breakdown := _calculate_per_wallet_wmax wallet_series_dict all_txs
                     method use_created safety_factor_c in
  let gains := listed_wallet_gains wallet_series_dict all_txs method
                 use_created safety_factor_c in
  (forall wb, wb ∈ breakdown ->
     exists wallet_series g,
       (wb_wallet_address wb, wallet_series) ∈ wallet_series_dict
       /\ wallet_series <> []
       /\ wallet_gain method use_created all_txs (wb_wallet_address wb)
            wallet_series = Ok g
       /\ wmax_usd wb = py_max 0 (safety_factor_c * g)
       /\ (wmax_usd wb == Qmax 0 (safety_factor_c * g))%Q)
  /\ (forall wallet_addr,
        wallet_entry safety_factor_c method use_created all_txs
          (wallet_addr, []) = None)
  /\ map wmax_usd breakdown
     = map (fun g => py_max 0 (safety_factor_c * g)) gains
  /\ (total_wmax breakdown
      == Qsum (map (fun g => py_max 0 (safety_factor_c * g)) gains))%Q
  /\ ((0 <= safety_factor_c)%Q -> Forall (fun g => (0 <= g)%Q) gains ->
      (total_wmax breakdown == safety_factor_c * py_max 0 (Qsum gains))%Q).
Proof.
  intros breakdown gains.
  pose proof (breakdown_caps wallet_series_dict all_txs method use_created
                safety_factor_c) as Hcaps.
  fold breakdown gains in Hcaps.
  assert (total_wmax breakdown
          == Qsum (map (fun g => py_max 0 (safety_factor_c * g)) gains))%Q
    as Hsum.
  { rewrite total_wmax_sum, Hcaps. reflexivity. }
  split; [|split; [reflexivity|split; [exact Hcaps|split; [exact Hsum|]]]].
  - intros wb Hwb. unfold breakdown, _calculate_per_wallet_wmax in Hwb.
    apply list_elem_of_omap in Hwb as ([addr s] & Hin & Hentry).
    apply wallet_entry_Some in Hentry as (Hs & g & Hg & Haddr & Hw).
    exists s, g. rewrite Haddr.
    split; [exact Hin|]. split; [exact Hs|]. split; [exact Hg|].
    split; [exact Hw|]. rewrite Hw. apply py_max_spec.
  - intros Hc Hnn. rewrite Hsum.
    destruct (caps_of_nonnegative_gains safety_factor_c gains Hc Hnn)
      as [Heq Hpos].
    rewrite Heq, (py_max_0_of_nonneg _ Hpos). reflexivity.
Qed.

Lemma wallet_caps_breakdown_witness :
  let wallets : list (string * series) :=
    [("addr1", [(hour 0, 100%Q); (hour 1, 110%Q)]);
     ("addr2", []);
     ("addr3", [(hour 0, 50%Q); (hour 1, 70%Q)])] in
  let breakdown :=
    @_calculate_per_wallet_wmax plain_numlib wallets [] AlignNone false (1 # 2) in
  let gains :=
    @listed_wallet_gains plain_numlib wallets [] AlignNone false (1 # 2) in
  map wb_wallet_address breakdown = ["addr1"; "addr3"]
  /\ (total_wmax breakdown == (1 # 2) * py_max 0 (Qsum gains))%Q.
Proof.
  intros wallets breakdown gains. split; [reflexivity|].
  apply (@wallet_caps_breakdown plain_numlib wallets [] AlignNone false (1 # 2)).
  - discriminate.
  - unfold gains. vm_compute. repeat constructor; discriminate.
Defined.

End Claims.

(** * Further properties of the modelled code *)

(** ** Order and content of the unified timebase *)

Section TimebaseOrder.
Import Datetime Models Numpy CorrectCalculations.

Lemma insert_sorted_length y l : length (insert_sorted y l) = S (length l).
Proof.
  induction l as [|z l IH]; simpl; [reflexivity|].
  destruct (_ <=? _); simpl; [|rewrite IH]; reflexivity.
Qed.

Lemma sorted_length l : length (sorted l) = length l.
Proof.
  unfold sorted. induction l as [|x l IH]; simpl; [reflexivity|].
  rewrite insert_sorted_length, IH. reflexivity.
Qed.

Lemma py_set_length l : (length (py_set l) <= length l)%nat.
Proof.
  induction l as [|x l IH]; simpl; [lia|].
  destruct (mem x l); simpl; lia.
Qed.

Lemma insert_sorted_strict x l :
  StronglySorted (fun a b => instant a < instant b) l ->
  instant x ∉ map instant l ->
  StronglySorted (fun a b => instant a < instant b) (insert_sorted x l).
Proof.
  induction l as [|y l IH]; intros Hs Hx; simpl.
  - repeat constructor.
  - apply StronglySorted_inv in Hs as [Hs Hy].
    simpl in Hx. apply not_elem_of_cons in Hx as [Hxy Hx].
    destruct (Z.leb_spec (instant x) (instant y)) as [Hle|Hgt].
    + constructor; [constructor; assumption|].
      constructor; [lia|].
      eapply Forall_impl; [exact Hy|]. simpl. intros z Hz. lia.
    + constructor; [apply IH; assumption|].
      apply Forall_forall. intros z Hz.
      apply elem_of_insert_sorted in Hz as [->|Hz]; [lia|].
      rewrite Forall_forall in Hy. apply Hy, Hz.
Qed.

Lemma sorted_strict l :
  NoDup (map instant l) ->
  StronglySorted (fun a b => instant a < instant b) (sorted l).
Proof.
  unfold sorted. induction l as [|x l IH]; simpl; intros Hnd; [constructor|].
  apply NoDup_cons in Hnd as [Hx Hnd].
  apply insert_sorted_strict; [apply IH, Hnd|].
  intros Hin. apply Hx.
  apply list_elem_of_fmap in Hin as (y & Hy & Hin).
  apply list_elem_of_fmap. exists y. split; [exact Hy|].
  apply elem_of_sorted, Hin.
Qed.

Lemma py_set_distinct_instants l :
  Forall is_utc l -> NoDup (map instant (py_set l)).
Proof.
  induction l as [|x l IH]; intros Hall; simpl; [constructor|].
  inversion Hall as [|? ? Hx Hl]; subst.
  destruct (mem x l) eqn:E; [apply IH, Hl|].
  simpl. apply NoDup_cons. split; [|apply IH, Hl].
  intros Hin. apply list_elem_of_fmap in Hin as (y & Hy & Hin).
  apply py_set_subset in Hin.
  assert (mem x l = true) as Habs; [|congruence].
  apply mem_true_iff. exists y. split; [exact Hin|].
  rewrite Forall_forall in Hl. specialize (Hl y Hin).
  unfold is_utc in Hx, Hl. unfold Datetime.eqb, instant in *.
  rewrite Hx, Hl in *. simpl in *. lia.
Qed.

(** X1.  The unified timebase is strictly increasing in time: sorted, with
    no instant twice. *)
Theorem unified_timebase_strictly_increasing
    (position_timestamps transaction_timestamps : list datetime) :
  StronglySorted (fun a b => instant a < instant b)
    (create_unified_timebase position_timestamps transaction_timestamps).
Proof.
  unfold create_unified_timebase. apply sorted_strict, py_set_distinct_instants.
  apply Forall_app. split; apply Forall_forall; intros y Hy;
    apply list_elem_of_fmap in Hy as (z & -> & _); apply normalize_is_utc.
Qed.

(** X2.  The unified timebase holds the UTC normalisation of every input
    timestamp and nothing else: each of its points is UTC-aware and is the
    normalisation of a position or transaction timestamp; it is never
    longer than the two inputs together. *)
Theorem unified_timebase_content
    (position_timestamps transaction_timestamps : list datetime) :
  let tb := create_unified_timebase position_timestamps
              transaction_timestamps in
  (forall ts, ts ∈ position_timestamps ++ transaction_timestamps ->
              normalize_timestamp ts ∈ tb)
  /\ (forall x, x ∈ tb ->
        tzoffset x = Some 0
        /\ exists ts, ts ∈ position_timestamps ++ transaction_timestamps
                      /\ x = normalize_timestamp ts)
  /\ (length tb <= length position_timestamps
                   + length transaction_timestamps)%nat.
Proof.
  intros tb. split; [|split].
  - intros ts Hts. apply elem_of_unified_timebase.
    rewrite <- fmap_app. apply list_elem_of_fmap. eauto.
  - intros x Hx. apply elem_of_unified_timebase in Hx.
    rewrite <- fmap_app in Hx.
    apply list_elem_of_fmap in Hx as (ts & -> & Hts).
    split; [apply normalize_is_utc|eauto].
  - unfold tb, create_unified_timebase. rewrite sorted_length.
    etransitivity; [apply py_set_length|].
    rewrite length_app, !length_map. lia.
Qed.

End TimebaseOrder.

(** ** Interpolation: edges, range and the cubic fallback *)

Section InterpolationMore.
Import Datetime Models Numpy CorrectCalculations.
Context `{NumLib}.

Lemma timestamp_lt a b :
  instant a < instant b -> (Datetime.timestamp a < Datetime.timestamp b)%Q.
Proof.
  intros Hlt. unfold Datetime.timestamp, Qdiv.
  apply Qmult_lt_compat_r; [reflexivity|].
  rewrite <- Zlt_Qlt. exact Hlt.
Qed.

Lemma segment_between (x x0 x1 y0 y1 lo hi : Q) :
  (x0 <= x)%Q -> (x < x1)%Q -> (lo <= y0 <= hi)%Q -> (lo <= y1 <= hi)%Q ->
  (lo <= (y1 - y0) / (x1 - x0) * (x - x0) + y0 <= hi)%Q.
Proof.
  intros Hx0 Hx1 [Hl0 Hh0] [Hl1 Hh1].
  set (t := ((x - x0) / (x1 - x0))%Q).
  assert (0 <= t)%Q as Ht0.
  { unfold t. apply Qle_shift_div_l; lra. }
  assert (t <= 1)%Q as Ht1.
  { unfold t. apply Qle_shift_div_r; lra. }
  assert ((y1 - y0) / (x1 - x0) * (x - x0) + y0 == y0 + t * (y1 - y0))%Q as ->.
  { unfold t. field. lra. }
  split; nra.
Qed.

Lemma interp_segment_between x xp fp lo hi :
  length fp = length xp -> xp <> [] ->
  (default 0 (head xp) <= x)%Q ->
  Forall (fun v => (lo <= v <= hi)%Q) fp ->
  (lo <= interp_segment x xp fp <= hi)%Q.
Proof.
  revert fp. induction xp as [|x0 xp IH]; intros fp Hlen Hne Hx Hall;
    [congruence|].
  destruct fp as [|y0 fp]; [discriminate|].
  inversion Hall as [|? ? Hy0 Hrest]; subst.
  destruct xp as [|x1 xp].
  - destruct fp; [exact Hy0|discriminate].
  - destruct fp as [|y1 fp]; [discriminate|].
    cbn [interp_segment]. simpl in Hx.
    destruct (Qle_bool x1 x) eqn:E1.
    + apply Qle_bool_iff in E1.
      apply (IH (y1 :: fp));
        [simpl in *; lia|discriminate|exact E1|exact Hrest].
    + destruct (Qeq_bool x0 x); [exact Hy0|].
      inversion Hrest as [|? ? Hy1 _]; subst.
      apply segment_between; try assumption.
      apply Qlt_bool_iff. unfold Qlt_bool. rewrite E1. reflexivity.
Qed.

Lemma interp_point_between xp fp x lo hi :
  length fp = length xp -> xp <> [] ->
  Forall (fun v => (lo <= v <= hi)%Q) fp ->
  (lo <= interp_point xp fp x <= hi)%Q.
Proof.
  intros Hlen Hne Hall. unfold interp_point.
  destruct xp as [|x0 xp]; [congruence|].
  destruct fp as [|y0 fp]; [discriminate|].
  destruct (Qlt_bool x x0) eqn:E0.
  - inversion Hall; assumption.
  - destruct (Qlt_bool _ x).
    + destruct (last (y0 :: fp)) as [yl|] eqn:El.
      * simpl. rewrite Forall_forall in Hall. apply Hall.
        rewrite last_lookup in El. eapply list_elem_of_lookup_2, El.
      * apply last_None in El. discriminate.
    + apply interp_segment_between; try assumption.
      simpl. apply Qlt_bool_false, E0.
Qed.

(** X3.  Linear interpolation never leaves the range of the samples: when
    every position value lies in [lo, hi], so does every interpolated
    value, at every timebase point (inside or outside the sampled span). *)
Theorem interpolation_within_sample_range
    (position_timestamps : list datetime) (position_values : list Q)
    (unified_timebase : list datetime) (lo hi : Q) (P : list Q) :
  Forall (fun v => (lo <= v <= hi)%Q) position_values ->
  interpolate_positions_on_timebase position_timestamps position_values
    unified_timebase "linear" = Ok P ->
  Forall (fun p => (lo <= p <= hi)%Q) P.
Proof.
  intros Hall. unfold interpolate_positions_on_timebase.
  destruct (Nat.eqb_spec (length position_timestamps) (length position_values))
    as [Hlen|]; [|discriminate].
  cbn [negb]. change (String.eqb "linear" "linear") with true. cbv iota.
  unfold np_interp. rewrite !length_map.
  destruct (Nat.eqb_spec (length position_timestamps) 0) as [|Hne];
    [discriminate|].
  rewrite <- Hlen, Nat.eqb_refl. cbn [negb].
  intros [= <-]. apply Forall_fmap, Forall_fmap, Forall_forall.
  intros tb_i _. simpl.
  apply interp_point_between; [rewrite !length_map; lia| |exact Hall].
  destruct position_timestamps; [simpl in Hne; lia|discriminate].
Qed.

End InterpolationMore.

Lemma interpolation_within_sample_range_witness :
  exists P,
    @CorrectCalculations.interpolate_positions_on_timebase
      Examples.plain_numlib
      [Examples.hour 1; Examples.hour 2; Examples.hour 4] [100; 100; 200]%Q
      [Examples.hour 0; Examples.hour 1; Examples.hour 3;
       Examples.hour 4; Examples.hour 5] "linear" = Ok P
    /\ Forall (fun p => (100 <= p <= 200)%Q) P.
Proof.
  eexists. split; [vm_compute; reflexivity|].
  apply (@interpolation_within_sample_range Examples.plain_numlib
           [Examples.hour 1; Examples.hour 2; Examples.hour 4]
           [100; 100; 200]%Q
           [Examples.hour 0; Examples.hour 1; Examples.hour 3;
            Examples.hour 4; Examples.hour 5] 100 200).
  - repeat constructor; simpl; lra.
  - vm_compute. reflexivity.
Defined.

Section InterpolationEdges.
Import Datetime Models Numpy CorrectCalculations.
Context `{NumLib}.

Lemma np_interp_linear_lookup pos_ts vals tb P i tb_i :
  interpolate_positions_on_timebase pos_ts vals tb "linear" = Ok P ->
  tb !! i = Some tb_i ->
  length vals = length (position_numeric pos_ts)
  /\ P !! i = Some (interp_point (position_numeric pos_ts) vals
                      (Datetime.timestamp tb_i)).
Proof.
  unfold interpolate_positions_on_timebase.
  destruct (Nat.eqb_spec (length pos_ts) (length vals)) as [Hlen|];
    [|discriminate].
  cbn [negb]. change (String.eqb "linear" "linear") with true. cbv iota.
  unfold np_interp. destruct (_ =? 0)%nat; [discriminate|].
  destruct (negb _); [discriminate|].
  intros [= <-] Hi. split.
  - unfold position_numeric. rewrite !length_map. lia.
  - rewrite list_lookup_fmap, list_lookup_fmap, Hi. reflexivity.
Qed.

(** X4.  Outside the sampled span linear interpolation holds the edge
    value: a timebase point before the first sample gets the first
    sample's value, a point after the last sample gets the last sample's
    value (samples in increasing time order). *)
Theorem interpolation_holds_edge_values
    (position_timestamps : list datetime) (position_values : list Q)
    (unified_timebase : list datetime) (P : list Q)
    (i : nat) (tb_i : datetime) :
  increasing (position_numeric position_timestamps) ->
  interpolate_positions_on_timebase position_timestamps position_values
    unified_timebase "linear" = Ok P ->
  unified_timebase !! i = Some tb_i ->
  (forall first_ts first_v,
     head position_timestamps = Some first_ts ->
     head position_values = Some first_v ->
     instant tb_i < instant (normalize_timestamp first_ts) ->
     P !! i = Some first_v)
  /\ (forall last_ts last_v,
        last position_timestamps = Some last_ts ->
        last position_values = Some last_v ->
        instant (normalize_timestamp last_ts) < instant tb_i ->
        P !! i = Some last_v).
Proof.
  intros Hinc HP Hi.
  destruct (np_interp_linear_lookup _ _ _ _ _ _ HP Hi) as [Hlen ->].
  set (xp := position_numeric position_timestamps) in *.
  split.
  - intros first_ts first_v Hts Hv Hlt. f_equal.
    destruct position_timestamps as [|t0 pts]; [discriminate|].
    destruct position_values as [|v0 vals]; [discriminate|].
    simpl in Hts, Hv. injection Hts as <-. injection Hv as <-.
    unfold xp, position_numeric, interp_point. simpl.
    apply timestamp_lt, Qlt_bool_iff in Hlt. rewrite Hlt. reflexivity.
  - intros last_ts last_v Hts Hv Hlt. f_equal.
    assert (last xp = Some (Datetime.timestamp (normalize_timestamp last_ts)))
      as Hlast.
    { unfold xp, position_numeric. rewrite !fmap_last, Hts. reflexivity. }
    apply timestamp_lt in Hlt.
    unfold interp_point.
    destruct xp as [|x0 xp'] eqn:Exp; [discriminate|].
    destruct position_values as [|v0 vals]; [discriminate|].
    pose proof (increasing_le_last x0 xp' 0%nat x0 Hinc eq_refl) as Hle.
    rewrite Hlast in Hle |- *. simpl in Hle. rewrite Hv. simpl.
    replace (Qlt_bool (Datetime.timestamp tb_i) x0) with false.
    + apply Qlt_bool_iff in Hlt. rewrite Hlt. reflexivity.
    + symmetry. apply Qlt_bool_false. lra.
Qed.

(** X5.  The cubic method degrades to the linear one: with fewer than 4
    samples, or when scipy cannot be imported, it returns exactly what the
    linear method returns (values or exception). *)
Theorem cubic_falls_back_to_linear
    (position_timestamps : list datetime) (position_values : list Q)
    (unified_timebase : list datetime) :
  scipy_interp1d_cubic = None \/ (length position_values < 4)%nat ->
  interpolate_positions_on_timebase position_timestamps position_values
    unified_timebase "cubic"
  = interpolate_positions_on_timebase position_timestamps position_values
      unified_timebase "linear".
Proof.
  intros Hfb. unfold interpolate_positions_on_timebase.
  destruct (negb _); [reflexivity|].
  change (String.eqb "cubic" "linear") with false.
  change (String.eqb "cubic" "cubic") with true.
  change (String.eqb "linear" "linear") with true. cbv iota.
  destruct scipy_interp1d_cubic as [f|]; [|reflexivity].
  destruct Hfb as [Hnone|Hfew]; [discriminate|].
  destruct (Nat.ltb_spec (length position_values) 4); [reflexivity|lia].
Qed.

End InterpolationEdges.

Lemma interpolation_holds_edge_values_witness :
  exists P,
    @CorrectCalculations.interpolate_positions_on_timebase
      Examples.plain_numlib
      [Examples.hour 1; Examples.hour 2] [100; 140]%Q
      [Examples.hour 0; Examples.hour 1; Examples.hour 2; Examples.hour 3]
      "linear" = Ok P
    /\ P !! 0%nat = Some 100%Q /\ P !! 3%nat = Some 140%Q.
Proof.
  destruct (@CorrectCalculations.interpolate_positions_on_timebase
              Examples.plain_numlib
              [Examples.hour 1; Examples.hour 2] [100; 140]%Q
              [Examples.hour 0; Examples.hour 1; Examples.hour 2;
               Examples.hour 3] "linear") as [P|e] eqn:HP;
    [|vm_compute in HP; discriminate].
  assert (increasing (position_numeric [Examples.hour 1; Examples.hour 2]))
    as Hinc by (vm_compute; repeat split).
  exists P. split; [reflexivity|]. split.
  - destruct (@interpolation_holds_edge_values Examples.plain_numlib
                _ _ _ P 0%nat (Examples.hour 0) Hinc HP eq_refl)
      as [Hfirst _].
    apply (Hfirst (Examples.hour 1) 100%Q); reflexivity.
  - destruct (@interpolation_holds_edge_values Examples.plain_numlib
                _ _ _ P 3%nat (Examples.hour 3) Hinc HP eq_refl)
      as [_ Hlast].
    apply (Hlast (Examples.hour 2) 140%Q); reflexivity.
Defined.

Lemma cubic_falls_back_to_linear_witness :
  @CorrectCalculations.interpolate_positions_on_timebase Examples.spline_numlib
    [Examples.hour 0; Examples.hour 2; Examples.hour 4] [10; 30; 20]%Q
    [Examples.hour 0; Examples.hour 1; Examples.hour 2; Examples.hour 4]
    "cubic"
  = @CorrectCalculations.interpolate_positions_on_timebase
      Examples.spline_numlib
      [Examples.hour 0; Examples.hour 2; Examples.hour 4] [10; 30; 20]%Q
      [Examples.hour 0; Examples.hour 1; Examples.hour 2; Examples.hour 4]
      "linear".
Proof.
  apply (@cubic_falls_back_to_linear Examples.spline_numlib).
  right. simpl. lia.
Defined.

(** ** The transaction mapper *)

Section MapperMore.
Import Datetime Models Numpy CorrectCalculations.
Context `{NumLib}.

Lemma np_where_nil_iff {A} (p : A -> bool) (l : list A) :
  np_where p l = [] <-> existsb p l = false.
Proof.
  unfold np_where. generalize 0. induction l as [|x l IH]; intros i; simpl.
  - tauto.
  - destruct (p x); simpl; [split; discriminate|apply IH].
Qed.

(** What one iteration of the loop does, case by case. *)
Lemma map_transaction_cases method tb pset allow ip wb zt mb d w tx :
  length d = length tb -> length w = length tb ->
  (in_timebase tb tx = false
   /\ map_transaction method tb (make_pos_mask pset tb) allow ip wb zt mb
        (d, w) tx = Ok (d, w))
  \/ exists base more,
       np_where (fun t => Datetime.eqb t (timestamp tx)) tb = base :: more
       /\ let idx := Z.to_nat (choose_index_for_tx method tb
                                 (make_pos_mask pset tb) allow ip wb zt mb
                                 base tx) in
          (idx < length tb)%nat
          /\ ((transaction_type tx = "deposit"
               /\ map_transaction method tb (make_pos_mask pset tb) allow ip
                    wb zt mb (d, w) tx = Ok (<[idx := amount tx]> d, w))
              \/ (transaction_type tx = "withdrawal"
                  /\ map_transaction method tb (make_pos_mask pset tb) allow
                       ip wb zt mb (d, w) tx
                     = Ok (d, <[idx := Qabs (amount tx)]> w))
              \/ map_transaction method tb (make_pos_mask pset tb) allow ip
                   wb zt mb (d, w) tx = Ok (d, w)).
Proof.
  intros Hd Hw. unfold map_transaction.
  pose proof (np_where_bounds (fun t => Datetime.eqb t (timestamp tx)) tb) as Hb.
  destruct (np_where _ tb) as [|base more] eqn:Hm.
  { left. split; [|reflexivity]. apply np_where_nil_iff, Hm. }
  right. exists base, more. split; [reflexivity|].
  inversion Hb as [|? ? Hbase _]; subst.
  pose proof (choose_index_for_tx_range method tb pset allow ip wb zt mb
                base tx Hbase) as Hidx.
  cbv zeta.
  set (idx := choose_index_for_tx _ _ _ _ _ _ _ _ _ _) in *.
  split; [lia|].
  destruct (String.eqb (transaction_type tx) "deposit") eqn:Edep.
  - left. apply String.eqb_eq in Edep.
    rewrite py_setitem_ok by lia. auto.
  - destruct (String.eqb (transaction_type tx) "withdrawal") eqn:Ewd.
    + right. left. apply String.eqb_eq in Ewd.
      rewrite py_setitem_ok by lia. auto.
    + right. right. reflexivity.
Qed.

Lemma map_transactions_filter method tb pset allow ip wb zt mb txs :
  forall d w,
    map_transactions method tb (make_pos_mask pset tb) allow ip wb zt mb
      (d, w) txs
    = map_transactions method tb (make_pos_mask pset tb) allow ip wb zt mb
        (d, w) (filter (fun tx => Is_true (in_timebase tb tx)) txs).
Proof.
  induction txs as [|tx txs IH]; intros d w; [reflexivity|].
  rewrite filter_cons. destruct (decide (Is_true (in_timebase tb tx))) as [Hin|Hout].
  - cbn [map_transactions].
    destruct (map_transaction _ _ _ _ _ _ _ _ _ _) as [[d1 w1]|e];
      [|reflexivity].
    unfold mbind, result_bind. apply IH.
  - cbn [map_transactions].
    assert (map_transaction method tb (make_pos_mask pset tb) allow ip wb zt
              mb (d, w) tx = Ok (d, w)) as ->.
    { unfold map_transaction.
      assert (in_timebase tb tx = false) as Hf
          by (destruct (in_timebase tb tx); [exfalso; apply Hout; exact I|reflexivity]).
      apply np_where_nil_iff in Hf. rewrite Hf. reflexivity. }
    unfold mbind, result_bind. apply IH.
Qed.

(** X6.  A transaction whose timestamp is at no timebase point is dropped:
    the vectors are those of the matched transactions alone, and with no
    matched transaction both vectors are all zeros. *)
Theorem unmatched_transactions_are_dropped
    (transactions : list Transaction) (unified_timebase : list datetime)
    (interpolated_positions : option (list Q))
    (position_timestamps_set : option (list datetime))
    (method : alignment_method)
    (window_bins : Z) (z_threshold : Q) (magnitude_band : Q * Q) :
  create_transaction_vectors_on_timebase transactions unified_timebase
    interpolated_positions position_timestamps_set method
    window_bins z_threshold magnitude_band
  = create_transaction_vectors_on_timebase
      (filter (fun tx => Is_true (in_timebase unified_timebase tx))
              transactions)
      unified_timebase interpolated_positions position_timestamps_set method
      window_bins z_threshold magnitude_band
  /\ (Forall (fun tx => in_timebase unified_timebase tx = false) transactions ->
      create_transaction_vectors_on_timebase transactions unified_timebase
        interpolated_positions position_timestamps_set method
        window_bins z_threshold magnitude_band
      = Ok (np_zeros (length unified_timebase),
            np_zeros (length unified_timebase))).
Proof.
  unfold create_transaction_vectors_on_timebase. split.
  - apply map_transactions_filter.
  - intros Hnone. rewrite map_transactions_filter.
    replace (filter _ transactions) with (@nil Transaction); [reflexivity|].
    symmetry. induction Hnone as [|tx txs Htx _ IH]; [reflexivity|].
    rewrite filter_cons. rewrite Htx.
    destruct (decide (Is_true false)) as [[]|_]. exact IH.
Qed.

Lemma map_transactions_entries method tb pset allow ip wb zt mb all txs :
  forall d w d' w',
    (forall tx, tx ∈ txs -> tx ∈ all) ->
    length d = length tb -> length w = length tb ->
    Forall (deposit_entry all) d -> Forall (withdrawal_entry all) w ->
    map_transactions method tb (make_pos_mask pset tb) allow ip wb zt mb
      (d, w) txs = Ok (d', w') ->
    Forall (deposit_entry all) d' /\ Forall (withdrawal_entry all) w'.
Proof.
  induction txs as [|tx txs IH]; intros d w d' w' Hsub Hd Hw Hde Hwe;
    cbn [map_transactions].
  - intros [= <- <-]. auto.
  - assert (tx ∈ all) as Htx by (apply Hsub, list_elem_of_here).
    assert (forall t, t ∈ txs -> t ∈ all) as Hsub'
        by (intros t Ht; apply Hsub, list_elem_of_further, Ht).
    destruct (map_transaction_cases method tb pset allow ip wb zt mb d w tx
                Hd Hw)
      as [[_ ->]|(base & more & _ & Hlt & [[Hty ->]|[[Hty ->]| ->]])];
      unfold mbind, result_bind.
    + apply IH; assumption.
    + apply IH; try assumption; [rewrite length_insert; exact Hd|].
      apply Forall_insert; [exact Hde|]. right. eauto.
    + apply IH; try assumption; [rewrite length_insert; exact Hw|].
      apply Forall_insert; [exact Hwe|]. right. eauto.
    + apply IH; assumption.
Qed.

(** X7.  The mapper never invents an amount: every entry of the deposit
    vector is zero or the amount of a deposit of the list, and every entry
    of the withdrawal vector is zero or the magnitude of a withdrawal of
    the list; both vectors have the length of the timebase. *)
Theorem transaction_vector_entries
    (transactions : list Transaction) (unified_timebase : list datetime)
    (interpolated_positions : option (list Q))
    (position_timestamps_set : option (list datetime))
    (method : alignment_method)
    (window_bins : Z) (z_threshold : Q) (magnitude_band : Q * Q) :
  exists deposit_vector withdrawal_vector,
    create_transaction_vectors_on_timebase transactions unified_timebase
      interpolated_positions position_timestamps_set method
      window_bins z_threshold magnitude_band
    = Ok (deposit_vector, withdrawal_vector)
    /\ length deposit_vector = length unified_timebase
    /\ length withdrawal_vector = length unified_timebase
    /\ Forall (deposit_entry transactions) deposit_vector
    /\ Forall (withdrawal_entry transactions) withdrawal_vector.
Proof.
  destruct (create_transaction_vectors_ok transactions unified_timebase
              interpolated_positions position_timestamps_set method
              window_bins z_threshold magnitude_band)
    as (d & w & Hrun & Hd & Hw & _).
  exists d, w. split; [exact Hrun|]. split; [exact Hd|]. split; [exact Hw|].
  unfold create_transaction_vectors_on_timebase in Hrun.
  eapply map_transactions_entries in Hrun; [exact Hrun|auto|..].
  - apply length_replicate.
  - apply length_replicate.
  - apply Forall_replicate. left. reflexivity.
  - apply Forall_replicate. left. reflexivity.
Qed.

Lemma map_transactions_snoc method tb mask allow ip wb zt mb pre tx :
  forall v,
    map_transactions method tb mask allow ip wb zt mb v (pre ++ [tx])
    = (v' ← map_transactions method tb mask allow ip wb zt mb v pre;
       map_transaction method tb mask allow ip wb zt mb v' tx).
Proof.
  induction pre as [|t pre IH]; intros v; cbn [app map_transactions].
  - unfold mbind, result_bind.
    destruct (map_transaction _ _ _ _ _ _ _ _ v tx); reflexivity.
  - unfold mbind, result_bind.
    destruct (map_transaction _ _ _ _ _ _ _ _ v t) as [v1|e]; [|reflexivity].
    rewrite IH. reflexivity.
Qed.

(** X8.  The index resolved for the last event of the list holds that
    event's amount (its magnitude for a withdrawal), whatever earlier
    events stored there: a store overwrites, it does not add. *)
Theorem last_event_amount_is_stored
    (earlier : list Transaction) (tx : Transaction)
    (unified_timebase : list datetime)
    (interpolated_positions : option (list Q))
    (position_timestamps_set : option (list datetime))
    (method : alignment_method)
    (window_bins : Z) (z_threshold : Q) (magnitude_band : Q * Q)
    (base_idx : Z) (more : list Z) :
  np_where (fun tb => Datetime.eqb tb (timestamp tx)) unified_timebase
    = base_idx :: more ->
  let allow_detect := bool_decide (method = DetectSpike)
                      && bool_decide (is_Some interpolated_positions) in
  let idx := Z.to_nat
               (choose_index_for_tx method unified_timebase
                  (make_pos_mask position_timestamps_set unified_timebase)
                  allow_detect interpolated_positions window_bins z_threshold
                  magnitude_band base_idx tx) in
  exists deposit_vector withdrawal_vector,
    create_transaction_vectors_on_timebase (earlier ++ [tx]) unified_timebase
      interpolated_positions position_timestamps_set method
      window_bins z_threshold magnitude_band
    = Ok (deposit_vector, withdrawal_vector)
    /\ (transaction_type tx = "deposit" ->
        deposit_vector !! idx = Some (amount tx))
    /\ (transaction_type tx = "withdrawal" ->
        withdrawal_vector !! idx = Some (Qabs (amount tx))).
Proof.
  intros Hm allow_detect idx.
  unfold create_transaction_vectors_on_timebase. fold allow_detect.
  rewrite map_transactions_snoc.
  destruct (map_transactions_ok method unified_timebase
              position_timestamps_set allow_detect interpolated_positions
              window_bins z_threshold magnitude_band earlier
              (np_zeros (length unified_timebase))
              (np_zeros (length unified_timebase)))
    as (d & w & Hrun & Hd & Hw & _); [apply length_replicate..|].
  rewrite Hrun. unfold mbind at 1, result_bind at 1.
  unfold map_transaction. rewrite Hm.
  pose proof (np_where_bounds (fun tb => Datetime.eqb tb (timestamp tx))
                unified_timebase) as Hb.
  rewrite Hm in Hb. inversion Hb as [|? ? Hbase _]; subst.
  pose proof (choose_index_for_tx_range method unified_timebase
                position_timestamps_set allow_detect interpolated_positions
                window_bins z_threshold magnitude_band base_idx tx Hbase)
    as Hidx.
  destruct (String.eqb (transaction_type tx) "deposit") eqn:Edep.
  - rewrite py_setitem_ok by lia. unfold mbind, result_bind.
    eexists _, _. split; [reflexivity|]. split.
    + intros _. apply list_lookup_insert_eq. lia.
    + intros Hty. rewrite Hty in Edep. discriminate.
  - destruct (String.eqb (transaction_type tx) "withdrawal") eqn:Ewd.
    + rewrite py_setitem_ok by lia. unfold mbind, result_bind.
      eexists _, _. split; [reflexivity|]. split.
      * intros Hty. rewrite Hty in Edep. discriminate.
      * intros _. apply list_lookup_insert_eq. lia.
    + eexists _, _. split; [reflexivity|]. split.
      * intros Hty. rewrite Hty in Edep. discriminate.
      * intros Hty. rewrite Hty in Ewd. discriminate.
Qed.

(** *** Snapping onto position samples *)

Lemma where_from_sat {A} (p : A -> bool) (l : list A) (i : Z) :
  Forall (fun k => exists x, l !! Z.to_nat (k - i) = Some x /\ p x = true)
         (where_from p i l).
Proof.
  revert i. induction l as [|x l IH]; intros i; simpl; [constructor|].
  assert (Forall (fun k => exists y,
                      (x :: l) !! Z.to_nat (k - i) = Some y /\ p y = true)
                 (where_from p (i + 1) l)) as Hrest.
  { pose proof (where_from_bounds p l (i + 1)) as Hb.
    specialize (IH (i + 1)).
    rewrite Forall_forall in IH, Hb. rewrite Forall_forall.
    intros k Hk. destruct (IH k Hk) as (y & Hy & Hp).
    specialize (Hb k Hk). exists y. split; [|exact Hp].
    replace (Z.to_nat (k - i)) with (S (Z.to_nat (k - (i + 1)))) by lia.
    exact Hy. }
  destruct (p x) eqn:E; [constructor|]; try exact Hrest.
  exists x. rewrite Z.sub_diag. split; [reflexivity|exact E].
Qed.

Lemma pos_index_is_sample (mask : list bool) k :
  k ∈ np_where id mask -> mask !! Z.to_nat k = Some true.
Proof.
  intros Hk. pose proof (where_from_sat id mask 0) as Hs.
  rewrite Forall_forall in Hs. destruct (Hs k Hk) as (b & Hb & Hid).
  rewrite Z.sub_0_r in Hb. unfold id in Hid. congruence.
Qed.

Lemma pos_indices_nonempty (mask : list bool) :
  existsb id mask = true -> np_where id mask <> [].
Proof.
  intros Hany Hnil. apply np_where_nil_iff in Hnil. congruence.
Qed.

Lemma while_next_stops mask n i fuel :
  (Z.to_nat (n - i) <= fuel)%nat ->
  let r := while_next mask n i fuel in
  n <= r \/ (r < n /\ mask !! Z.to_nat r = Some true).
Proof.
  revert i. induction fuel as [|fuel IH]; intros i Hf; simpl; [left; lia|].
  destruct (Z.ltb_spec i n) as [Hlt|Hge]; simpl; [|left; lia].
  destruct (mask !! Z.to_nat i) as [[]|] eqn:E; simpl.
  - right. split; [lia|exact E].
  - apply IH. lia.
  - apply IH. lia.
Qed.

Lemma while_prev_stops mask i fuel :
  (Z.to_nat (i + 1) <= fuel)%nat ->
  let r := while_prev mask i fuel in
  r < 0 \/ (0 <= r /\ mask !! Z.to_nat r = Some true).
Proof.
  revert i. induction fuel as [|fuel IH]; intros i Hf; simpl; [left; lia|].
  destruct (Z.leb_spec 0 i) as [Hle|Hlt]; simpl; [|left; lia].
  destruct (mask !! Z.to_nat i) as [[]|] eqn:E; simpl.
  - right. split; [lia|exact E].
  - apply IH. lia.
  - apply IH. lia.
Qed.

Lemma argmin_from_range i best_i best a :
  argmin_from i best_i best a = best_i
  \/ i <= argmin_from i best_i best a < i + Z.of_nat (length a).
Proof.
  revert i best_i best. induction a as [|x a IH]; intros i best_i best; simpl;
    [left; reflexivity|].
  destruct (Qlt_bool x best).
  - destruct (IH (i + 1) i x) as [->|Hr]; right; lia.
  - destruct (IH (i + 1) best_i best) as [->|Hr]; [left; reflexivity|right; lia].
Qed.

Lemma snap_to_nearest_pos_sample tb mask idx tx :
  existsb id mask = true ->
  exists r, snap_to_nearest_pos tb mask idx tx = Some r
            /\ mask !! Z.to_nat r = Some true.
Proof.
  intros Hany. unfold snap_to_nearest_pos.
  pose proof (pos_indices_nonempty mask Hany) as Hne.
  set (pos_indices := np_where id mask) in *.
  assert (forall j, exists k,
            default idx (pos_indices !! Z.to_nat j) = k
            /\ (0 <= j < Z.of_nat (length pos_indices) ->
                mask !! Z.to_nat k = Some true)) as Hfb.
  { intros j. eexists. split; [reflexivity|]. intros Hj.
    destruct (pos_indices !! Z.to_nat j) as [k|] eqn:E.
    - simpl. apply pos_index_is_sample. eapply list_elem_of_lookup_2, E.
    - apply lookup_ge_None in E. lia. }
  assert (exists r,
            match np_argmin (map (fun k => Qabs (inject_Z (k - idx)))
                               pos_indices) with
            | Some j => Some (default idx (pos_indices !! Z.to_nat j))
            | None => None
            end = Some r /\ mask !! Z.to_nat r = Some true) as Hfallback.
  { clearbody pos_indices.
    destruct pos_indices as [|k0 rest]; [congruence|].
    cbn [map np_argmin].
    eexists. split; [reflexivity|].
    destruct (Hfb (argmin_from 1 0 (Qabs (inject_Z (k0 - idx)))
                     (map (fun k => Qabs (inject_Z (k - idx))) rest)))
      as (k & Hk & Hs).
    rewrite Hk. apply Hs.
    match goal with
    | |- context [argmin_from ?i ?b ?v ?a] =>
        destruct (argmin_from_range i b v a) as [->|Hr]
    end; cbn [length]; [lia|]. rewrite length_map in Hr. lia. }
  destruct (mapM _ pos_indices) as [deltas|e] eqn:Hd; simpl;
    [|exact Hfallback].
  pose proof (mapM_result_length _ _ _ Hd) as Hlen.
  destruct deltas as [|d0 deltas];
    [destruct pos_indices; [congruence|discriminate]|].
  cbn [np_min].
  destruct (Zmax_list _) as [m|] eqn:Hm; simpl; [|exact Hfallback].
  exists m. split; [reflexivity|].
  apply Zmax_list_elem in Hm.
  apply list_elem_of_fmap in Hm as ([k d] & -> & Hkd).
  apply list_elem_of_filter in Hkd as [_ Hkd].
  apply elem_of_zip_l in Hkd. apply pos_index_is_sample, Hkd.
Qed.

(** X9.  Under the three snap policies the chosen index is an original
    position sample whenever the timebase has one; under snap_to_next_pos
    and snap_to_prev_pos an event that already sits on a position sample
    is not moved. *)
Theorem snap_lands_on_position_sample
    (method : alignment_method) (unified_timebase : list datetime)
    (position_timestamps_set : option (list datetime)) (mask : list bool)
    (allow_detect : bool) (interpolated_positions : option (list Q))
    (window_bins : Z) (z_threshold : Q) (magnitude_band : Q * Q)
    (idx : Z) (tx : Transaction) :
  method = SnapToNextPos \/ method = SnapToPrevPos
  \/ method = SnapToNearestPos ->
  make_pos_mask position_timestamps_set unified_timebase = Some mask ->
  existsb id mask = true ->
  0 <= idx < Z.of_nat (length unified_timebase) ->
  let chosen := choose_index_for_tx method unified_timebase (Some mask)
                  allow_detect interpolated_positions window_bins
                  z_threshold magnitude_band idx tx in
  mask !! Z.to_nat chosen = Some true
  /\ (method <> SnapToNearestPos -> mask !! Z.to_nat idx = Some true ->
      chosen = idx).
Proof.
  intros Hmeth Hmask Hany Hidx chosen.
  assert (Z.of_nat (length mask) = Z.of_nat (length unified_timebase)) as Hlen.
  { unfold make_pos_mask in Hmask.
    destruct position_timestamps_set as [[|x s]|]; try discriminate.
    injection Hmask as <-. rewrite length_map. reflexivity. }
  pose proof (pos_indices_nonempty mask Hany) as Hne.
  unfold chosen, choose_index_for_tx.
  destruct Hmeth as [->|[->| ->]].
  - unfold snap_to_next_pos.
    set (n := Z.of_nat (length unified_timebase)) in *.
    destruct (while_next_stops mask n idx (Z.to_nat (n - idx)))
      as [Hge|[Hlt Hs]]; [lia| |].
    + replace (n <=? _) with true by lia. split.
      * destruct (last (np_where id mask)) as [k|] eqn:El.
        { simpl. apply pos_index_is_sample.
          rewrite last_lookup in El. eapply list_elem_of_lookup_2, El. }
        { apply last_None in El. congruence. }
      * intros _ Hat. exfalso.
        destruct (Z.to_nat (n - idx)) as [|f] eqn:Ef; [lia|].
        simpl in Hge. replace (idx <? n) with true in Hge by lia.
        rewrite Hat in Hge. simpl in Hge. lia.
    + replace (n <=? _) with false by lia.
      split; [exact Hs|]. intros _ Hat.
      destruct (Z.to_nat (n - idx)) as [|f] eqn:Ef; [lia|].
      simpl. replace (idx <? n) with true by lia.
      rewrite Hat. reflexivity.
  - unfold snap_to_prev_pos.
    destruct (while_prev_stops mask idx (Z.to_nat (idx + 1)))
      as [Hneg|[Hpos Hs]]; [lia| |].
    + replace (_ <? 0) with true by lia. split.
      * destruct (head (np_where id mask)) as [k|] eqn:El.
        { simpl. apply pos_index_is_sample.
          rewrite head_lookup in El. eapply list_elem_of_lookup_2, El. }
        { apply head_None in El. congruence. }
      * intros _ Hat. exfalso.
        destruct (Z.to_nat (idx + 1)) as [|f] eqn:Ef; [lia|].
        simpl in Hneg. replace (0 <=? idx) with true in Hneg by lia.
        rewrite Hat in Hneg. simpl in Hneg. lia.
    + replace (_ <? 0) with false by lia.
      split; [exact Hs|]. intros _ Hat.
      destruct (Z.to_nat (idx + 1)) as [|f] eqn:Ef; [lia|].
      simpl. replace (0 <=? idx) with true by lia.
      rewrite Hat. reflexivity.
  - rewrite Hany.
    destruct (snap_to_nearest_pos_sample unified_timebase mask idx tx Hany)
      as (r & -> & Hr).
    split; [exact Hr|]. intros Hcontra. congruence.
Qed.

End MapperMore.

Lemma unmatched_transactions_are_dropped_witness :
  let tb := [Examples.hour 0; Examples.hour 1] in
  let txs := [Examples.deposit_at (Datetime.naive 3600000000) "addr1" 100] in
  Forall (fun tx => in_timebase tb tx = false) txs
  /\ @CorrectCalculations.create_transaction_vectors_on_timebase
       Examples.plain_numlib txs tb None None CorrectCalculations.AlignNone
       8 3 CorrectCalculations.default_magnitude_band
     = Ok (Numpy.np_zeros 2, Numpy.np_zeros 2).
Proof.
  assert (Forall (fun tx => in_timebase [Examples.hour 0; Examples.hour 1] tx
                            = false)
            [Examples.deposit_at (Datetime.naive 3600000000) "addr1" 100])
    as Hun by (repeat constructor).
  split; [exact Hun|].
  exact (proj2 (@unmatched_transactions_are_dropped Examples.plain_numlib
                  [Examples.deposit_at (Datetime.naive 3600000000) "addr1" 100]
                  [Examples.hour 0; Examples.hour 1] None None
                  CorrectCalculations.AlignNone 8 3
                  CorrectCalculations.default_magnitude_band) Hun).
Defined.

Lemma last_event_amount_is_stored_witness :
  let tb := [Examples.hour 0; Examples.hour 1; Examples.hour 2] in
  let first := Examples.deposit_at (Examples.hour 1) "addr1" 100 in
  let second := Examples.deposit_at (Examples.hour 1) "addr2" 40 in
  exists deposit_vector withdrawal_vector,
    @CorrectCalculations.create_transaction_vectors_on_timebase
      Examples.plain_numlib [first; second] tb None None
      CorrectCalculations.AlignNone 8 3
      CorrectCalculations.default_magnitude_band
    = Ok (deposit_vector, withdrawal_vector)
    /\ deposit_vector !! 1%nat = Some 40%Q.
Proof.
  cbv zeta.
  destruct (@last_event_amount_is_stored Examples.plain_numlib
              [Examples.deposit_at (Examples.hour 1) "addr1" 100]
              (Examples.deposit_at (Examples.hour 1) "addr2" 40)
              [Examples.hour 0; Examples.hour 1; Examples.hour 2]
              None None CorrectCalculations.AlignNone 8 3
              CorrectCalculations.default_magnitude_band 1 [] eq_refl)
    as (d & w & Hrun & Hdep & _).
  exists d, w. split; [exact Hrun|]. exact (Hdep eq_refl).
Defined.

Lemma snap_lands_on_position_sample_witness :
  let tb := [Examples.hour 0; Examples.hour 1; Examples.hour 2] in
  let mask := [true; false; true] in
  let tx := Examples.deposit_at (Examples.hour 1) "addr1" 100 in
  let chosen := @CorrectCalculations.choose_index_for_tx
                  Examples.plain_numlib CorrectCalculations.SnapToNextPos tb
                  (Some mask) false None 8 3
                  CorrectCalculations.default_magnitude_band 1 tx in
  mask !! Z.to_nat chosen = Some true.
Proof.
  cbv zeta.
  exact (proj1 (@snap_lands_on_position_sample Examples.plain_numlib
                  CorrectCalculations.SnapToNextPos
                  [Examples.hour 0; Examples.hour 1; Examples.hour 2]
                  (Some [Examples.hour 0; Examples.hour 2])
                  [true; false; true] false None 8 3
                  CorrectCalculations.default_magnitude_band 1
                  (Examples.deposit_at (Examples.hour 1) "addr1" 100)
                  (or_introl eq_refl) eq_refl eq_refl
                  (conj (Z.le_0_1) eq_refl))).
Defined.

(** ** The gain pipeline: shapes, the reference index, unmatched events *)

Section PipelineMore.
Import Datetime Models Numpy CorrectCalculations.
Context `{NumLib}.

Lemma py_getitem_Ok_range {A} (l : list A) i x :
  py_getitem l i = Ok x ->
  - Z.of_nat (length l) <= i < Z.of_nat (length l).
Proof.
  unfold py_getitem.
  destruct (Z.ltb_spec i 0).
  - destruct (Z.leb_spec 0 (i + Z.of_nat (length l)));
      destruct (Z.ltb_spec (i + Z.of_nat (length l)) (Z.of_nat (length l)));
      simpl; try discriminate. lia.
  - destruct (Z.leb_spec 0 i);
      destruct (Z.ltb_spec i (Z.of_nat (length l)));
      simpl; try discriminate. lia.
Qed.

Lemma py_getitem_lookup {A} (l : list A) i x :
  py_getitem l i = Ok x ->
  l !! Z.to_nat (if i <? 0 then i + Z.of_nat (length l) else i) = Some x.
Proof.
  unfold py_getitem.
  destruct (_ && _); [|discriminate].
  destruct (l !! _) as [y|]; [|discriminate]. intros [= ->]. reflexivity.
Qed.

Lemma py_getitem_wrap {A} (l : list A) i :
  - Z.of_nat (length l) <= i < 0 ->
  py_getitem l i = py_getitem l (i + Z.of_nat (length l)).
Proof.
  intros Hi. unfold py_getitem.
  replace (i <? 0) with true by lia.
  replace (i + Z.of_nat (length l) <? 0) with false by lia.
  reflexivity.
Qed.

(** X10.  A successful run returns five arrays of one length, that of the
    unified timebase built from the inputs, and its reference index lies in
    [-n, n). *)
Theorem gains_arrays_share_timebase
    (position_timestamps : list datetime) (position_values : list Q)
    (transactions : list Transaction) (reference_time_index : Z)
    (interpolation_method : string) (method : alignment_method)
    (use_created : bool) (r : GainsResult) :
  calculate_correct_gains position_timestamps position_values transactions
    reference_time_index interpolation_method method use_created = Ok r ->
  let n := length (unified_timebase_of r) in
  unified_timebase_of r
    = create_unified_timebase position_timestamps
        (map (fun tx => if use_created then created_at tx else timestamp tx)
             transactions)
  /\ length (interpolated_positions_of r) = n
  /\ length (deposit_cdf_of r) = n
  /\ length (withdrawal_cdf_of r) = n
  /\ length (gains_of r) = n
  /\ - Z.of_nat n <= reference_time_index < Z.of_nat n.
Proof.
  intros Hrun.
  destruct (calculate_correct_gains_inv _ _ _ _ _ _ _ _ Hrun)
    as (P & d & w & P0 & D0 & W0 & _ & _ & HlP & Hd & Hw & Hlt & HgP & _ & _
        & ->).
  cbn [unified_timebase_of interpolated_positions_of deposit_cdf_of
       withdrawal_cdf_of gains_of].
  apply py_getitem_Ok_range in HgP.
  repeat split; try reflexivity; try assumption;
    rewrite ?length_zip_with, ?(length_zip_with pair), ?length_np_cumsum;
    try lia.
Qed.

(** X11.  A negative reference index counts from the end of the timebase:
    the run with [-k] is the run with [n - k]. *)
Theorem negative_reference_index_counts_from_end
    (position_timestamps : list datetime) (position_values : list Q)
    (transactions : list Transaction) (reference_time_index : Z)
    (interpolation_method : string) (method : alignment_method)
    (use_created : bool) :
  let n := Z.of_nat (length
             (create_unified_timebase position_timestamps
                (map (fun tx => if use_created then created_at tx
                                else timestamp tx) transactions))) in
  - n <= reference_time_index < 0 ->
  calculate_correct_gains position_timestamps position_values transactions
    reference_time_index interpolation_method method use_created
  = calculate_correct_gains position_timestamps position_values transactions
      (reference_time_index + n) interpolation_method method use_created.
Proof.
  intros n Ht0. unfold calculate_correct_gains.
  set (tb := create_unified_timebase _ _) in *.
  destruct (interpolate_positions_on_timebase position_timestamps
              position_values tb interpolation_method) as [P|e] eqn:HP;
    [|reflexivity].
  pose proof (interpolate_positions_length _ _ _ _ _ HP) as HlP.
  unfold mbind, result_bind. cbv beta iota.
  match goal with
  | |- context [create_transaction_vectors_on_timebase ?a ?b ?c ?d ?e ?f ?g ?h] =>
      destruct (create_transaction_vectors_ok a b c d e f g h)
        as (d0 & w0 & Hv & Hd & Hw & _); rewrite Hv
  end.
  cbv beta iota.
  replace (Z.of_nat (length tb) <=? reference_time_index) with false by lia.
  replace (Z.of_nat (length tb) <=? reference_time_index + n) with false
    by lia.
  assert (py_getitem P reference_time_index
          = py_getitem P (reference_time_index + n)) as ->.
  { unfold n. rewrite <- HlP. apply py_getitem_wrap. lia. }
  assert (py_getitem (np_cumsum d0) reference_time_index
          = py_getitem (np_cumsum d0) (reference_time_index + n)) as ->.
  { unfold n. rewrite <- Hd, <- (length_np_cumsum d0).
    apply py_getitem_wrap. rewrite length_np_cumsum. lia. }
  assert (py_getitem (np_cumsum w0) reference_time_index
          = py_getitem (np_cumsum w0) (reference_time_index + n)) as ->.
  { unfold n. rewrite <- Hw, <- (length_np_cumsum w0).
    apply py_getitem_wrap. rewrite length_np_cumsum. lia. }
  reflexivity.
Qed.

Lemma cumsum_from_zero acc a :
  (acc == 0)%Q -> Forall (fun x => (x == 0)%Q) a ->
  Forall (fun x => (x == 0)%Q) (cumsum_from acc a).
Proof.
  revert acc. induction a as [|x a IH]; intros acc Hacc Ha; simpl;
    [constructor|].
  inversion Ha as [|? ? Hx Ha']; subst.
  assert (acc + x == 0)%Q as Hs by (rewrite Hacc, Hx; reflexivity).
  constructor; [exact Hs|]. apply IH; assumption.
Qed.

Lemma np_cumsum_zeros n :
  Forall (fun x => (x == 0)%Q) (np_cumsum (np_zeros n)).
Proof.
  apply cumsum_from_zero; [reflexivity|].
  apply Forall_replicate. reflexivity.
Qed.

Lemma filter_unmatched_nil tb (txs : list Transaction) :
  Forall (fun tx => in_timebase tb tx = false) txs ->
  filter (fun tx => Is_true (in_timebase tb tx)) txs = [].
Proof.
  induction 1 as [|tx txs Htx _ IH]; [reflexivity|].
  rewrite filter_cons, Htx.
  destruct (decide (Is_true false)) as [[]|_]. exact IH.
Qed.

(** X12.  When no transaction timestamp is found on the timebase (no
    transactions at all, or naive ones only), both cumulative functions are
    zero everywhere and the gain is the position change since the
    reference point, of the positions interpolated from the samples. *)
Theorem gains_without_matched_events
    (position_timestamps : list datetime) (position_values : list Q)
    (transactions : list Transaction) (reference_time_index : Z)
    (interpolation_method : string) (method : alignment_method)
    (r : GainsResult) :
  Forall (fun tx =>
            in_timebase (create_unified_timebase position_timestamps
                           (map timestamp transactions)) tx = false)
         transactions ->
  calculate_correct_gains position_timestamps position_values transactions
    reference_time_index interpolation_method method false = Ok r ->
  Forall (fun x => (x == 0)%Q) (deposit_cdf_of r)
  /\ Forall (fun x => (x == 0)%Q) (withdrawal_cdf_of r)
  /\ (exists P_t0,
        py_getitem (interpolated_positions_of r) reference_time_index = Ok P_t0
        /\ forall (i : nat) (P_i G_i : Q),
             interpolated_positions_of r !! i = Some P_i ->
             gains_of r !! i = Some G_i ->
             (G_i == P_i - P_t0)%Q)
  /\ interpolate_positions_on_timebase position_timestamps position_values
       (create_unified_timebase position_timestamps
          (map timestamp transactions)) interpolation_method
     = Ok (interpolated_positions_of r).
Proof.
  intros Hun Hrun.
  destruct (calculate_correct_gains_inv _ _ _ _ _ _ _ _ Hrun)
    as (P & d & w & P0 & D0 & W0 & HP & Hv & HlP & Hd & Hw & Hlt & HgP & HgD
        & HgW & ->).
  cbv beta iota zeta in HP, Hv, HlP, Hd, Hw, Hlt.
  change (map (fun tx : Transaction => timestamp tx) transactions)
    with (map timestamp transactions) in *.
  unfold create_transaction_vectors_on_timebase in Hv.
  rewrite map_transactions_filter, (filter_unmatched_nil _ _ Hun) in Hv.
  cbn [map_transactions] in Hv. injection Hv as <- <-.
  cbn [unified_timebase_of interpolated_positions_of deposit_cdf_of
       withdrawal_cdf_of gains_of].
  pose proof (np_cumsum_zeros
                (length (create_unified_timebase position_timestamps
                           (map timestamp transactions)))) as Hz.
  split; [exact Hz|]. split; [exact Hz|]. split; [|exact HP].
  exists P0. split; [exact HgP|].
  intros i P_i G_i HPi HGi.
  apply lookup_zip_with_Some in HGi as (p & [dv wv] & -> & Hp & Hdw).
  rewrite HPi in Hp. injection Hp as <-.
  apply lookup_zip_with_Some in Hdw as (dv' & wv' & [= <- <-] & Hdv & Hwv).
  rewrite Forall_forall in Hz.
  pose proof (Hz dv (list_elem_of_lookup_2 _ _ _ Hdv)) as Edv.
  pose proof (Hz wv (list_elem_of_lookup_2 _ _ _ Hwv)) as Ewv.
  pose proof (Hz D0 (list_elem_of_lookup_2 _ _ _ (py_getitem_lookup _ _ _ HgD)))
    as ED0.
  pose proof (Hz W0 (list_elem_of_lookup_2 _ _ _ (py_getitem_lookup _ _ _ HgW)))
    as EW0.
  unfold gain_at. simpl. rewrite Edv, Ewv, ED0, EW0. ring.
Qed.

End PipelineMore.

Lemma gains_arrays_share_timebase_witness :
  exists r,
    @CorrectCalculations.calculate_correct_gains Examples.plain_numlib
      [Examples.hour 0; Examples.hour 2] [100; 110]%Q
      [Examples.deposit_at (Examples.hour 1) "addr1" 5] 0 "linear"
      CorrectCalculations.AlignNone false = Ok r
    /\ length (CorrectCalculations.gains_of r) = 3%nat
    /\ length (CorrectCalculations.unified_timebase_of r) = 3%nat.
Proof.
  eexists. split; [vm_compute; reflexivity|].
  split; [|reflexivity].
  refine (proj1 (proj2 (proj2 (proj2 (proj2
            (@gains_arrays_share_timebase Examples.plain_numlib
               [Examples.hour 0; Examples.hour 2] [100; 110]%Q
               [Examples.deposit_at (Examples.hour 1) "addr1" 5] 0 "linear"
               CorrectCalculations.AlignNone false _ _)))))).
  vm_compute. reflexivity.
Defined.

Lemma negative_reference_index_counts_from_end_witness :
  @CorrectCalculations.calculate_correct_gains Examples.plain_numlib
    [Examples.hour 0; Examples.hour 2] [100; 110]%Q
    [Examples.deposit_at (Examples.hour 1) "addr1" 5] (-1) "linear"
    CorrectCalculations.AlignNone false
  = @CorrectCalculations.calculate_correct_gains Examples.plain_numlib
      [Examples.hour 0; Examples.hour 2] [100; 110]%Q
      [Examples.deposit_at (Examples.hour 1) "addr1" 5] 2 "linear"
      CorrectCalculations.AlignNone false.
Proof.
  refine (@negative_reference_index_counts_from_end Examples.plain_numlib
            [Examples.hour 0; Examples.hour 2] [100; 110]%Q
            [Examples.deposit_at (Examples.hour 1) "addr1" 5] (-1) "linear"
            CorrectCalculations.AlignNone false _).
  simpl. lia.
Defined.

Lemma gains_without_matched_events_witness :
  exists r,
    @CorrectCalculations.calculate_correct_gains Examples.plain_numlib
      [Examples.hour 0; Examples.hour 2] [100; 110]%Q
      [Examples.deposit_at (Datetime.naive 3600000000) "addr1" 5] 0 "linear"
      CorrectCalculations.AlignNone false = Ok r
    /\ Forall (fun x => (x == 0)%Q) (CorrectCalculations.deposit_cdf_of r).
Proof.
  eexists. split; [vm_compute; reflexivity|].
  refine (proj1
            (@gains_without_matched_events Examples.plain_numlib
               [Examples.hour 0; Examples.hour 2] [100; 110]%Q
               [Examples.deposit_at (Datetime.naive 3600000000) "addr1" 5]
               0 "linear" CorrectCalculations.AlignNone _ _ _)).
  - repeat constructor.
  - vm_compute. reflexivity.
Defined.

(** ** Rows of [calculate_correct_adjusted_positions] *)

Section AdjustedPositions.
Import Datetime Models Numpy CorrectCalculations.
Context `{NumLib}.

Lemma AdjustedSupplyPosition_post_init_Ok a :
  AdjustedSupplyPosition_post_init a = Ok tt ->
  is_blank (asp_asset_symbol a) = false
  /\ (0 <= raw_position a)%Q /\ (0 <= cumulative_deposits a)%Q
  /\ (cumulative_withdrawals a <= 0)%Q.
Proof.
  unfold AdjustedSupplyPosition_post_init.
  destruct (is_blank _); [discriminate|].
  destruct (Qlt_bool (raw_position a) 0) eqn:E1; [discriminate|].
  destruct (Qlt_bool (cumulative_deposits a) 0) eqn:E2; [discriminate|].
  destruct (Qlt_bool 0 (cumulative_withdrawals a)) eqn:E3; [discriminate|].
  intros _. apply Qlt_bool_false in E1, E2, E3. auto.
Qed.

Lemma adjusted_rows_spec asset orig :
  forall tb ps ds ws gs rows,
    adjusted_rows asset orig tb ps ds ws gs = Ok rows ->
    Forall (fun a =>
              exists (i : nat) p d w g,
                tb !! i = Some (asp_timestamp a)
                /\ ps !! i = Some p /\ ds !! i = Some d
                /\ ws !! i = Some w /\ gs !! i = Some g
                /\ mem (asp_timestamp a) orig = true
                /\ a = mk_AdjustedSupplyPosition (asp_timestamp a) asset
                         p d (- w)%Q g (d - w)%Q
                /\ AdjustedSupplyPosition_post_init a = Ok tt) rows.
Proof.
  induction tb as [|ts tb IH]; intros ps ds ws gs rows; simpl.
  - destruct ps, ds, ws, gs; intros [= <-]; constructor.
  - destruct ps as [|p ps], ds as [|d ds], ws as [|w ws], gs as [|g gs];
      try (intros [= <-]; constructor).
    assert (forall rest,
              adjusted_rows asset orig tb ps ds ws gs = Ok rest ->
              Forall (fun a =>
                exists (i : nat) p0 d0 w0 g0,
                  (ts :: tb) !! i = Some (asp_timestamp a)
                  /\ (p :: ps) !! i = Some p0 /\ (d :: ds) !! i = Some d0
                  /\ (w :: ws) !! i = Some w0 /\ (g :: gs) !! i = Some g0
                  /\ mem (asp_timestamp a) orig = true
                  /\ a = mk_AdjustedSupplyPosition (asp_timestamp a) asset
                           p0 d0 (- w0)%Q g0 (d0 - w0)%Q
                  /\ AdjustedSupplyPosition_post_init a = Ok tt) rest)
      as Hrest.
    { intros rest Hr. eapply Forall_impl; [apply (IH _ _ _ _ _ Hr)|].
      simpl. intros a (i & p0 & d0 & w0 & g0 & Hi).
      exists (S i), p0, d0, w0, g0. exact Hi. }
    destruct (mem ts orig) eqn:Hmem; [|apply Hrest].
    unfold new_AdjustedSupplyPosition.
    destruct (AdjustedSupplyPosition_post_init _) as [[]|e] eqn:Hpi;
      [|discriminate].
    unfold mbind at 1 2, result_bind at 1 2.
    destruct (adjusted_rows asset orig tb ps ds ws gs) as [rest|e] eqn:Hr;
      [|discriminate].
    unfold mbind, result_bind. intros [= <-].
    constructor; [|apply Hrest; reflexivity].
    exists 0%nat, p, d, w, g. cbn [asp_timestamp].
    repeat split; try reflexivity; assumption.
Qed.

(** X13.  Every row comes from one index of the pipeline's arrays, at a
    timebase point that equals an original supply timestamp: the raw
    position is the interpolated position there, the adjusted position is
    the gain there, the deposits are the deposit CDF, the withdrawals are
    the negated withdrawal CDF, and the net gain is their difference. *)
Theorem adjusted_rows_come_from_pipeline
    (asset_symbol : string) (supply_data : list (datetime * Q))
    (transactions : list Transaction) (reference_time_index : Z)
    (interpolation_method : string)
    (r : GainsResult) (rows : list AdjustedSupplyPosition) :
  calculate_correct_gains (map fst supply_data) (map snd supply_data)
    transactions reference_time_index interpolation_method AlignNone false
    = Ok r ->
  calculate_correct_adjusted_positions asset_symbol supply_data transactions
    reference_time_index interpolation_method = Ok rows ->
  Forall (fun a =>
            mem (asp_timestamp a) (map fst supply_data) = true
            /\ asp_asset_symbol a = asset_symbol
            /\ exists (i : nat) (w : Q),
                 unified_timebase_of r !! i = Some (asp_timestamp a)
                 /\ interpolated_positions_of r !! i = Some (raw_position a)
                 /\ gains_of r !! i = Some (adjusted_position a)
                 /\ deposit_cdf_of r !! i = Some (cumulative_deposits a)
                 /\ withdrawal_cdf_of r !! i = Some w
                 /\ cumulative_withdrawals a = (- w)%Q
                 /\ net_gain a = (cumulative_deposits a - w)%Q) rows.
Proof.
  intros Hg. unfold calculate_correct_adjusted_positions.
  destruct supply_data as [|s0 supply]; [intros [= <-]; constructor|].
  rewrite Hg. unfold mbind, result_bind. intros Hrows.
  eapply Forall_impl; [apply (adjusted_rows_spec _ _ _ _ _ _ _ _ Hrows)|].
  cbv beta. intros a (i & p & d & w & g & Hts & Hp & Hd & Hw & Hgs & Hmem
                      & Ha & _).
  split; [exact Hmem|]. rewrite Ha. cbn.
  split; [reflexivity|]. exists i, w.
  rewrite Ha in Hts. cbn in Hts. auto 10.
Qed.

(** X14.  Every row passed the model's validation: its asset symbol is not
    blank, its raw position and cumulative deposits are non-negative, its
    cumulative withdrawals are non-positive, and its net gain is the sum of
    the two cumulative fields; empty supply data gives no row. *)
Theorem adjusted_rows_are_validated
    (asset_symbol : string) (supply_data : list (datetime * Q))
    (transactions : list Transaction) (reference_time_index : Z)
    (interpolation_method : string)
    (rows : list AdjustedSupplyPosition) :
  calculate_correct_adjusted_positions asset_symbol supply_data transactions
    reference_time_index interpolation_method = Ok rows ->
  Forall (fun a =>
            is_blank (asp_asset_symbol a) = false
            /\ (0 <= raw_position a)%Q
            /\ (0 <= cumulative_deposits a)%Q
            /\ (cumulative_withdrawals a <= 0)%Q
            /\ (net_gain a
                == cumulative_deposits a + cumulative_withdrawals a)%Q) rows
  /\ (supply_data = [] -> rows = []).
Proof.
  unfold calculate_correct_adjusted_positions.
  destruct supply_data as [|s0 supply].
  { intros [= <-]. split; [constructor|reflexivity]. }
  destruct (calculate_correct_gains _ _ _ _ _ _ _) as [r|e]; [|discriminate].
  unfold mbind, result_bind. intros Hrows.
  split; [|discriminate].
  eapply Forall_impl; [apply (adjusted_rows_spec _ _ _ _ _ _ _ _ Hrows)|].
  cbv beta. intros a (i & p & d & w & g & _ & _ & _ & _ & _ & _ & Ha & Hpi).
  apply AdjustedSupplyPosition_post_init_Ok in Hpi
    as (Hb & Hraw & Hdep & Hwd).
  repeat split; try assumption.
  rewrite Ha. cbn. ring.
Qed.

(** X15.  Supply data with naive timestamps gives no row at all: the
    timebase is in UTC and the membership test is against the timestamps
    as given. *)
Theorem naive_supply_timestamps_give_no_rows
    (asset_symbol : string) (supply_data : list (datetime * Q))
    (transactions : list Transaction) (reference_time_index : Z)
    (interpolation_method : string)
    (rows : list AdjustedSupplyPosition) :
  Forall (fun s => is_aware s.1 = false) supply_data ->
  calculate_correct_adjusted_positions asset_symbol supply_data transactions
    reference_time_index interpolation_method = Ok rows ->
  rows = [].
Proof.
  intros Hnaive Hrun.
  destruct rows as [|a rows]; [reflexivity|exfalso].
  revert Hrun. unfold calculate_correct_adjusted_positions.
  destruct supply_data as [|s0 supply]; [discriminate|].
  destruct (calculate_correct_gains _ _ _ _ _ _ _) as [r|e] eqn:Hg;
    [|discriminate].
  unfold mbind, result_bind. intros Hrows.
  pose proof (adjusted_rows_spec _ _ _ _ _ _ _ _ Hrows) as Hall.
  inversion Hall as [|? ? (i & p & d & w & g & Hts & _ & _ & _ & _ & Hmem & _)
                        _]; subst.
  destruct (calculate_correct_gains_inv _ _ _ _ _ _ _ _ Hg)
    as (P & d0 & w0 & P0 & D0 & W0 & _ & _ & _ & _ & _ & _ & _ & _ & _ & Hr).
  rewrite Hr in Hts. cbn [unified_timebase_of] in Hts.
  pose proof (unified_timebase_is_utc (map fst (s0 :: supply))
                (map (fun tx : Transaction => timestamp tx) transactions))
    as Hutc.
  rewrite Forall_forall in Hutc.
  specialize (Hutc _ (list_elem_of_lookup_2 _ _ _ Hts)).
  apply mem_true_iff in Hmem as (y & Hy & Heq).
  apply list_elem_of_fmap in Hy as (s & -> & Hs).
  rewrite Forall_forall in Hnaive. specialize (Hnaive s Hs).
  unfold is_utc in Hutc. unfold Datetime.eqb in Heq. rewrite Hutc in Heq.
  unfold is_aware in Hnaive. destruct (tzoffset s.1); discriminate.
Qed.

End AdjustedPositions.

Lemma adjusted_rows_come_from_pipeline_witness :
  exists r rows,
    @CorrectCalculations.calculate_correct_adjusted_positions
      Examples.plain_numlib "usdc"
      [(Examples.hour 0, 100%Q); (Examples.hour 2, 110%Q)]
      [Examples.deposit_at (Examples.hour 1) "addr1" 5] 0 "linear" = Ok rows
    /\ length rows = 2%nat
    /\ Forall (fun a =>
                 exists (i : nat) (w : Q),
                   CorrectCalculations.gains_of r !! i
                   = Some (Models.adjusted_position a)) rows.
Proof.
  eexists. eexists. split; [vm_compute; reflexivity|].
  split; [reflexivity|].
  eapply Forall_impl.
  - refine (@adjusted_rows_come_from_pipeline Examples.plain_numlib "usdc"
              [(Examples.hour 0, 100%Q); (Examples.hour 2, 110%Q)]
              [Examples.deposit_at (Examples.hour 1) "addr1" 5] 0 "linear"
              _ _ _ _); vm_compute; reflexivity.
  - cbv beta. intros a (_ & _ & i & w & _ & _ & Hgain & _). eauto.
Defined.

Lemma adjusted_rows_are_validated_witness :
  exists rows,
    @CorrectCalculations.calculate_correct_adjusted_positions
      Examples.plain_numlib "usdc"
      [(Examples.hour 0, 100%Q); (Examples.hour 2, 110%Q)]
      [Examples.deposit_at (Examples.hour 1) "addr1" 5] 0 "linear" = Ok rows
    /\ Forall (fun a => (0 <= Models.raw_position a)%Q) rows.
Proof.
  eexists. split; [vm_compute; reflexivity|].
  eapply Forall_impl.
  - refine (proj1 (@adjusted_rows_are_validated Examples.plain_numlib "usdc"
              [(Examples.hour 0, 100%Q); (Examples.hour 2, 110%Q)]
              [Examples.deposit_at (Examples.hour 1) "addr1" 5] 0 "linear"
              _ _)); vm_compute; reflexivity.
  - cbv beta. intros a (_ & Hraw & _). exact Hraw.
Defined.

Lemma naive_supply_timestamps_give_no_rows_witness :
  @CorrectCalculations.calculate_correct_adjusted_positions
    Examples.plain_numlib "usdc"
    [(Datetime.naive 0, 100%Q); (Datetime.naive 7200000000, 110%Q)]
    [] 0 "linear" = Ok [].
Proof.
  destruct (@CorrectCalculations.calculate_correct_adjusted_positions
              Examples.plain_numlib "usdc"
              [(Datetime.naive 0, 100%Q); (Datetime.naive 7200000000, 110%Q)]
              [] 0 "linear") as [rows|e] eqn:Hrun.
  - f_equal.
    refine (@naive_supply_timestamps_give_no_rows Examples.plain_numlib "usdc"
              [(Datetime.naive 0, 100%Q); (Datetime.naive 7200000000, 110%Q)]
              [] 0 "linear" rows _ Hrun).
    repeat constructor.
  - vm_compute in Hrun. discriminate.
Defined.

(** ** Domain models *)

Section ModelsMore.
Import Datetime Models.

(** X16.  The constructor of [Transaction] accepts exactly the records
    with non-blank wallet, market and asset, whose type is 'deposit' with
    a positive amount or 'withdrawal' with a negative one. *)
Theorem transaction_constructor_accepts_iff (tx : Transaction) :
  valid_transaction tx <->
  is_blank (wallet_address tx) = false
  /\ is_blank (market_id tx) = false
  /\ is_blank (asset_symbol tx) = false
  /\ ((transaction_type tx = "deposit" /\ (0 < amount tx)%Q)
      \/ (transaction_type tx = "withdrawal" /\ (amount tx < 0)%Q)).
Proof.
  unfold valid_transaction, Transaction_post_init.
  destruct (is_blank (wallet_address tx));
    [split; [discriminate|intros (E & _); discriminate]|].
  destruct (is_blank (market_id tx));
    [split; [discriminate|intros (_ & E & _); discriminate]|].
  destruct (is_blank (asset_symbol tx));
    [split; [discriminate|intros (_ & _ & E & _); discriminate]|].
  destruct (String.eqb_spec (transaction_type tx) "deposit") as [Hd|Hd];
    destruct (String.eqb_spec (transaction_type tx) "withdrawal") as [Hw|Hw];
    cbn [orb negb andb].
  - rewrite Hd in Hw. discriminate.
  - destruct (Qle_bool (amount tx) 0) eqn:E.
    + apply Qle_bool_iff in E. split; [discriminate|].
      intros (_ & _ & _ & [[_ Hpos]|[Hw' _]]); [lra|contradiction].
    + split; [|reflexivity]. intros _. repeat split. left. split; [exact Hd|].
      destruct (Qlt_le_dec 0 (amount tx)) as [Hlt|Hle]; [exact Hlt|].
      apply Qle_bool_iff in Hle. congruence.
  - destruct (Qle_bool 0 (amount tx)) eqn:E.
    + apply Qle_bool_iff in E. split; [discriminate|].
      intros (_ & _ & _ & [[Hd' _]|[_ Hneg]]); [contradiction|lra].
    + split; [|reflexivity]. intros _. repeat split. right. split; [exact Hw|].
      destruct (Qlt_le_dec (amount tx) 0) as [Hlt|Hle]; [exact Hlt|].
      apply Qle_bool_iff in Hle. congruence.
  - split; [discriminate|].
    intros (_ & _ & _ & [[Hd' _]|[Hw' _]]); contradiction.
Qed.

Lemma string_length_append (s1 s2 : string) :
  String.length (s1 ++ s2) = (String.length s1 + String.length s2)%nat.
Proof. induction s1 as [|c s1 IH]; simpl; [|rewrite IH]; reflexivity. Qed.

Lemma string_length_substring (n m : nat) (s : string) :
  (n + m <= String.length s)%nat ->
  String.length (String.substring n m s) = m.
Proof.
  revert n m. induction s as [|c s IH]; intros n m Hle; simpl in *.
  - destruct n, m; simpl in *; try lia; reflexivity.
  - destruct n as [|n]; [destruct m as [|m]|]; simpl; try reflexivity.
    + rewrite (IH 0%nat m) by lia. reflexivity.
    + apply IH. lia.
Qed.

Lemma substring_append_l (s1 s2 : string) :
  String.substring 0 (String.length s1) (s1 ++ s2) = s1.
Proof. induction s1 as [|c s1 IH]; simpl; [destruct s2|rewrite IH]; reflexivity. Qed.

Lemma substring_full (s : string) :
  String.substring 0 (String.length s) s = s.
Proof. induction s as [|c s IH]; simpl; [|rewrite IH]; reflexivity. Qed.

Lemma string_append_assoc (s1 s2 s3 : string) :
  ((s1 ++ s2) ++ s3)%string = (s1 ++ s2 ++ s3)%string.
Proof.
  induction s1 as [|c s1 IH]; [reflexivity|].
  change (String c ((s1 ++ s2) ++ s3) = String c (s1 ++ s2 ++ s3))%string.
  f_equal. exact IH.
Qed.

Lemma substring_append_r (s1 s2 : string) (m : nat) :
  String.substring (String.length s1) m (s1 ++ s2) = String.substring 0 m s2.
Proof. induction s1 as [|c s1 IH]; simpl; [reflexivity|exact IH]. Qed.

(** X17.  An address of at most 17 characters is shown as it is; a longer
    one is shown on exactly 20 characters: its first 11, three dots, its
    last 6. *)
Theorem abbreviated_address_shape (wb : WalletBreakdown) :
  let a := wb_wallet_address wb in
  let n := String.length a in
  ((n <= 17)%nat -> abbreviated_address wb = a)
  /\ ((17 < n)%nat ->
      String.length (abbreviated_address wb) = 20%nat
      /\ String.substring 0 11 (abbreviated_address wb)
         = String.substring 0 11 a
      /\ String.substring 11 3 (abbreviated_address wb) = "..."%string
      /\ String.substring 14 6 (abbreviated_address wb)
         = String.substring (n - 6) 6 a).
Proof.
  intros a n. unfold abbreviated_address. fold a. fold n.
  split; intros Hn.
  - replace (n <=? 17)%nat with true by (symmetry; apply Nat.leb_le; lia).
    reflexivity.
  - replace (n <=? 17)%nat with false by (symmetry; apply Nat.leb_gt; lia).
    assert (String.length (String.substring 0 11 a) = 11%nat) as H11
        by (apply string_length_substring; fold n; lia).
    assert (String.length (String.substring (n - 6) 6 a) = 6%nat) as H6
        by (apply string_length_substring; fold n; lia).
    set (p := String.substring 0 11 a) in *.
    set (q := String.substring (n - 6) 6 a) in *.
    repeat split.
    + rewrite !string_length_append, H11, H6. reflexivity.
    + rewrite <- H11 at 1. apply substring_append_l.
    + rewrite <- H11 at 1. rewrite substring_append_r.
      apply (substring_append_l "..." q).
    + change 14%nat with (String.length ("..."%string) + 11)%nat.
      replace (p ++ "..." ++ q)%string with ((p ++ "...") ++ q)%string.
      * replace (String.length "..." + 11)%nat
          with (String.length (p ++ "...")%string)
          by (rewrite string_length_append, H11; reflexivity).
        rewrite substring_append_r. rewrite <- H6 at 1.
        apply substring_full.
      * apply string_append_assoc.
Qed.

End ModelsMore.

(** ** Wallet breakdown and baseline decision *)

Section WalletMore.
Import Datetime Models Numpy CorrectCalculations AlertLogic.
Context `{NumLib}.

Lemma WalletBreakdown_post_init_Ok wb :
  WalletBreakdown_post_init wb = Ok tt ->
  is_blank (wb_wallet_address wb) = false
  /\ (0 <= wmax_usd wb)%Q /\ (0 <= v_t1_usd wb)%Q.
Proof.
  unfold WalletBreakdown_post_init.
  destruct (is_blank _); [discriminate|].
  destruct (Qlt_bool (wmax_usd wb) 0) eqn:E1; [discriminate|].
  destruct (Qlt_bool (v_t1_usd wb) 0) eqn:E2; [discriminate|].
  intros _. apply Qlt_bool_false in E1, E2. auto.
Qed.

Lemma wallet_entry_valid c method uc txs addr (s : series) wb :
  wallet_entry c method uc txs (addr, s) = Some wb ->
  WalletBreakdown_post_init wb = Ok tt
  /\ wb_wallet_address wb = addr
  /\ v_t1_usd wb
     = default 0%Q (last (map (series_get s) (sorted (map fst s)))).
Proof.
  unfold wallet_entry. destruct s as [|kv s]; [discriminate|].
  destruct (wallet_gain method uc txs addr (kv :: s)) as [g|e]; [|discriminate].
  unfold mbind, result_bind, new_WalletBreakdown.
  destruct (WalletBreakdown_post_init _) as [[]|] eqn:E; [|discriminate].
  intros [= <-]. auto.
Qed.

Lemma Qsum_nonneg (l : list Q) :
  Forall (fun x => (0 <= x)%Q) l -> (0 <= Qsum l)%Q.
Proof.
  induction 1 as [|y l Hy _ IHl]; unfold Qsum; simpl; [lra|].
  fold (Qsum l). lra.
Qed.

Lemma Qsum_nonneg_pos_iff (l : list Q) :
  Forall (fun x => (0 <= x)%Q) l ->
  ((0 < Qsum l)%Q <-> Exists (fun x => (0 < x)%Q) l).
Proof.
  induction 1 as [|x l Hx Hl IH]; unfold Qsum; simpl.
  - split; [intros Hlt; exfalso; lra|intros Hex; inversion Hex].
  - fold (Qsum l). split.
    + intros Hlt. destruct (Qlt_le_dec 0 x) as [Hpos|Hle].
      * left. exact Hpos.
      * right. apply IH. lra.
    + intros Hex. pose proof (Qsum_nonneg l Hl) as Hs.
      inversion Hex as [? ? Hpos|? ? Hrest]; subst; [lra|].
      apply IH in Hrest. lra.
Qed.

(** X18.  Every listed wallet has a non-blank address, a non-negative
    cap, and as its current value the non-negative last position of its
    series; the listed addresses are the dict's keys in the dict's order,
    with the skipped wallets left out. *)
Theorem wallet_breakdown_entries_valid
    (wallet_series_dict : list (string * series))
    (all_txs : list Transaction) (method : alignment_method)
    (use_created : bool) (safety_factor_c : Q) :
  let breakdown := _calculate_per_wallet_wmax wallet_series_dict all_txs
                     method use_created safety_factor_c in
  Forall (fun wb =>
            is_blank (wb_wallet_address wb) = false
            /\ (0 <= wmax_usd wb)%Q /\ (0 <= v_t1_usd wb)%Q
            /\ exists wallet_series,
                 (wb_wallet_address wb, wallet_series) ∈ wallet_series_dict
                 /\ v_t1_usd wb
                    = default 0%Q
                        (last (map (series_get wallet_series)
                                 (sorted (map fst wallet_series)))))
         breakdown
  /\ map wb_wallet_address breakdown `sublist_of` map fst wallet_series_dict.
Proof.
  cbv zeta. unfold _calculate_per_wallet_wmax.
  induction wallet_series_dict as [|[addr s] wallets [IH1 IH2]];
    [split; constructor|].
  cbn [omap list_omap map fst].
  assert (Forall (fun wb =>
            is_blank (wb_wallet_address wb) = false
            /\ (0 <= wmax_usd wb)%Q /\ (0 <= v_t1_usd wb)%Q
            /\ exists wallet_series,
                 (wb_wallet_address wb, wallet_series) ∈ (addr, s) :: wallets
                 /\ v_t1_usd wb
                    = default 0%Q
                        (last (map (series_get wallet_series)
                                 (sorted (map fst wallet_series)))))
            (omap (wallet_entry safety_factor_c method use_created all_txs)
                  wallets)) as Hrest.
  { eapply Forall_impl; [exact IH1|]. cbv beta.
    intros wb (Hb & Hw & Hv & ws & Hin & Hlast).
    repeat split; try assumption.
    exists ws. split; [apply list_elem_of_further, Hin|exact Hlast]. }
  destruct (wallet_entry safety_factor_c method use_created all_txs (addr, s))
    as [wb|] eqn:E.
  - apply wallet_entry_valid in E as (Hpi & Haddr & Hlast).
    apply WalletBreakdown_post_init_Ok in Hpi as (Hb & Hw & Hv).
    split.
    + constructor; [|exact Hrest]. repeat split; try assumption.
      exists s. rewrite Haddr. split; [apply list_elem_of_here|exact Hlast].
    + cbn [map]. rewrite Haddr. apply sublist_skip, IH2.
  - split; [exact Hrest|]. apply sublist_cons, IH2.
Qed.

(** X19.  The baseline decision computed from the breakdown is
    WITHDRAW_OK exactly when some listed wallet has a positive cap, and
    HOLD otherwise. *)
Theorem baseline_withdraw_iff_some_positive_cap
    (wallet_series_dict : list (string * series))
    (all_txs : list Transaction) (method : alignment_method)
    (use_created : bool) (safety_factor_c : Q) :
  let breakdown := _calculate_per_wallet_wmax wallet_series_dict all_txs
                     method use_created safety_factor_c in
  (baseline_decision breakdown = WITHDRAW_OK
   <-> Exists (fun wb => (0 < wmax_usd wb)%Q) breakdown)
  /\ (baseline_decision breakdown = HOLD
      <-> Forall (fun wb => (wmax_usd wb == 0)%Q) breakdown).
Proof.
  intros breakdown.
  assert (Forall (fun wb => (0 <= wmax_usd wb)%Q) breakdown) as Hnn.
  { unfold breakdown, _calculate_per_wallet_wmax.
    apply Forall_forall. intros wb Hwb.
    apply list_elem_of_omap in Hwb as ([addr s] & _ & E).
    apply wallet_entry_valid in E as (Hpi & _).
    apply WalletBreakdown_post_init_Ok in Hpi. tauto. }
  assert ((0 < total_wmax breakdown)%Q
          <-> Exists (fun wb => (0 < wmax_usd wb)%Q) breakdown) as Hpos.
  { rewrite total_wmax_sum, Qsum_nonneg_pos_iff.
    - rewrite Exists_fmap. reflexivity.
    - apply Forall_fmap. exact Hnn. }
  destruct (baseline_decision_spec breakdown) as [Hw Hh].
  split; [rewrite Hw; exact Hpos|].
  rewrite Hh. split.
  - intros Hle. apply Forall_forall. intros wb Hwb.
    rewrite Forall_forall in Hnn. specialize (Hnn wb Hwb).
    destruct (Qlt_le_dec 0 (wmax_usd wb)) as [Hlt|Hle']; [|lra].
    exfalso. assert (0 < total_wmax breakdown)%Q; [|lra].
    apply Hpos, Exists_exists. exists wb. split; [exact Hwb|exact Hlt].
  - intros Hz. destruct (Qlt_le_dec 0 (total_wmax breakdown)) as [Hlt|Hle];
      [|exact Hle].
    exfalso. apply Hpos, Exists_exists in Hlt as (wb & Hwb & Hlt).
    rewrite Forall_forall in Hz. specialize (Hz wb Hwb). lra.
Qed.

End WalletMore.

(** ** Outcomes of the residual gate *)

Section GateMore.
Import Datetime Models Numpy CorrectCalculations AlertLogic.
Context `{NumLib}.

Lemma stddev_trigger_01 sigma r k :
  stddev_trigger sigma r k = 0 \/ stddev_trigger sigma r k = 1.
Proof. unfold stddev_trigger. destruct (_ && _); auto. Qed.

Lemma threshold_trigger_01 dg res_est sigma r :
  threshold_trigger dg res_est sigma r = 0
  \/ threshold_trigger dg res_est sigma r = 1.
Proof.
  unfold threshold_trigger. destruct (dg_threshold_mode dg);
    [apply stddev_trigger_01|].
  cbv zeta.
  destruct (if (1 <? length res_est)%nat then _ else _) as [[lo hi]|e];
    [|apply stddev_trigger_01].
  destruct (Qlt_bool hi r); auto.
Qed.

Lemma baseline_decision_01 l :
  baseline_decision l = 0 \/ baseline_decision l = 1.
Proof. unfold baseline_decision. destruct (Qlt_bool _ _); auto. Qed.

(** The two ways out of the keyword-path gate. *)
Lemma residual_gate_keyword_cases dg x_time cp_vals dec :
  residual_gate_keyword dg x_time cp_vals dec
  = set_gate 0 false (residual_usd dec) (sigma_usd dec)
      (residual_trigger dec) dec
  \/ exists res_est sigma r_now,
       Z.max (min_points dg) (polynomial_order dg + 1)
         <= Z.of_nat (length cp_vals)
       /\ residual_gate_keyword dg x_time cp_vals dec
          = set_gate (threshold_trigger dg res_est sigma r_now) true
              (Some r_now) (Some sigma)
              (Some (threshold_trigger dg res_est sigma r_now)) dec.
Proof.
  unfold residual_gate_keyword.
  destruct (Z.ltb_spec (Z.of_nat (length cp_vals))
              (Z.max (min_points dg) (polynomial_order dg + 1)));
    [left; reflexivity|].
  destruct (match dg_method dg with
            | PolynomialFit => _
            | Median => _
            end) as [fitted|e]; [|left; reflexivity].
  unfold mbind, result_bind. cbv zeta.
  match goal with
  | |- context [if ?c then Ok (set_gate 0 false _ _ _ _) else _] =>
      destruct c
  end; [left; reflexivity|].
  destruct (py_getitem _ (-1)) as [r_now|e]; [|left; reflexivity].
  unfold mbind, result_bind. right. eauto.
Qed.

(** The two ways out of the fallback-path gate. *)
Lemma residual_gate_fallback_cases dg x_time cp_vals dec :
  residual_gate_fallback dg x_time cp_vals dec
  = set_decision (baseline_decision (wmax_usd_list dec)) dec
  \/ exists res_est sigma r_now,
       dg_enabled dg = true /\ apply_in_fallback dg = true
       /\ Z.max (min_points dg) (polynomial_order dg + 1)
            <= Z.of_nat (length cp_vals)
       /\ residual_gate_fallback dg x_time cp_vals dec
          = set_gate (threshold_trigger dg res_est sigma r_now) true
              (Some r_now) (Some sigma)
              (Some (threshold_trigger dg res_est sigma r_now)) dec.
Proof.
  unfold residual_gate_fallback. cbv zeta.
  destruct (dg_enabled dg); [|left; reflexivity].
  destruct (apply_in_fallback dg); [|left; reflexivity].
  cbn [andb].
  destruct (Z.ltb_spec (Z.of_nat (length cp_vals))
              (Z.max (min_points dg) (polynomial_order dg + 1)));
    [left; reflexivity|].
  unfold mbind, result_bind.
  destruct (hours_since_first x_time) as [x_hours|e]; [|left; reflexivity].
  destruct (np_polyfit_eval _ _ _) as [fitted|e]; [|left; reflexivity].
  match goal with
  | |- context [if ?c then Ok (set_decision _ _) else _] => destruct c
  end; [left; reflexivity|].
  destruct (py_getitem _ (-1)) as [r_now|e]; [|left; reflexivity].
  unfold mbind, result_bind. right. eauto 10.
Qed.

(** X20.  On the keyword-reference path the decision is HOLD or
    WITHDRAW_OK, never ERROR; with the gate enabled it is either HOLD with
    the gate marked as not applied and the residual fields untouched, or
    the recorded trigger with the gate marked as applied; with the gate
    disabled it is the baseline decision.  The wallet breakdown and the
    gain are never changed. *)
Theorem keyword_gate_outcome
    (dg : DecisionGate) (x_time : list datetime) (cp_vals : list Q)
    (dec : AssetDecision) :
  let out := decide_keyword dg x_time cp_vals dec in
  (decision out = HOLD \/ decision out = WITHDRAW_OK)
  /\ wmax_usd_list out = wmax_usd_list dec
  /\ g_usd out = g_usd dec
  /\ (dg_enabled dg = false ->
      out = set_decision (baseline_decision (wmax_usd_list dec)) dec)
  /\ (dg_enabled dg = true ->
      (decision out = HOLD /\ gate_applied out = Some false
       /\ residual_usd out = residual_usd dec
       /\ sigma_usd out = sigma_usd dec
       /\ residual_trigger out = residual_trigger dec)
      \/ (gate_applied out = Some true
          /\ residual_trigger out = Some (decision out)
          /\ is_Some (residual_usd out) /\ is_Some (sigma_usd out)
          /\ Z.max (min_points dg) (polynomial_order dg + 1)
               <= Z.of_nat (length cp_vals))).
Proof.
  cbv zeta. unfold decide_keyword, HOLD, WITHDRAW_OK.
  destruct (dg_enabled dg).
  - destruct (residual_gate_keyword_cases dg x_time cp_vals dec)
      as [->|(res_est & sigma & r_now & Hn & ->)]; cbn.
    + split; [auto|]. do 3 (split; [reflexivity || discriminate|]).
      intros _. left. repeat split; reflexivity.
    + split; [apply threshold_trigger_01|].
      do 3 (split; [reflexivity || discriminate|]).
      intros _. right. repeat split; eauto.
  - cbn. split; [apply baseline_decision_01|].
    do 2 (split; [reflexivity|]). split; [reflexivity|discriminate].
Qed.

(** X21.  On the data_range fallback path the decision is HOLD or
    WITHDRAW_OK, never ERROR: it is the baseline decision from the total
    wmax unless the gate is enabled for the fallback, has enough samples
    and was applied, in which case it is the recorded trigger.  The wallet
    breakdown and the gain are never changed. *)
Theorem fallback_gate_outcome
    (dg : DecisionGate) (x_time : list datetime) (cp_vals : list Q)
    (dec : AssetDecision) :
  let out := residual_gate_fallback dg x_time cp_vals dec in
  (decision out = HOLD \/ decision out = WITHDRAW_OK)
  /\ wmax_usd_list out = wmax_usd_list dec
  /\ g_usd out = g_usd dec
  /\ (out = set_decision (baseline_decision (wmax_usd_list dec)) dec
      \/ (dg_enabled dg = true /\ apply_in_fallback dg = true
          /\ Z.max (min_points dg) (polynomial_order dg + 1)
               <= Z.of_nat (length cp_vals)
          /\ gate_applied out = Some true
          /\ residual_trigger out = Some (decision out)
          /\ is_Some (residual_usd out) /\ is_Some (sigma_usd out))).
Proof.
  cbv zeta. unfold HOLD, WITHDRAW_OK.
  destruct (residual_gate_fallback_cases dg x_time cp_vals dec)
    as [->|(res_est & sigma & r_now & Hen & Hap & Hn & ->)]; cbn.
  - split; [apply baseline_decision_01|].
    do 2 (split; [reflexivity|]). left. reflexivity.
  - split; [apply threshold_trigger_01|].
    do 2 (split; [reflexivity|]). right. repeat split; eauto.
Qed.


End GateMore.


(** ** Price comparison: what the post-processing can and cannot do *)

Section PriceCompareMore.
Import AlertLogic.

Lemma price_compare_asset_veto pc resolve srcs counts asset dec :
  let dec' := (price_compare_asset pc resolve srcs counts asset dec).2 in
  (decision dec' = decision dec \/ decision dec' = HOLD)
  /\ (decision dec = ERROR ->
      dec' = dec
      /\ (price_compare_asset pc resolve srcs counts asset dec).1 = counts)
  /\ (String.eqb (action_on_mismatch pc) "hold" = false ->
      decision dec' = decision dec)
  /\ wmax_usd_list dec' = wmax_usd_list dec
  /\ g_usd dec' = g_usd dec
  /\ residual_usd dec' = residual_usd dec
  /\ sigma_usd dec' = sigma_usd dec
  /\ residual_trigger dec' = residual_trigger dec
  /\ gate_applied dec' = gate_applied dec.
Proof.
  cbv zeta. unfold price_compare_asset, ERROR, HOLD.
  destruct (Z.eqb_spec (decision dec) (-1)) as [He|Hne].
  - cbn [fst snd]. repeat split; auto.
  - destruct (length _ <? 2)%nat; cbn [fst snd decision wmax_usd_list g_usd
      residual_usd sigma_usd residual_trigger gate_applied].
    + repeat split; auto; contradiction.
    + split; [destruct (_ && _ && _); auto|].
      split; [intros; contradiction|].
      split; [intros ->; rewrite andb_false_r; reflexivity|].
      repeat split.
Qed.

(** X23.  The price comparison can only veto: it keeps the assets and
    their order, leaves every decision as it was or turns it to HOLD,
    leaves an ERROR decision entirely untouched, changes no decision at
    all when the configured action is not "hold", and never changes the
    wallet breakdown, the gain or the fields of the residual gate. *)
Theorem price_compare_is_veto_only
    (pc : PriceCompare) (resolve : string -> string -> option Q)
    (logical_sources : list string) (counts : gmap string Z)
    (decisions : list (string * AssetDecision)) :
  let out := (price_compare_cycle pc resolve logical_sources counts
                decisions).2 in
  map fst out = map fst decisions
  /\ Forall2 (fun before after =>
                let dec := before.2 in
                let dec' := after.2 in
                (decision dec' = decision dec \/ decision dec' = HOLD)
                /\ (decision dec = ERROR -> dec' = dec)
                /\ (String.eqb (action_on_mismatch pc) "hold" = false ->
                    decision dec' = decision dec)
                /\ wmax_usd_list dec' = wmax_usd_list dec
                /\ g_usd dec' = g_usd dec
                /\ residual_usd dec' = residual_usd dec
                /\ sigma_usd dec' = sigma_usd dec
                /\ residual_trigger dec' = residual_trigger dec
                /\ gate_applied dec' = gate_applied dec)
             decisions out.
Proof.
  cbv zeta. revert counts.
  induction decisions as [|[a d] rest IH]; intros counts.
  - split; [reflexivity|constructor].
  - rewrite price_compare_cycle_cons. cbn [fst snd map].
    destruct (IH (price_compare_asset pc resolve logical_sources counts a d).1)
      as [IHk IHd].
    split; [f_equal; exact IHk|].
    constructor; [|exact IHd]. cbn [fst snd].
    pose proof (price_compare_asset_veto pc resolve logical_sources counts a d)
      as Hv. cbv zeta in Hv.
    destruct Hv as (H1 & H2 & H3 & H4).
    split; [exact H1|]. split; [intros He; apply H2, He|].
    split; [exact H3|exact H4].
Qed.

Lemma price_compare_asset_counts pc resolve srcs counts asset dec :
  let counts' := (price_compare_asset pc resolve srcs counts asset dec).1 in
  counts' = counts
  \/ counts' = <[asset := 0]> counts
  \/ counts' = <[asset := default 0 (counts !! asset) + 1]> counts.
Proof.
  cbv zeta. unfold price_compare_asset.
  destruct (decision dec =? -1); [left; reflexivity|].
  destruct (length _ <? 2)%nat; [left; reflexivity|].
  cbn [fst]. destruct (mismatch_of _ _ _); auto.
Qed.

(** X24.  Counters that start non-negative stay non-negative through a
    cycle, a counter moves only for an asset of the cycle, and a cycle
    creates counters only for its own assets. *)
Theorem mismatch_counters_stay_nonnegative
    (pc : PriceCompare) (resolve : string -> string -> option Q)
    (logical_sources : list string) (counts : gmap string Z)
    (decisions : list (string * AssetDecision)) :
  (forall asset c, counts !! asset = Some c -> 0 <= c) ->
  let counts' := (price_compare_cycle pc resolve logical_sources counts
                    decisions).1 in
  (forall asset c, counts' !! asset = Some c -> 0 <= c)
  /\ (forall asset, asset ∉ map fst decisions ->
                    counts' !! asset = counts !! asset).
Proof.
  intros Hnn counts'. split.
  - subst counts'. revert counts Hnn.
    induction decisions as [|[a d] rest IH]; intros counts Hnn; [exact Hnn|].
    rewrite price_compare_cycle_cons. cbn [fst snd].
    apply IH. intros asset c.
    destruct (price_compare_asset_counts pc resolve logical_sources counts a d)
      as [->|[->| ->]]; [apply Hnn| |].
    + destruct (decide (a = asset)) as [->|Hne].
      * rewrite lookup_insert_eq. intros [= <-]. lia.
      * rewrite lookup_insert_ne by exact Hne. apply Hnn.
    + destruct (decide (a = asset)) as [->|Hne].
      * rewrite lookup_insert_eq. intros [= <-].
        destruct (counts !! asset) as [c0|] eqn:E; simpl; [|lia].
        specialize (Hnn asset c0 E). lia.
      * rewrite lookup_insert_ne by exact Hne. apply Hnn.
  - intros asset Hnot. apply price_compare_cycle_other, Hnot.
Qed.

Lemma foldl_py_max_const (p : Q) (ps : list Q) :
  Forall (fun x => x = p) ps -> foldl py_max p ps = p.
Proof.
  induction 1 as [|x ps -> _ IH]; [reflexivity|].
  simpl. unfold py_max at 2.
  assert (Qlt_bool p p = false) as -> by (apply Qlt_bool_false; lra).
  exact IH.
Qed.

Lemma foldl_py_min_const (p : Q) (ps : list Q) :
  Forall (fun x => x = p) ps -> foldl py_min p ps = p.
Proof.
  induction 1 as [|x ps -> _ IH]; [reflexivity|].
  simpl. unfold py_min at 2.
  assert (Qlt_bool p p = false) as -> by (apply Qlt_bool_false; lra).
  exact IH.
Qed.

(** X25.  When at least two sources answer and all answer the same price,
    with a non-negative tolerance, there is no mismatch: the asset's
    counter is reset to 0 and the decision stands. *)
Theorem agreeing_prices_reset_counter
    (pc : PriceCompare) (resolve : string -> string -> option Q)
    (logical_sources : list string) (counts : gmap string Z)
    (asset : string) (dec : AssetDecision) (p : Q) :
  decision dec <> ERROR ->
  (2 <= length (collect_prices resolve logical_sources asset))%nat ->
  Forall (fun sp => sp.2 = p) (collect_prices resolve logical_sources asset) ->
  (0 <= (_get_eps pc asset).2)%Q ->
  let out := price_compare_asset pc resolve logical_sources counts asset dec in
  out.1 = <[asset := 0]> counts
  /\ decision out.2 = decision dec
  /\ price_mismatch out.2 = Some 0
  /\ price_compare_unavailable out.2 = Some 0.
Proof.
  intros Hne Hlen Hall Heps. cbv zeta.
  unfold price_compare_asset, ERROR in *.
  replace (decision dec =? -1) with false by lia.
  replace (length _ <? 2)%nat with false
    by (symmetry; apply Nat.ltb_ge; exact Hlen).
  assert (mismatch_of pc asset (collect_prices resolve logical_sources asset)
          = false) as Hmm.
  { unfold mismatch_of, max_price, min_price.
    destruct (collect_prices resolve logical_sources asset) as [|[s0 p0] l];
      [simpl in Hlen; lia|].
    inversion Hall as [|? ? Hp0 Hl]; subst. cbn [snd] in *.
    cbn [map snd].
    assert (Forall (fun x => x = p0) (map snd l)) as Hl'.
    { apply Forall_fmap. exact Hl. }
    rewrite (foldl_py_max_const _ _ Hl'), (foldl_py_min_const _ _ Hl').
    destruct (_get_eps pc asset) as [mode eps]. cbn [snd] in Heps.
    destruct (String.eqb (str_lower mode) "absolute").
    - apply Qlt_bool_false. lra.
    - destruct (Qlt_bool 0 p0) eqn:Epos; apply Qlt_bool_false; [|exact Heps].
      apply Qlt_bool_iff in Epos.
      assert ((p0 - p0) / p0 == 0)%Q as -> by (field; lra). exact Heps. }
  cbv zeta. rewrite Hmm. cbn. repeat split.
Qed.

Lemma dedup_from_spec (l : list string) :
  forall seen,
    NoDup (dedup_from seen l)
    /\ (forall s, s ∈ dedup_from seen l <-> s ∈ l /\ s ∉ seen)
    /\ dedup_from seen l `sublist_of` l.
Proof.
  induction l as [|x l IH]; intros seen; cbn [dedup_from].
  - split; [constructor|]. split; [|constructor].
    intros s. split; [intros Hs; inversion Hs|intros [Hs _]; inversion Hs].
  - destruct (bool_decide_reflect (x ∈ seen)) as [Hin|Hnin].
    + destruct (IH seen) as (Hnd & Hmem & Hsub).
      split; [exact Hnd|]. split; [|apply sublist_cons, Hsub].
      intros s. rewrite Hmem, elem_of_cons. split; [tauto|].
      intros [[->|Hs] Hns]; [contradiction|tauto].
    + destruct (IH (x :: seen)) as (Hnd & Hmem & Hsub).
      split.
      * constructor; [|exact Hnd]. rewrite Hmem, elem_of_cons. tauto.
      * split; [|apply sublist_skip, Hsub].
        intros s. rewrite elem_of_cons, Hmem, !elem_of_cons.
        destruct (decide (s = x)) as [->|Hsx]; tauto.
Qed.

Lemma dedup_from_nodup (l : list string) :
  forall seen,
    NoDup l -> (forall s, s ∈ l -> s ∉ seen) -> dedup_from seen l = l.
Proof.
  induction l as [|x l IH]; intros seen Hnd Hdisj; [reflexivity|].
  cbn [dedup_from]. apply NoDup_cons in Hnd as [Hx Hnd].
  destruct (bool_decide_reflect (x ∈ seen)) as [Hin|Hnin].
  - exfalso. apply (Hdisj x); [apply list_elem_of_here|exact Hin].
  - f_equal. apply IH; [exact Hnd|].
    intros s Hs. apply not_elem_of_cons. split.
    + intros ->. contradiction.
    + apply Hdisj, list_elem_of_further, Hs.
Qed.

(** What is already seen is filtered out of the result. *)
Lemma dedup_from_filter (l : list string) :
  forall seen,
    dedup_from seen l = filter (fun s => s ∉ seen) (dedup_from [] l).
Proof.
  induction l as [|y l IH]; intros seen; [reflexivity|].
  cbn [dedup_from].
  destruct (bool_decide_reflect (y ∈ [])) as [Hnil|_];
    [inversion Hnil|].
  rewrite (IH [y]).
  destruct (bool_decide_reflect (y ∈ seen)) as [Hin|Hnin].
  - rewrite filter_cons_False by (intros Hc; apply Hc, Hin).
    rewrite (IH seen), list_filter_filter.
    apply list_filter_iff. intros s. split; [|tauto].
    intros Hs. split; [exact Hs|].
    rewrite list_elem_of_singleton. intros ->. contradiction.
  - rewrite filter_cons_True by exact Hnin.
    f_equal. rewrite (IH (y :: seen)), list_filter_filter.
    apply list_filter_iff. intros s.
    rewrite not_elem_of_cons, list_elem_of_singleton. tauto.
Qed.

Lemma dedup_from_snoc (l : list string) (x : string) :
  forall seen,
    dedup_from seen (l ++ [x])
    = if bool_decide (x ∈ seen ++ l) then dedup_from seen l
      else dedup_from seen l ++ [x].
Proof.
  induction l as [|y l IH]; intros seen; cbn [app dedup_from].
  - rewrite app_nil_r.
    destruct (bool_decide (x ∈ seen)); reflexivity.
  - destruct (bool_decide_reflect (y ∈ seen)) as [Hin|Hnin].
    + rewrite IH.
      assert (x ∈ seen ++ l <-> x ∈ seen ++ y :: l) as Hiff.
      { rewrite !elem_of_app, elem_of_cons. split; [tauto|].
        intros [Hs|[->|Hl]]; auto. }
      destruct (bool_decide_reflect (x ∈ seen ++ l)) as [H1|H1];
        destruct (bool_decide_reflect (x ∈ seen ++ y :: l)) as [H2|H2];
        tauto || reflexivity.
    + rewrite IH.
      assert (x ∈ (y :: seen) ++ l <-> x ∈ seen ++ y :: l) as Hiff.
      { cbn [app]. rewrite !elem_of_app, !elem_of_cons, elem_of_app. tauto. }
      destruct (bool_decide_reflect (x ∈ (y :: seen) ++ l)) as [H1|H1];
        destruct (bool_decide_reflect (x ∈ seen ++ y :: l)) as [H2|H2];
        tauto || reflexivity.
Qed.

(** X26.  De-duplicating the logical sources keeps exactly the configured
    names, each once, in the order of their first occurrence: the head of
    the list is kept in place and its later copies are removed from the
    rest, so that appending a name that is already there changes nothing
    and appending a new name appends it. *)
Theorem dedup_sources_keeps_first_occurrences (logical_sources : list string) :
  NoDup (dedup_sources logical_sources)
  /\ (forall s, s ∈ dedup_sources logical_sources <-> s ∈ logical_sources)
  /\ dedup_sources logical_sources `sublist_of` logical_sources
  /\ (NoDup logical_sources ->
      dedup_sources logical_sources = logical_sources)
  /\ dedup_sources [] = []
  /\ (forall (first : string) (rest : list string),
        dedup_sources (first :: rest)
        = first :: filter (fun s => s <> first) (dedup_sources rest))
  /\ (forall (earlier : list string) (last : string),
        dedup_sources (earlier ++ [last])
        = if bool_decide (last ∈ earlier) then dedup_sources earlier
          else dedup_sources earlier ++ [last]).
Proof.
  unfold dedup_sources.
  destruct (dedup_from_spec logical_sources []) as (Hnd & Hmem & Hsub).
  split; [exact Hnd|]. split.
  { intros s. rewrite Hmem. split; [tauto|].
    intros Hs. split; [exact Hs|]. apply not_elem_of_nil. }
  split; [exact Hsub|]. split.
  { intros Hnodup.
    apply dedup_from_nodup; [exact Hnodup|].
    intros s _. apply not_elem_of_nil. }
  split; [reflexivity|]. split.
  - intros first rest. cbn [dedup_from].
    destruct (bool_decide_reflect (first ∈ [])) as [Hnil|_];
      [inversion Hnil|].
    f_equal. rewrite (dedup_from_filter rest [first]).
    apply list_filter_iff. intros s. rewrite list_elem_of_singleton.
    reflexivity.
  - intros earlier last. apply (dedup_from_snoc earlier last []).
Qed.

End PriceCompareMore.

Lemma mismatch_counters_stay_nonnegative_witness :
  exists c,
    (AlertLogic.price_compare_cycle Examples.scenario_d_pc
       Examples.scenario_d_resolve ["liqwid"; "minswap"] ∅
       [("usdc", Examples.scenario_d_dec)]).1 !! "usdc" = Some c
    /\ 0 <= c.
Proof.
  eexists. split; [vm_compute; reflexivity|].
  refine (proj1 (mismatch_counters_stay_nonnegative Examples.scenario_d_pc
                   Examples.scenario_d_resolve ["liqwid"; "minswap"] ∅
                   [("usdc", Examples.scenario_d_dec)] _) "usdc" _ _).
  - intros asset c Hc. rewrite lookup_empty in Hc. discriminate.
  - vm_compute. reflexivity.
Defined.

Lemma agreeing_prices_reset_counter_witness :
  (AlertLogic.price_compare_asset Examples.scenario_d_pc
     (fun _ _ => Some 1%Q) ["liqwid"; "minswap"] {["usdc" := 3]} "usdc"
     Examples.scenario_d_dec).1
  = <["usdc" := 0]> ({["usdc" := 3]} : gmap string Z).
Proof.
  refine (proj1 (agreeing_prices_reset_counter Examples.scenario_d_pc
                   (fun _ _ => Some 1%Q) ["liqwid"; "minswap"]
                   {["usdc" := 3]} "usdc" Examples.scenario_d_dec 1%Q
                   _ _ _ _)).
  - discriminate.
  - simpl. lia.
  - repeat constructor.
  - vm_compute. intros Hc. discriminate Hc.
Defined.

(** ** Duty cycle *)

Section DutyCycle.
Import Datetime Models Numpy AlertLogic IoAdapters.

Lemma py_max_0_nonneg x : (0 <= py_max 0 x)%Q.
Proof.
  unfold py_max. destruct (Qlt_bool 0 x) eqn:E; [|lra].
  apply Qlt_bool_iff in E. lra.
Qed.

Lemma py_max_0_le_1 x : (x <= 1)%Q -> (py_max 0 x <= 1)%Q.
Proof. intros Hx. unfold py_max. destruct (Qlt_bool 0 x); lra. Qed.

Lemma py_min_1_le x : (py_min 1 x <= 1)%Q.
Proof.
  unfold py_min. destruct (Qlt_bool x 1) eqn:E; [|lra].
  apply Qlt_bool_iff in E. lra.
Qed.

(** X27.  The duty cycle is a fraction: whenever it is returned it lies
    in [0, 1].  It is 0 without a series or with an empty one, and 1 for a
    non-empty series when the range lacks a start or an end. *)
Theorem duty_cycle_is_a_fraction
    (series_obj : option series) (date_range : option DateRange) (d : Q) :
  compute_duty_cycle series_obj date_range = Ok d ->
  (0 <= d <= 1)%Q
  /\ (series_obj = None \/ series_obj = Some [] -> d = 0%Q)
  /\ (forall s, series_obj = Some s -> s <> [] ->
        date_range = None
        \/ (exists r, date_range = Some r
                      /\ (dr_start r = None \/ dr_end r = None)) ->
        d = 1%Q).
Proof.
  unfold compute_duty_cycle.
  destruct series_obj as [[|kv s]|].
  - intros [= <-]. split; [lra|]. split; [reflexivity|].
    intros s0 [= <-] Hne. contradiction.
  - destruct date_range as [[[range_start|] [range_end|]]|].
    + intros Hrun. split; [|split].
      * revert Hrun.
        destruct (sorted_keys (map fst (kv :: s))) as [ts|e]; [|discriminate].
        unfold mbind at 1, result_bind at 1.
        destruct (length ts <? 2)%nat; [intros [= <-]; lra|].
        cbv zeta. destruct (Qle_bool _ 0); [intros [= <-]; lra|].
        destruct (sub_seconds range_end range_start) as [total|e];
          [|discriminate].
        unfold mbind, result_bind. intros [= <-].
        split; [apply py_max_0_nonneg|].
        apply py_max_0_le_1, py_min_1_le.
      * intros [Hn|Hn]; discriminate.
      * intros s0 _ _ [Hn|(r & [= <-] & [Hn|Hn])]; discriminate.
    + intros [= <-]. split; [lra|]. split; [intros [?|?]; discriminate|].
      reflexivity.
    + intros [= <-]. split; [lra|]. split; [intros [?|?]; discriminate|].
      reflexivity.
    + intros [= <-]. split; [lra|]. split; [intros [?|?]; discriminate|].
      reflexivity.
    + intros [= <-]. split; [lra|]. split; [intros [?|?]; discriminate|].
      reflexivity.
  - intros [= <-]. split; [lra|]. split; [reflexivity|].
    intros s0 Hs. discriminate.
Qed.

End DutyCycle.

Lemma duty_cycle_is_a_fraction_witness :
  exists d,
    IoAdapters.compute_duty_cycle
      (Some [(Examples.hour 0, 100%Q); (Examples.hour 1, 101%Q);
             (Examples.hour 3, 102%Q)])
      (Some (IoAdapters.mk_DateRange (Some (Examples.hour 0))
               (Some (Examples.hour 4)))) = Ok d
    /\ (0 <= d <= 1)%Q.
Proof.
  eexists. split; [vm_compute; reflexivity|].
  refine (proj1 (duty_cycle_is_a_fraction
                   (Some [(Examples.hour 0, 100%Q); (Examples.hour 1, 101%Q);
                          (Examples.hour 3, 102%Q)])
                   (Some (IoAdapters.mk_DateRange (Some (Examples.hour 0))
                            (Some (Examples.hour 4)))) _ _)).
  vm_compute. reflexivity.
Defined.

(** ** Reference state *)

Section ReferenceMore.
Import Datetime Models Numpy AlertLogic ReferenceState.

Lemma min_by_from_spec (rest : list (datetime * Q)) :
  forall best best_d,
    exists d,
      (min_by_from best best_d rest, d) ∈ (best, best_d) :: rest
      /\ Forall (fun kd => (d <= kd.2)%Q) ((best, best_d) :: rest).
Proof.
  induction rest as [|[k1 d1] rest IH]; intros best best_d; simpl.
  - exists best_d. split; [apply list_elem_of_here|].
    constructor; [simpl; lra|constructor].
  - destruct (Qlt_bool d1 best_d) eqn:E.
    + apply Qlt_bool_iff in E.
      destruct (IH k1 d1) as (d & Hin & Hall). exists d.
      split; [apply list_elem_of_further, Hin|].
      inversion Hall as [|? ? Hd1 Hrest]; subst. simpl in Hd1.
      constructor; [simpl; lra|]. constructor; [exact Hd1|exact Hrest].
    + apply Qlt_bool_false in E.
      destruct (IH best best_d) as (d & Hin & Hall). exists d.
      inversion Hall as [|? ? Hbd Hrest]; subst. simpl in Hbd.
      split.
      * apply elem_of_cons in Hin as [Heq|Hin];
          [rewrite Heq; apply list_elem_of_here|].
        apply list_elem_of_further, list_elem_of_further, Hin.
      * constructor; [exact Hbd|]. constructor; [simpl; lra|exact Hrest].
Qed.

Lemma sub_seconds_aware a b :
  is_aware a = true -> is_aware b = true ->
  exists d, sub_seconds a b = Ok d
            /\ (d == Datetime.timestamp a - Datetime.timestamp b)%Q.
Proof.
  unfold is_aware, sub_seconds, Datetime.timestamp, instant.
  destruct (tzoffset a) as [oa|]; [|discriminate].
  destruct (tzoffset b) as [ob|]; [|discriminate].
  intros _ _. eexists. split; [reflexivity|].
  simpl. unfold Z.sub.
  repeat (rewrite inject_Z_plus || rewrite inject_Z_opp).
  unfold Qdiv. ring.
Qed.

Lemma mapM_result_Forall2 {A B} (f : A -> result B) (l : list A) (r : list B) :
  mapM f l = Ok r -> Forall2 (fun x y => f x = Ok y) l r.
Proof.
  revert r. induction l as [|a l IH]; intros r; simpl.
  - intros [= <-]. constructor.
  - unfold mbind, result_bind, mret, result_ret.
    destruct (f a) as [y|e] eqn:Ea; [|discriminate].
    destruct (mapM f l) as [k|e] eqn:El; [|discriminate].
    intros [= <-]. constructor; [exact Ea|apply IH; reflexivity].
Qed.

Lemma mapM_result_total {A B} (f : A -> result B) (l : list A) :
  Forall (fun x => exists y, f x = Ok y) l -> exists r, mapM f l = Ok r.
Proof.
  induction 1 as [|a l [y Hy] _ [r Hr]]; simpl; [eexists; reflexivity|].
  unfold mbind, result_bind, mret, result_ret. rewrite Hy.
  destruct (mapM f l) as [k|e]; [eexists; reflexivity|discriminate].
Qed.

(** X28.  For an aware target and a non-empty series with aware keys the
    nearest-value lookup returns the value stored at a sampled instant
    whose distance in time to the target is minimal over the series. *)
Theorem nearest_value_is_closest_sample
    (s : series) (target_ts : datetime) :
  s <> [] ->
  Forall (fun kv => is_aware kv.1 = true) s ->
  is_aware target_ts = true ->
  exists nearest_ts v,
    _nearest_value s target_ts = Ok (Some v)
    /\ nearest_ts ∈ map fst s
    /\ v = series_get s nearest_ts
    /\ forall ts, ts ∈ map fst s ->
         (Qabs (Datetime.timestamp nearest_ts - Datetime.timestamp target_ts)
          <= Qabs (Datetime.timestamp ts - Datetime.timestamp target_ts))%Q.
Proof.
  intros Hne Hkeys Htarget. unfold _nearest_value.
  destruct s as [|kv0 s0] eqn:Es; [contradiction|]. rewrite <- Es in *.
  set (f := fun kv : datetime * Q =>
              d ← sub_seconds kv.1 target_ts; Ok (kv.1, Qabs d)).
  assert (forall kv, is_aware kv.1 = true ->
            exists d, f kv = Ok (kv.1, Qabs d)
                      /\ (d == Datetime.timestamp kv.1
                               - Datetime.timestamp target_ts)%Q) as Hf.
  { intros kv Hkv. destruct (sub_seconds_aware kv.1 target_ts Hkv Htarget)
      as (d & Hd & Heq).
    exists d. unfold f. rewrite Hd. split; [reflexivity|exact Heq]. }
  destruct (mapM_result_total f s) as [keyed Hkeyed].
  { eapply Forall_impl; [exact Hkeys|]. cbv beta. intros kv Hkv.
    destruct (Hf kv Hkv) as (d & Hd & _). eauto. }
  rewrite Hkeyed. unfold mbind, result_bind.
  pose proof (mapM_result_Forall2 _ _ _ Hkeyed) as Hall.
  assert (forall k d, (k, d) ∈ keyed ->
            k ∈ map fst s
            /\ (d == Qabs (Datetime.timestamp k
                           - Datetime.timestamp target_ts))%Q) as Hkd.
  { intros k d Hin. apply list_elem_of_lookup in Hin as [i Hi].
    destruct (Forall2_lookup_r _ _ _ _ _ Hall Hi) as (kv & Hkv & Hfkv).
    rewrite Forall_forall in Hkeys.
    destruct (Hf kv (Hkeys kv (list_elem_of_lookup_2 _ _ _ Hkv)))
      as (d' & Hd' & Heq).
    rewrite Hd' in Hfkv. injection Hfkv as <- <-.
    split; [apply list_elem_of_fmap; exists kv; split;
            [reflexivity|eapply list_elem_of_lookup_2, Hkv]|].
    rewrite Heq. reflexivity. }
  assert (forall ts, ts ∈ map fst s -> exists d, (ts, d) ∈ keyed) as Hcov.
  { intros ts Hts. apply list_elem_of_fmap in Hts as (kv & -> & Hkv).
    apply list_elem_of_lookup in Hkv as [i Hi].
    destruct (Forall2_lookup_l _ _ _ _ _ Hall Hi) as ([k d] & Hkd' & Hfkv).
    rewrite Forall_forall in Hkeys.
    destruct (Hf kv (Hkeys kv (list_elem_of_lookup_2 _ _ _ Hi)))
      as (d' & Hd' & _).
    rewrite Hd' in Hfkv. injection Hfkv as <- <-.
    exists (Qabs d'). eapply list_elem_of_lookup_2, Hkd'. }
  destruct keyed as [|[k d] rest].
  { apply Forall2_length in Hall. rewrite Es in Hall. discriminate. }
  destruct (min_by_from_spec rest k d) as (dmin & Hin & Hmin).
  exists (min_by_from k d rest), (series_get s (min_by_from k d rest)).
  destruct (Hkd _ _ Hin) as [Hmem Hdist].
  split; [rewrite Es; reflexivity|]. split; [exact Hmem|].
  split; [reflexivity|].
  intros ts Hts. destruct (Hcov ts Hts) as (dts & Hdts).
  destruct (Hkd _ _ Hdts) as [_ Hdts_eq].
  rewrite Forall_forall in Hmin. specialize (Hmin _ Hdts). simpl in Hmin.
  rewrite <- Hdist, <- Hdts_eq. exact Hmin.
Qed.

Lemma last_reference_of_Some fetched_txs fetched_series keyword ref :
  last_reference_of fetched_txs fetched_series keyword = Ok (Some ref) ->
  exists txs tx s,
    fetched_txs = Ok txs
    /\ last (filter (fun t => Is_true (is_tagged keyword t)) txs) = Some tx
    /\ ref.1 = normalize_timestamp (timestamp tx)
    /\ fetched_series = Ok (Some s)
    /\ _nearest_value s ref.1 = Ok (Some ref.2).
Proof.
  unfold last_reference_of.
  destruct fetched_txs as [txs|e]; [|discriminate].
  destruct (last _) as [tx|] eqn:Elast; [|discriminate].
  destruct fetched_series as [[[|kv s]|]|e]; try discriminate.
  cbv zeta.
  destruct (_nearest_value (kv :: s) _) as [[v|]|e] eqn:Env;
    unfold mbind, result_bind; try discriminate.
  intros [= <-]. exists txs, tx, (kv :: s). cbn [fst snd].
  repeat split; auto.
Qed.

Lemma get_last_reference_acc fetch_transactions fetch_asset_series
    keyword (assets : list string) :
  forall results res,
    get_last_reference fetch_transactions fetch_asset_series assets keyword
      results = Ok res ->
    forall asset ref,
      res !! asset = Some ref ->
      results !! asset = Some ref
      \/ (asset ∈ assets
          /\ last_reference_of (fetch_transactions asset)
               (fetch_asset_series asset) keyword = Ok (Some ref)).
Proof.
  induction assets as [|a assets IH]; intros results res; cbn [get_last_reference].
  - intros [= <-] asset ref Href. left. exact Href.
  - destruct (last_reference_of (fetch_transactions a)
                (fetch_asset_series a) keyword) as [r|e] eqn:Ea;
      [|discriminate].
    unfold mbind, result_bind. intros Hrun asset ref Href.
    destruct (IH _ _ Hrun asset ref Href) as [Hprev|[Hin Hlast]].
    + destruct r as [r|]; [|left; exact Hprev].
      destruct (decide (a = asset)) as [->|Hne].
      * rewrite lookup_insert_eq in Hprev. injection Hprev as ->.
        right. split; [apply list_elem_of_here|exact Ea].
      * rewrite lookup_insert_ne in Hprev by exact Hne. left. exact Hprev.
    + right. split; [apply list_elem_of_further, Hin|exact Hlast].
Qed.

(** X29.  Every reference returned belongs to a requested asset: its
    time is the UTC timestamp of the last withdrawal of that asset whose
    notes contain the keyword, and its value is the nearest value of the
    asset's series at that time.  An asset whose read failed, or without
    such a withdrawal, has no entry. *)
Theorem last_reference_provenance
    (fetch_transactions : string -> result (list Transaction))
    (fetch_asset_series : string -> result (option series))
    (assets : list string) (keyword : string)
    (res : gmap string (datetime * Q)) :
  get_last_reference fetch_transactions fetch_asset_series assets keyword ∅
    = Ok res ->
  forall asset ref,
    res !! asset = Some ref ->
    asset ∈ assets
    /\ is_utc ref.1
    /\ exists txs tx s,
         fetch_transactions asset = Ok txs
         /\ last (filter (fun t => Is_true (is_tagged keyword t)) txs)
            = Some tx
         /\ transaction_type tx = "withdrawal"
         /\ ref.1 = normalize_timestamp (timestamp tx)
         /\ fetch_asset_series asset = Ok (Some s)
         /\ _nearest_value s ref.1 = Ok (Some ref.2).
Proof.
  intros Hrun asset ref Href.
  destruct (get_last_reference_acc _ _ _ _ _ _ Hrun asset ref Href)
    as [Hempty|[Hin Hlast]].
  { rewrite lookup_empty in Hempty. discriminate. }
  split; [exact Hin|].
  apply last_reference_of_Some in Hlast
    as (txs & tx & s & Htx & Hl & Ht0 & Hs & Hv).
  split; [rewrite Ht0; apply normalize_is_utc|].
  exists txs, tx, s. repeat split; try assumption.
  rewrite last_lookup in Hl. apply list_elem_of_lookup_2 in Hl.
  apply list_elem_of_filter in Hl as [Htag _].
  unfold is_tagged in Htag.
  destruct (String.eqb_spec (transaction_type tx) "withdrawal") as [E|E];
    [exact E|destruct Htag].
Qed.

End ReferenceMore.

Lemma nearest_value_is_closest_sample_witness :
  exists v,
    ReferenceState._nearest_value
      [(Examples.hour 0, 100%Q); (Examples.hour 2, 120%Q)]
      (Datetime.utc 6000000000) = Ok (Some v).
Proof.
  destruct (nearest_value_is_closest_sample
              [(Examples.hour 0, 100%Q); (Examples.hour 2, 120%Q)]
              (Datetime.utc 6000000000))
    as (k & v & Hv & _).
  - discriminate.
  - repeat constructor.
  - reflexivity.
  - exists v. exact Hv.
Defined.

Lemma last_reference_provenance_witness :
  let fetch_transactions := fun _ : string =>
    Ok [Models.mk_Transaction (Examples.hour 1) "addr1" "market" "usdc"
          (-5) "withdrawal" (Some "alert reference") (Examples.hour 1)] in
  let fetch_asset_series := fun _ : string =>
    Ok (Some [(Examples.hour 0, 100%Q); (Examples.hour 2, 120%Q)]) in
  exists res ref,
    ReferenceState.get_last_reference fetch_transactions fetch_asset_series
      ["usdc"] "reference" ∅ = Ok res
    /\ res !! "usdc" = Some ref
    /\ is_utc ref.1.
Proof.
  cbv zeta. eexists. eexists.
  split; [vm_compute; reflexivity|]. split; [vm_compute; reflexivity|].
  refine (proj1 (proj2 (last_reference_provenance
                          (fun _ : string =>
                             Ok [Models.mk_Transaction (Examples.hour 1)
                                   "addr1" "market" "usdc" (-5) "withdrawal"
                                   (Some "alert reference") (Examples.hour 1)])
                          (fun _ : string =>
                             Ok (Some [(Examples.hour 0, 100%Q);
                                       (Examples.hour 2, 120%Q)]))
                          ["usdc"] "reference" _ _ "usdc" _ _)));
    vm_compute; reflexivity.
Defined.

(** ** Asset names *)

Section UtilsMore.
Import AlertLogic Utils.

Lemma ascii_lower_idem c : ascii_lower (ascii_lower c) = ascii_lower c.
Proof. destruct c as [[] [] [] [] [] [] [] []]; reflexivity. Qed.

Lemma is_space_lower c : is_space (ascii_lower c) = is_space c.
Proof. destruct c as [[] [] [] [] [] [] [] []]; reflexivity. Qed.

Lemma str_lower_idem s : str_lower (str_lower s) = str_lower s.
Proof.
  induction s as [|c s IH]; simpl; [reflexivity|].
  rewrite ascii_lower_idem, IH. reflexivity.
Qed.

Lemma is_blank_lower s : is_blank (str_lower s) = is_blank s.
Proof.
  induction s as [|c s IH]; simpl; [reflexivity|].
  rewrite is_space_lower, IH. reflexivity.
Qed.

Lemma str_lstrip_lower s : str_lstrip (str_lower s) = str_lower (str_lstrip s).
Proof.
  induction s as [|c s IH]; simpl; [reflexivity|].
  rewrite is_space_lower. destruct (is_space c); [exact IH|reflexivity].
Qed.

Lemma str_rstrip_lower s : str_rstrip (str_lower s) = str_lower (str_rstrip s).
Proof.
  induction s as [|c s IH]; [reflexivity|].
  cbn [str_lower str_rstrip].
  change (is_blank (String (ascii_lower c) (str_lower s)))
    with (is_blank (str_lower (String c s))).
  rewrite is_blank_lower.
  destruct (is_blank (String c s)); [reflexivity|].
  cbn [str_lower]. rewrite IH. reflexivity.
Qed.

Lemma is_blank_rstrip s : is_blank (str_rstrip s) = is_blank s.
Proof.
  induction s as [|c s IH]; [reflexivity|].
  cbn [str_rstrip]. destruct (is_blank (String c s)) eqn:E; [reflexivity|].
  cbn [is_blank] in *. rewrite IH. exact E.
Qed.

Lemma str_rstrip_idem s : str_rstrip (str_rstrip s) = str_rstrip s.
Proof.
  induction s as [|c s IH]; [reflexivity|].
  cbn [str_rstrip]. destruct (is_blank (String c s)) eqn:E; [reflexivity|].
  cbn [str_rstrip].
  assert (is_blank (String c (str_rstrip s)) = false) as ->.
  { cbn [is_blank] in *. rewrite is_blank_rstrip. exact E. }
  rewrite IH. reflexivity.
Qed.

Lemma str_lstrip_head s :
  str_lstrip s = EmptyString
  \/ exists c s', str_lstrip s = String c s' /\ is_space c = false.
Proof.
  induction s as [|c s IH]; simpl; [left; reflexivity|].
  destruct (is_space c) eqn:E; [exact IH|]. right. eauto.
Qed.

Lemma str_strip_idem s : str_strip (str_strip s) = str_strip s.
Proof.
  unfold str_strip.
  assert (str_lstrip (str_rstrip (str_lstrip s)) = str_rstrip (str_lstrip s))
    as ->; [|apply str_rstrip_idem].
  destruct (str_lstrip_head s) as [->|(c & s' & -> & Hc)]; [reflexivity|].
  cbn [str_rstrip]. destruct (is_blank (String c s')); [reflexivity|].
  cbn [str_lstrip]. rewrite Hc. reflexivity.
Qed.

Lemma normalize_asset_symbol_idem s :
  normalize_asset_symbol (normalize_asset_symbol s) = normalize_asset_symbol s.
Proof.
  unfold normalize_asset_symbol.
  destruct (String.eqb s "") eqn:E; [reflexivity|].
  destruct (String.eqb_spec (str_lower (str_strip s)) "") as [->|_];
    [reflexivity|].
  unfold str_strip at 1.
  rewrite str_lstrip_lower, str_rstrip_lower, str_lower_idem.
  fold (str_strip (str_strip s)). rewrite str_strip_idem. reflexivity.
Qed.

(** X30.  Normalising an asset symbol and canonicalising a Minswap asset
    name are idempotent; 'usdc' and 'usdt' in any letter case and with
    surrounding blanks map to the wrapped names, which map to
    themselves. *)
Theorem canonicalize_minswap_asset_idempotent (name : string) :
  canonicalize_minswap_asset (canonicalize_minswap_asset name)
  = canonicalize_minswap_asset name
  /\ normalize_asset_symbol (normalize_asset_symbol name)
     = normalize_asset_symbol name
  /\ (normalize_asset_symbol name = "usdc"
      -> canonicalize_minswap_asset name = "wanusdc")
  /\ (normalize_asset_symbol name = "usdt"
      -> canonicalize_minswap_asset name = "wanusdt")
  /\ (normalize_asset_symbol name <> "usdc"
      -> normalize_asset_symbol name <> "usdt"
      -> canonicalize_minswap_asset name = normalize_asset_symbol name).
Proof.
  pose proof (normalize_asset_symbol_idem name) as Hidem.
  set (sym := normalize_asset_symbol name) in *.
  assert (canonicalize_minswap_asset name
          = if String.eqb sym "usdc" then "wanusdc"%string
            else if String.eqb sym "usdt" then "wanusdt"%string else sym)
    as Hc by reflexivity.
  split.
  { rewrite Hc.
    destruct (String.eqb_spec sym "usdc") as [E1|E1]; [reflexivity|].
    destruct (String.eqb_spec sym "usdt") as [E2|E2]; [reflexivity|].
    unfold canonicalize_minswap_asset. rewrite Hidem.
    destruct (String.eqb_spec sym "usdc"); [contradiction|].
    destruct (String.eqb_spec sym "usdt"); [contradiction|].
    reflexivity. }
  split; [exact Hidem|].
  rewrite Hc.
  split; [intros ->; reflexivity|]. split; [intros ->; reflexivity|].
  intros H1 H2.
  destruct (String.eqb_spec sym "usdc"); [contradiction|].
  destruct (String.eqb_spec sym "usdt"); [contradiction|].
  reflexivity.
Qed.

End UtilsMore.
